(** * Labmentix dashboards: the filter / aggregate / KPI layer

    A shallow embedding of the two Streamlit scripts of the repository,

      - [OLA Data Analysis/app.py]                      (module [Ola]),
      - [Video Game Analytics Dashboard/app.py]         (module [Games]),

    and of the pandas operations they call.

    Modelling choices.
    - A cell is a [value]: Python [None], the float [NaN] (also [NaT]),
      a [str], a number, or a timestamp.  float64 numbers are modelled by
      exact rationals [Q]; [NaN] is a constructor of its own.
    - A [DataFrame] is its list of column labels and its rows in index
      order; a row is the list of its cells, aligned with the labels.
    - A Python exception is the [Raise] case of [result].
    - Strings are byte strings (UTF-8).  [Py.lower] folds the ASCII letters
      only; the header predicates of the column resolver compare against
      ASCII words without [k] and with [i] followed by a letter, for which
      this agrees with [str.lower] on every UTF-8 header.
    - What pandas, numpy and [re] do beyond the calls' documented contract
      (parsing text into numbers and dates, printing floats, the order in
      which the default [quicksort] leaves ties, regular expressions with
      metacharacters, [pd.merge], aggregates of object columns) is
      the interface [PandasLib]; every theorem holds for each instance.
    - Objects that the scripts mutate in place live in a [store]
      ([gmap] from locations to frames); Python variables hold locations. *)

From Stdlib Require Import String Ascii List ZArith QArith Qround Bool Lia.
From Stdlib Require Import Permutation Sorted DecimalString.
From stdpp Require Import gmap.
Import ListNotations.
Local Open Scope string_scope.
Local Open Scope list_scope.

(** ** Python strings *)

Module Py.

Definition is_upper (c : ascii) : bool :=
  Nat.leb 65 (nat_of_ascii c) && Nat.leb (nat_of_ascii c) 90.

Definition lower_ascii (c : ascii) : ascii :=
  if is_upper c then ascii_of_nat (nat_of_ascii c + 32) else c.

(** [s.lower()] *)
Fixpoint lower (s : string) : string :=
  match s with
  | EmptyString => EmptyString
  | String c s' => String (lower_ascii c) (lower s')
  end.

(** [s.startswith(p)] *)
Definition startswith (s p : string) : bool := String.prefix p s.

(** [p in s] *)
Fixpoint contains (s p : string) : bool :=
  String.prefix p s ||
  match s with
  | EmptyString => false
  | String _ s' => contains s' p
  end.

(** [s.endswith(p)] *)
Definition endswith (s p : string) : bool :=
  Nat.leb (String.length p) (String.length s) &&
  String.eqb (String.substring (String.length s - String.length p) (String.length p) s) p.

(** The characters [str.strip()] removes (the ASCII ones). *)
Definition is_space (c : ascii) : bool :=
  let n := nat_of_ascii c in
  Nat.eqb n 32 || (Nat.leb 9 n && Nat.leb n 13) || (Nat.leb 28 n && Nat.leb n 31).

Fixpoint lstrip (s : string) : string :=
  match s with
  | EmptyString => EmptyString
  | String c s' => if is_space c then lstrip s' else s
  end.

Fixpoint rstrip (s : string) : string :=
  match s with
  | EmptyString => EmptyString
  | String c s' =>
      match rstrip s' with
      | EmptyString => if is_space c then EmptyString else String c EmptyString
      | t => String c t
      end
  end.

(** [s.strip()] *)
Definition strip (s : string) : string := rstrip (lstrip s).

(** Truth value of a [str]: the empty string is falsy. *)
Definition truthy (s : string) : bool := negb (String.eqb s "").

(** Truth value of [None] or a [str]. *)
Definition truthy_opt (o : option string) : bool :=
  match o with
  | Some s => truthy s
  | None => false
  end.

(** Truth value of a list. *)
Definition nonempty {A : Type} (l : list A) : bool :=
  match l with
  | [] => false
  | _ :: _ => true
  end.

(** [next((c for c in xs if p(c)), None)] *)
Fixpoint next_match {A : Type} (p : A -> bool) (xs : list A) : option A :=
  match xs with
  | [] => None
  | x :: xs' => if p x then Some x else next_match p xs'
  end.

End Py.

(** ** Exceptions *)

Inductive exn : Type :=
| KeyError (key : string)
| TypeError
| ValueError
| AttributeError
| FileNotFoundError
| ParserError
| DatabaseError
| ReError
| NameError.

Inductive result (A : Type) : Type :=
| Ok (a : A)
| Raise (e : exn).

Arguments Ok {A} a.
Arguments Raise {A} e.

Definition bind {A B : Type} (m : result A) (k : A -> result B) : result B :=
  match m with
  | Ok a => k a
  | Raise e => Raise e
  end.

Notation "'let*' x ':=' m 'in' k" := (bind m (fun x => k))
  (at level 10, x name, m at level 100, k at level 200).

Definition raises {A : Type} (m : result A) : Prop := exists e, m = Raise e.

(** ** Cells and frames *)

Inductive value : Type :=
| VNone
| VNaN
| VStr (s : string)
| VNum (q : Q)
| VTime (t : Z).

(** [pd.isna] *)
Definition isna (v : value) : bool :=
  match v with
  | VNone | VNaN => true
  | _ => false
  end.

(** Equality of two cells as [isin] and [==] on a column see it. *)
Definition value_eqb (a b : value) : bool :=
  match a, b with
  | VNone, VNone => true
  | VNaN, VNaN => true
  | VStr s, VStr t => String.eqb s t
  | VNum p, VNum q => Qeq_bool p q
  | VTime s, VTime t => Z.eqb s t
  | _, _ => false
  end.

Definition row : Type := list value.

Record DataFrame : Type := mkDF {
  columns : list string;
  rows : list row
}.

(** [pd.DataFrame()] *)
Definition empty_frame : DataFrame := mkDF [] [].

(** [len(df)] *)
Definition len (df : DataFrame) : nat := List.length (rows df).

(** [df.empty]: some axis has length zero. *)
Definition df_empty (df : DataFrame) : bool :=
  Nat.eqb (List.length (columns df)) 0 || Nat.eqb (len df) 0.

(** Position of the first label equal to [c]. *)
Fixpoint col_index (c : string) (cols : list string) : option nat :=
  match cols with
  | [] => None
  | x :: cols' =>
      if String.eqb x c then Some 0%nat
      else option_map S (col_index c cols')
  end.

(** [c in df.columns] *)
Definition has_col (df : DataFrame) (c : string) : bool :=
  match col_index c (columns df) with
  | Some _ => true
  | None => false
  end.

(** [None in df.columns] is [False]; a label is looked up. *)
Definition has_col_opt (df : DataFrame) (c : option string) : bool :=
  match c with
  | Some s => has_col df s
  | None => false
  end.

(** [set(cs).issubset(df.columns)] *)
Definition has_cols (df : DataFrame) (cs : list string) : bool :=
  forallb (has_col df) cs.

(** The cell of row [r] at position [i]. *)
Definition cell_at (i : nat) (r : row) : value := nth i r VNaN.

(** [df[c]]: the column as a list, [KeyError] when the label is absent. *)
Definition getitem (df : DataFrame) (c : string) : result (list value) :=
  match col_index c (columns df) with
  | Some i => Ok (map (cell_at i) (rows df))
  | None => Raise (KeyError c)
  end.

(** [df[mask]]: the rows whose mask entry is [True], in order. *)
Fixpoint select_rows (rs : list row) (mask : list bool) : list row :=
  match rs, mask with
  | r :: rs', b :: mask' =>
      if b then r :: select_rows rs' mask' else select_rows rs' mask'
  | _, _ => []
  end.

Definition boolean_index (df : DataFrame) (mask : list bool) : DataFrame :=
  mkDF (columns df) (select_rows (rows df) mask).

(** Replace position [i] of a row. *)
Fixpoint set_nth (i : nat) (v : value) (r : row) : row :=
  match r, i with
  | [], _ => []
  | _ :: r', O => v :: r'
  | x :: r', S i' => x :: set_nth i' v r'
  end.

Fixpoint zip_with {A B C : Type} (f : A -> B -> C) (xs : list A) (ys : list B)
  : list C :=
  match xs, ys with
  | x :: xs', y :: ys' => f x y :: zip_with f xs' ys'
  | _, _ => []
  end.

(** [df[c] = vals] on a frame and a column of its length: the column is
    overwritten when the label exists and appended otherwise. *)
Definition setitem (df : DataFrame) (c : string) (vals : list value) : DataFrame :=
  match col_index c (columns df) with
  | Some i => mkDF (columns df) (zip_with (fun r v => set_nth i v r) (rows df) vals)
  | None => mkDF (columns df ++ [c]) (zip_with (fun r v => r ++ [v]) (rows df) vals)
  end.

(** [df[[c1; ...; cn]]]: the listed columns, [KeyError] on the first
    absent label. *)
Fixpoint col_indices (cs : list string) (cols : list string) : result (list nat) :=
  match cs with
  | [] => Ok []
  | c :: cs' =>
      match col_index c cols with
      | Some i => let* ixs := col_indices cs' cols in Ok (i :: ixs)
      | None => Raise (KeyError c)
      end
  end.

Definition select_cols (df : DataFrame) (cs : list string) : result DataFrame :=
  let* ixs := col_indices cs (columns df) in
  Ok (mkDF cs (map (fun r => map (fun i => cell_at i r) ixs) (rows df))).

(** [s.isin(selected)] *)
Definition isin (vs : list value) (selected : list value) : list bool :=
  map (fun v => existsb (value_eqb v) selected) vs.

(** [s == "text"] *)
Definition eq_str (vs : list value) (s : string) : list bool :=
  map (fun v => value_eqb v (VStr s)) vs.

(** [df.iloc[idx]]: the rows at the given positions. *)
Definition take (rs : list row) (idx : list nat) : list row :=
  map (fun i => nth i rs []) idx.

(** [df.head(n)] *)
Definition head (n : nat) (df : DataFrame) : DataFrame :=
  mkDF (columns df) (firstn n (rows df)).

(** ** Numbers *)

(** A column of dtype float64: numbers and [NaN] only.  Every other
    column has dtype object (or datetime). *)
Definition is_float_col (vs : list value) : bool :=
  forallb (fun v => match v with VNum _ | VNaN => true | _ => false end) vs.

(** The numbers of a column, missing cells skipped. *)
Definition nums (vs : list value) : list Q :=
  flat_map (fun v => match v with VNum q => [q] | _ => [] end) vs.

Definition qsum (qs : list Q) : Q := fold_right Qplus 0%Q qs.

(** [s.fillna(0)] *)
Definition fillna0 (vs : list value) : list value :=
  map (fun v => if isna v then VNum 0 else v) vs.

(** Rounding to the nearest integer, ties to the even one. *)
Definition round_half_even (x : Q) : Z :=
  let f := Qfloor x in
  let d := (x - inject_Z f)%Q in
  match Qcompare d (1 # 2) with
  | Lt => f
  | Gt => (f + 1)%Z
  | Eq => if Z.even f then f else (f + 1)%Z
  end.

(** [round(x, 2)] on a number. *)
Definition round2 (x : Q) : Q := Qred (round_half_even (x * 100) # 100).

(** [round(v, 2)] on a float: [NaN] stays [NaN]. *)
Definition round2_value (v : value) : result value :=
  match v with
  | VNum q => Ok (VNum (round2 q))
  | VNaN => Ok VNaN
  | _ => Raise TypeError
  end.

(** ** The library interface *)

(** Positions [0 .. n-1] paired with the cells of a column. *)
Definition indexed {A : Type} (vs : list A) : list (nat * A) :=
  combine (seq 0 (List.length vs)) vs.

Definition qnth (qs : list Q) (i : nat) : Q := nth i qs 0%Q.

(** [idx] lists positions of [qs] in ascending order of their numbers. *)
Definition ascending (qs : list Q) (idx : list nat) : Prop :=
  StronglySorted (fun i j => (qnth qs i <= qnth qs j)%Q) idx.

(** The same, equal numbers in the order of their positions. *)
Definition ascending_stable (qs : list Q) (idx : list nat) : Prop :=
  StronglySorted
    (fun i j => (qnth qs i < qnth qs j)%Q \/ ((qnth qs i == qnth qs j)%Q /\ (i < j)%nat))
    idx.

(** A pattern without regular-expression syntax: ASCII letters, digits
    and spaces. *)
Definition plain_char (c : ascii) : bool :=
  let n := nat_of_ascii c in
  Nat.eqb n 32 || (Nat.leb 48 n && Nat.leb n 57) ||
  (Nat.leb 65 n && Nat.leb n 90) || (Nat.leb 97 n && Nat.leb n 122).

Fixpoint string_forall (p : ascii -> bool) (s : string) : bool :=
  match s with
  | EmptyString => true
  | String c s' => p c && string_forall p s'
  end.

Definition plain_pattern (s : string) : bool := string_forall plain_char s.

Definition is_ascii (s : string) : bool :=
  string_forall (fun c => Nat.ltb (nat_of_ascii c) 128) s.

Class PandasLib : Type := {
  (** [pd.to_numeric(text, errors='coerce')]: [None] when unparseable. *)
  parse_float : string -> option Q;
  (** [pd.to_datetime(cell, errors='coerce')] on a non-missing cell. *)
  parse_datetime : value -> option Z;
  (** [str(x)] of a float and of a timestamp. *)
  str_of_num : Q -> string;
  str_of_time : Z -> string;
  (** [sum()] and [mean()] of an object column. *)
  object_sum : list value -> result value;
  object_mean : list value -> result value;
  (** [numpy.argsort(kind='quicksort')] on the non-missing cells of a
      column.  On numbers it returns the positions in ascending order of
      the numbers; numpy promises no order among equal numbers. *)
  argsort : list value -> result (list nat);
  argsort_numbers : forall qs : list Q,
    exists idx, argsort (map VNum qs) = Ok idx /\
      Permutation idx (seq 0 (List.length qs)) /\ ascending qs idx;
  (** [re.compile(pat, re.IGNORECASE)] and the compiled pattern's
      [search(s) is not None].  A plain pattern compiles and is found in
      ASCII text exactly where it occurs up to letter case. *)
  re_compile_ic : string -> result (string -> bool);
  re_plain : forall pat : string, plain_pattern pat = true ->
    exists m, re_compile_ic pat = Ok m /\
      forall s, is_ascii s = true -> m s = Py.contains (Py.lower s) (Py.lower pat);
  (** The pattern [.] is a wildcard: it is found in every text that
      starts with a character other than the newline.  The pattern [(] is
      an unterminated group and does not compile. *)
  re_dot : exists m, re_compile_ic "." = Ok m /\
    forall c s, c <> "010"%char -> m (String c s) = true;
  re_open_paren : re_compile_ic "(" = Raise ReError;
  (** [pd.merge(g, s, left_on=l, right_on=r, how='outer',
      suffixes=('_games','_sales'))] *)
  merge_outer : DataFrame -> DataFrame -> string -> string -> result DataFrame;
  (** [df.corr()] *)
  corr : DataFrame -> result DataFrame
}.

(** numpy's sort keeps equal numbers in the order of their positions. *)
Definition stable_argsort (L : PandasLib) : Prop :=
  forall (qs : list Q) (idx : list nat),
    argsort (map VNum qs) = Ok idx -> ascending_stable qs idx.

Section Library.

Context {L : PandasLib}.

(** [pd.to_numeric(s, errors='coerce')], cell by cell. *)
Definition to_numeric_cell (v : value) : value :=
  match v with
  | VNum q => VNum q
  | VNaN | VNone => VNaN
  | VStr s => match parse_float s with Some q => VNum q | None => VNaN end
  | VTime t => VNum (inject_Z (t * 1000000000))
  end.

Definition to_numeric (vs : list value) : list value := map to_numeric_cell vs.

(** [pd.to_datetime(s, errors='coerce')], cell by cell. *)
Definition to_datetime_cell (v : value) : value :=
  if isna v then VNaN
  else match parse_datetime v with Some t => VTime t | None => VNaN end.

Definition to_datetime (vs : list value) : list value := map to_datetime_cell vs.

(** [s.astype(str)], cell by cell: missing cells become the text of
    their Python value. *)
Definition astype_str_cell (v : value) : string :=
  match v with
  | VNone => "None"
  | VNaN => "nan"
  | VStr s => s
  | VNum q => str_of_num q
  | VTime t => str_of_time t
  end.

Definition astype_str (vs : list value) : list string := map astype_str_cell vs.

(** [s.sum()] *)
Definition series_sum (vs : list value) : result value :=
  if is_float_col vs then Ok (VNum (Qred (qsum (nums vs))))
  else object_sum vs.

(** [s.mean()]: [NaN] when no number is left. *)
Definition series_mean (vs : list value) : result value :=
  if is_float_col vs then
    match nums vs with
    | [] => Ok VNaN
    | qs => Ok (VNum (Qred (qsum qs / inject_Z (Z.of_nat (List.length qs)))))
    end
  else object_mean vs.

(** [s >= x] on a float64 column: a number is compared, [NaN] is not
    above anything. *)
Definition ge_float (vs : list value) (x : Q) : list bool :=
  map (fun v => match v with VNum q => Qle_bool x q | _ => false end) vs.

(** [(s >= lo) & (s <= hi)]; comparing an object column with a number
    raises. *)
Definition between (vs : list value) (lo hi : Q) : result (list bool) :=
  if is_float_col vs then
    Ok (map (fun v => match v with
                      | VNum q => Qle_bool lo q && Qle_bool q hi
                      | _ => false
                      end) vs)
  else Raise TypeError.

Fixpoint mapM {A B : Type} (f : A -> result B) (xs : list A) : result (list B) :=
  match xs with
  | [] => Ok []
  | x :: xs' =>
      let* y := f x in
      let* ys := mapM f xs' in
      Ok (y :: ys)
  end.

(** [s.dt.hour] of a datetime column (timestamps in seconds); a column
    that is not datetime has no [dt]. *)
Definition dt_hour (vs : list value) : result (list value) :=
  mapM (fun v => match v with
                 | VTime t => Ok (VNum (inject_Z ((t / 3600) mod 24)))
                 | VNaN => Ok VNaN
                 | _ => Raise AttributeError
                 end) vs.

(** [s.nunique()]: the number of distinct non-missing cells. *)
Fixpoint distinct (vs : list value) : list value :=
  match vs with
  | [] => []
  | v :: vs' =>
      if isna v || existsb (value_eqb v) vs' then distinct vs' else v :: distinct vs'
  end.

Definition nunique (vs : list value) : nat := List.length (distinct vs).

(** [df.columns = [f(c) for c in df.columns]] *)
Definition rename_columns (f : string -> string) (df : DataFrame) : DataFrame :=
  mkDF (map f (columns df)) (rows df).

(** *** Sorting *)

(** The positions and numbers of the non-missing cells; the positions of
    the missing ones. *)
Definition present (vs : list value) : list (nat * value) :=
  List.filter (fun p => negb (isna (snd p))) (indexed vs).

Definition missing (vs : list value) : list nat :=
  map fst (List.filter (fun p => isna (snd p)) (indexed vs)).

(** pandas' [nargsort(items, ascending=False, na_position='last')]: the
    non-missing cells are reversed, sorted ascending by numpy, the result
    is reversed, and the missing positions are appended. *)
Definition nargsort_desc (vs : list value) : result (list nat) :=
  let non_nans := rev (present vs) in
  let* order := argsort (map snd non_nans) in
  let indexer := map (fun k => nth k (map fst non_nans) 0%nat) order in
  Ok (rev indexer ++ missing vs).

(** [df.sort_values(by=c, ascending=False)] *)
Definition sort_values_desc (df : DataFrame) (c : string) : result DataFrame :=
  let* vs := getitem df c in
  let* idx := nargsort_desc vs in
  Ok (mkDF (columns df) (take (rows df) idx)).

(** Insertion of an entry before the first one it is not above in the
    order [le]: with entries inserted from the last to the first, entries
    that [le] does not tell apart keep the order of their positions. *)
Fixpoint insert_by (le : Q -> Q -> bool) (x : nat * Q) (l : list (nat * Q))
  : list (nat * Q) :=
  match l with
  | [] => [x]
  | y :: l' => if le (snd x) (snd y) then x :: l else y :: insert_by le x l'
  end.

Definition sort_by (le : Q -> Q -> bool) (l : list (nat * Q)) : list (nat * Q) :=
  fold_right (insert_by le) [] l.

(** Largest number first. *)
Definition sort_desc : list (nat * Q) -> list (nat * Q) :=
  sort_by (fun a b => Qle_bool b a).

Definition present_nums (vs : list value) : list (nat * Q) :=
  flat_map (fun p => match snd p with VNum q => [(fst p, q)] | _ => [] end) (indexed vs).

(** The positions [nlargest(n, keep='first')] selects in a float column:
    the largest numbers first, equal numbers in order of appearance,
    missing cells after all numbers, [n] positions at most. *)
Definition nlargest_idx (n : nat) (vs : list value) : list nat :=
  firstn n (map fst (sort_desc (present_nums vs)) ++ missing vs).

(** [df.nlargest(n, c)]; pandas refuses a column of dtype object. *)
Definition nlargest (n : nat) (df : DataFrame) (c : string) : result DataFrame :=
  let* vs := getitem df c in
  if is_float_col vs then Ok (mkDF (columns df) (take (rows df) (nlargest_idx n vs)))
  else Raise TypeError.

(** *** Grouping *)

Definition type_rank (v : value) : nat :=
  match v with
  | VNum _ => 0
  | VTime _ => 1
  | VStr _ => 2
  | _ => 3
  end.

(** The order of group keys: numbers by size, text by code point,
    numbers before text in a column that mixes them. *)
Definition value_ltb (a b : value) : bool :=
  match a, b with
  | VNum p, VNum q => negb (Qle_bool q p)
  | VStr s, VStr t => String.ltb s t
  | VTime s, VTime t => Z.ltb s t
  | _, _ => Nat.ltb (type_rank a) (type_rank b)
  end.

(** Add the cell [v] of a row with key [k] in front of its group; a new
    key takes its place in key order. *)
Fixpoint group_add (k v : value) (gs : list (value * list value))
  : list (value * list value) :=
  match gs with
  | [] => [(k, [v])]
  | (k', vs) :: gs' =>
      if value_eqb k k' then (k', v :: vs) :: gs'
      else if value_ltb k k' then (k, [v]) :: gs
      else (k', vs) :: group_add k v gs'
  end.

(** [groupby(k)[v]]: one group per non-missing key, keys sorted, the
    cells of a group in row order. *)
Definition groups (ks vs : list value) : list (value * list value) :=
  fold_right
    (fun kv gs => if isna (fst kv) then gs else group_add (fst kv) (snd kv) gs)
    [] (combine ks vs).

(** [df.groupby(k)[v].agg().reset_index()] for an aggregate given on
    float columns by [num_agg] and on object columns by [obj_agg]. *)
Definition groupby_agg (num_agg : list Q -> value)
    (obj_agg : list value -> result value)
    (df : DataFrame) (k v : string) : result DataFrame :=
  let* ks := getitem df k in
  let* vs := getitem df v in
  let* rs := mapM (fun g =>
               let* a := if is_float_col vs then Ok (num_agg (nums (snd g)))
                         else obj_agg (snd g) in
               Ok [fst g; a]) (groups ks vs) in
  Ok (mkDF [k; v] rs).

Definition sum_agg (qs : list Q) : value := VNum (Qred (qsum qs)).

Definition mean_agg (qs : list Q) : value :=
  match qs with
  | [] => VNaN
  | _ => VNum (Qred (qsum qs / inject_Z (Z.of_nat (List.length qs))))
  end.

(** [df.groupby(k)[v].sum().reset_index()] *)
Definition groupby_sum (df : DataFrame) (k v : string) : result DataFrame :=
  groupby_agg sum_agg object_sum df k v.

(** [df.groupby(k)[v].mean().reset_index()] *)
Definition groupby_mean (df : DataFrame) (k v : string) : result DataFrame :=
  groupby_agg mean_agg object_mean df k v.

(** [df.groupby(k)[v].count().reset_index()]: the non-missing cells of
    each group. *)
Definition groupby_count (df : DataFrame) (k v : string) : result DataFrame :=
  let* ks := getitem df k in
  let* vs := getitem df v in
  Ok (mkDF [k; v]
        (map (fun g =>
                [fst g;
                 VNum (inject_Z (Z.of_nat
                   (List.length (List.filter (fun x => negb (isna x)) (snd g)))))])
             (groups ks vs))).

(** [df[df[c].isin(selected)]] *)
Definition isin_filter (df : DataFrame) (c : string) (selected : list value)
  : result DataFrame :=
  let* vs := getitem df c in
  Ok (boolean_index df (isin vs selected)).

(** [df.groupby(k).size().reset_index(name=n)] *)
Definition groupby_size (df : DataFrame) (k n : string) : result DataFrame :=
  let* ks := getitem df k in
  Ok (mkDF [k; n]
        (map (fun g => [fst g; VNum (inject_Z (Z.of_nat (List.length (snd g))))])
             (groups ks ks))).

(** pandas' [nargsort(items, ascending=True, na_position='last')]. *)
Definition nargsort_asc (vs : list value) : result (list nat) :=
  let non_nans := present vs in
  let* order := argsort (map snd non_nans) in
  let indexer := map (fun k => nth k (map fst non_nans) 0%nat) order in
  Ok (indexer ++ missing vs).

(** [df.sort_values(c)] *)
Definition sort_values_asc (df : DataFrame) (c : string) : result DataFrame :=
  let* vs := getitem df c in
  let* idx := nargsort_asc vs in
  Ok (mkDF (columns df) (take (rows df) idx)).

(** A label that may be [None]: [df[None]] is a [KeyError]. *)
Definition label (c : option string) : string :=
  match c with
  | Some s => s
  | None => "None"
  end.

Definition getitem_opt (df : DataFrame) (c : option string) : result (list value) :=
  match c with
  | Some s => getitem df s
  | None => Raise (KeyError "None")
  end.

Definition select_cols_opt (df : DataFrame) (cs : list (option string))
  : result DataFrame :=
  if forallb (fun c => match c with Some _ => true | None => false end) cs
  then select_cols df (map label cs)
  else Raise (KeyError "None").

(** The distinct non-missing cells in order of first appearance. *)
Definition first_seen (vs : list value) : list value := rev (distinct (rev vs)).

Definition count_of (v : value) (vs : list value) : nat :=
  List.length (List.filter (value_eqb v) vs).

(** [s.value_counts().reset_index()] with the columns named [c] and [n]:
    one row per distinct cell, the most frequent first. *)
Definition value_counts (vs : list value) (c n : string) : result DataFrame :=
  let counted := mkDF [c; n]
    (map (fun v => [v; VNum (inject_Z (Z.of_nat (count_of v vs)))]) (first_seen vs)) in
  sort_values_desc counted n.

End Library.

(** ** Widget options *)

(** [s.dropna()] *)
Definition dropna (vs : list value) : list value :=
  List.filter (fun v => negb (isna v)) vs.

(** [s.unique()]: the distinct cells in order of first appearance, a
    missing cell among them; [seen] holds the cells met so far. *)
Fixpoint unique_from (seen vs : list value) : list value :=
  match vs with
  | [] => []
  | v :: vs' =>
      if existsb (value_eqb v) seen then unique_from seen vs'
      else v :: unique_from (v :: seen) vs'
  end.

Definition unique (vs : list value) : list value := unique_from [] vs.

(** Cells Python can order among themselves: all text, all numbers, or
    all timestamps. *)
Definition all_str (vs : list value) : bool :=
  forallb (fun v => match v with VStr _ => true | _ => false end) vs.

Definition all_num (vs : list value) : bool :=
  forallb (fun v => match v with VNum _ => true | _ => false end) vs.

Definition all_time (vs : list value) : bool :=
  forallb (fun v => match v with VTime _ => true | _ => false end) vs.

(** Insertion of a cell before the first one that is not below it. *)
Fixpoint insert_value (x : value) (l : list value) : list value :=
  match l with
  | [] => [x]
  | y :: l' => if value_ltb y x then y :: insert_value x l' else x :: l
  end.

(** [sorted(xs)] on a list of non-missing cells (as [dropna] leaves
    them): text by code point, numbers by size; a list that mixes them
    cannot be ordered. *)
Definition py_sorted (vs : list value) : result (list value) :=
  if all_str vs || all_num vs || all_time vs
  then Ok (fold_right insert_value [] vs)
  else Raise TypeError.

(** [int(x)] of a float [x]: the fraction is cut off, [NaN] is refused. *)
Definition int_of_float (v : value) : result Z :=
  match v with
  | VNum q => Ok (Z.quot (Qnum q) (Zpos (Qden q)))
  | _ => Raise ValueError
  end.

(** The smallest and the largest of a list of numbers, the first one
    given apart. *)
Definition qmin (q : Q) (qs : list Q) : Q :=
  fold_right (fun a b => if Qle_bool a b then a else b) q qs.

Definition qmax (q : Q) (qs : list Q) : Q :=
  fold_right (fun a b => if Qle_bool b a then a else b) q qs.

(** [s.min()] and [s.max()] of a float64 column: missing cells are
    skipped, and the result is [NaN] when no number is left. *)
Definition float_min (vs : list value) : value :=
  match nums vs with
  | [] => VNaN
  | q :: qs => VNum (qmin q qs)
  end.

Definition float_max (vs : list value) : value :=
  match nums vs with
  | [] => VNaN
  | q :: qs => VNum (qmax q qs)
  end.

(** ** Files and the object store *)

(** What a path holds: nothing, something pandas cannot parse, or data. *)
Inductive file (A : Type) : Type :=
| Absent
| Unreadable
| Readable (content : A).

Arguments Absent {A}.
Arguments Unreadable {A}.
Arguments Readable {A} content.

(** [pd.read_csv(path)] *)
Definition read_csv (f : file DataFrame) : result DataFrame :=
  match f with
  | Absent => Raise FileNotFoundError
  | Unreadable => Raise ParserError
  | Readable df => Ok df
  end.

(** Frames are Python objects: a variable holds a location of the store,
    and [df[c] = ...] changes the object every alias sees. *)
Abbreviation loc := positive (only parsing).

Abbreviation store := (gmap positive DataFrame) (only parsing).

Definition M (A : Type) : Type := store -> result A * store.

Definition ret {A : Type} (a : A) : M A := fun s => (Ok a, s).

Definition lift {A : Type} (r : result A) : M A := fun s => (r, s).

Definition mbind {A B : Type} (m : M A) (k : A -> M B) : M B :=
  fun s =>
    match m s with
    | (Ok a, s') => k a s'
    | (Raise e, s') => (Raise e, s')
    end.

Notation "'do' x '<-' m ';' k" := (mbind m (fun x => k))
  (at level 10, x name, m at level 100, k at level 200).

(** A new object. *)
Definition new (df : DataFrame) : M loc :=
  fun s => let l := fresh (dom s) in (Ok l, <[l := df]> s).

(** The object a variable refers to. *)
Definition deref (l : loc) : M DataFrame :=
  fun s =>
    match s !! l with
    | Some df => (Ok df, s)
    | None => (Raise NameError, s)
    end.

(** [x.copy()] *)
Definition copy (l : loc) : M loc :=
  do df <- deref l; new df.

(** [x[mask]] with the mask computed from [x]: a new object. *)
Definition index_by (l : loc) (mask : DataFrame -> result (list bool)) : M loc :=
  do df <- deref l;
  do m <- lift (mask df);
  new (boolean_index df m).

(** [x[c] = f(x)]: the object itself is changed. *)
Definition assign (l : loc) (c : string) (vals : DataFrame -> result (list value))
  : M unit :=
  do df <- deref l;
  do vs <- lift (vals df);
  fun s => (Ok tt, <[l := setitem df c vs]> s).

(** ** The ride-hailing dashboard ([OLA Data Analysis/app.py]) *)

Module Ola.

(** The values of the three sidebar multiselects. *)
Record Filters : Type := mkFilters {
  vehicle : list value;
  payment : list value;
  status : list value
}.

(** What the dashboard page hands to the widgets and charts. *)
Record Dashboard : Type := mkDashboard {
  total_rides_kpi : nat;
  success_rate_kpi : Q;
  total_revenue_kpi : value;
  avg_fare_kpi : value;
  revenue_chart : DataFrame;
  hour_chart : DataFrame
}.

Section Ola.

Context {L : PandasLib}.

(** [load_data()], lines 12-16, on the content of [OLA_DataSet.csv]. *)
Definition load_data (csv : file DataFrame) : result DataFrame :=
  let* df := read_csv csv in
  let* d := getitem df "Date" in
  let df := setitem df "Date" (to_datetime d) in
  Ok (rename_columns Py.strip df).

(** Lines 37-43: the filters as a function of the loaded frame. *)
Definition apply_filters (f : Filters) (df : DataFrame) : result DataFrame :=
  let filtered_df := df in
  let* filtered_df :=
    if Py.nonempty (vehicle f)
    then isin_filter filtered_df "Vehicle_Type" (vehicle f)
    else Ok filtered_df in
  let* filtered_df :=
    if Py.nonempty (payment f)
    then isin_filter filtered_df "Payment_Method" (payment f)
    else Ok filtered_df in
  let* filtered_df :=
    if Py.nonempty (status f)
    then isin_filter filtered_df "Booking_Status" (status f)
    else Ok filtered_df in
  Ok filtered_df.

(** Lines 46-50: the KPIs. *)
Definition total_rides (filtered_df : DataFrame) : nat := len filtered_df.

Definition success_rides (filtered_df : DataFrame) : result nat :=
  let* st := getitem filtered_df "Booking_Status" in
  Ok (len (boolean_index filtered_df (eq_str st "Success"))).

Definition qnat (n : nat) : Q := inject_Z (Z.of_nat n).

Definition success_rate (filtered_df : DataFrame) : result Q :=
  let* s := success_rides filtered_df in
  Ok (if Nat.ltb 0 (total_rides filtered_df)
      then round2 ((qnat s / qnat (total_rides filtered_df)) * 100)
      else 0%Q).

Definition total_revenue (filtered_df : DataFrame) : result value :=
  let* v := getitem filtered_df "Booking_Value" in
  series_sum v.

Definition avg_fare (filtered_df : DataFrame) : result value :=
  let* v := getitem filtered_df "Booking_Value" in
  let* m := series_mean v in
  round2_value m.

(** Lines 74-78: revenue per pickup location, the ten largest. *)
Definition revenue_by_pickup (filtered_df : DataFrame) : result DataFrame :=
  let* g := groupby_sum filtered_df "Pickup_Location" "Booking_Value" in
  let* top := nlargest 10 g "Booking_Value" in
  Ok (mkDF ["Pickup_Location"; "Revenue"] (rows top)).

(** Lines 37-43 on objects: a copy of the loaded frame, then a new
    object for each filter with a selection. *)
Definition filter_pass (f : Filters) (df : loc) : M loc :=
  do filtered_df <- copy df;
  do filtered_df <-
    (if Py.nonempty (vehicle f)
     then index_by filtered_df
            (fun d => let* vs := getitem d "Vehicle_Type" in Ok (isin vs (vehicle f)))
     else ret filtered_df);
  do filtered_df <-
    (if Py.nonempty (payment f)
     then index_by filtered_df
            (fun d => let* vs := getitem d "Payment_Method" in Ok (isin vs (payment f)))
     else ret filtered_df);
  if Py.nonempty (status f)
  then index_by filtered_df
         (fun d => let* vs := getitem d "Booking_Status" in Ok (isin vs (status f)))
  else ret filtered_df.

(** Line 98: the hour of each ride. *)
Definition hour_of_day (d : DataFrame) : result (list value) :=
  let* dt := getitem d "Date" in
  dt_hour dt.

(** The dashboard page, lines 37-99, on the objects it creates and
    changes.  [df] is the variable holding the loaded frame.  The chart
    calls and the read-only tables of lines 88 and 106 are not part of
    the model. *)
Definition dashboard (f : Filters) (df : loc) : M Dashboard :=
  do filtered_df <- filter_pass f df;
  do d <- deref filtered_df;
  do rate <- lift (success_rate d);
  do revenue <- lift (total_revenue d);
  do fare <- lift (avg_fare d);
  do rev <- lift (revenue_by_pickup d);
  do _ <- assign filtered_df "Hour" hour_of_day;
  do d' <- deref filtered_df;
  do rides_by_hour <- lift (groupby_count d' "Hour" "Booking_ID");
  ret (mkDashboard (total_rides d) rate revenue fare rev rides_by_hour).

(** The script with the Dashboard page selected: the loader's frame
    becomes the object [df]; an exception of the loader ends the run.
    (The other two pages run a fixed SQL text on [df] and show static
    text; neither assigns to a frame.) *)
Definition main (csv : file DataFrame) (f : Filters) : M Dashboard :=
  do d <- lift (load_data csv);
  do df <- new d;
  dashboard f df.

(** Lines 32-34: the options the three multiselects offer, as the
    selection that takes every one of them. *)
Definition filter_options (df : DataFrame) : result Filters :=
  let* v := getitem df "Vehicle_Type" in
  let* p := getitem df "Payment_Method" in
  let* s := getitem df "Booking_Status" in
  Ok (mkFilters (unique v) (unique p) (unique s)).

(** Lines 88-89: the ten most frequent pickup locations. *)
Definition top_pickups (filtered_df : DataFrame) : result DataFrame :=
  let* v := getitem filtered_df "Pickup_Location" in
  let* counts := value_counts v "Pickup_Location" "Count" in
  Ok (head 10 counts).

End Ola.

End Ola.

(** ** The video-game dashboard ([Video Game Analytics Dashboard/app.py]) *)

Module Games.

(** The project folder: the SQLite file with its tables, and the CSV. *)
Record Files : Type := mkFiles {
  db : file (list (string * DataFrame));
  csv : file DataFrame
}.

(** The semantic roles and the column each resolved to. *)
Record Roles : Type := mkRoles {
  platform_col : option string;
  genre_col : option string;
  title_col : option string;
  rating_col : option string;
  global_sales_col : option string
}.

(** The values of the sidebar widgets of lines 87-90. *)
Record Sidebar : Type := mkSidebar {
  selected_platforms : list value;
  selected_genres : list value;
  min_rating : option Q;
  search_title : string
}.

(** The entries of the question selectbox, lines 262-298, in order. *)
Inductive Question : Type :=
| TopRatedGames
| DevelopersByRating
| MostCommonGenres
| BacklogVsWishlist
| ReleaseTrend
| RatingDistribution
| MostWishlisted
| PlaysPerGenre
| ProductiveDevelopers
| RegionSales
| BestSellingPlatforms
| ReleasesAndSalesTrend
| TopPublishers
| BestSellingGames
| RegionalSalesPerPlatform
| MarketEvolution
| RegionalGenrePreferences
| YearlySalesChange
| AverageSalesPerPublisher
| TopFivePerPlatform
| GenreGlobalSales
| RatingVsSales
| HighRatedPlatforms
| ReleasesAndSalesOverTime
| WishlistVsSales
| EngagementVsSales
| WishlistBacklogRatingCorrelation
| EngagementAcrossGenres
| GenrePlatformCombinations
| RegionalSalesHeatmap.

(** The values of the widgets of the fifth tab. *)
Record QA : Type := mkQA {
  genre_filter : list value;
  platform_filter : list value;
  year_range : option (Q * Q);
  question : Question
}.

(** What a question shows: a chart of a derived table, the notice
    "Visualization not available or missing columns for this dataset.",
    or nothing at all. *)
Inductive Answer : Type :=
| Chart (data : DataFrame)
| Unavailable
| Blank.

Record Kpis : Type := mkKpis {
  total_sales_kpi : value;
  avg_rating_kpi : option value;
  unique_games_kpi : nat;
  avg_wishlist_kpi : option value
}.

(** What one run of the page hands to the presentation layer. *)
Record Page : Type := mkPage {
  kpis_out : Kpis;
  top_sellers : option DataFrame;
  top_wishlist_out : option DataFrame;
  qa_table : DataFrame;
  qa_answer : Answer
}.

(** A run either stops at the "No data found" notice or renders the page. *)
Inductive Run : Type :=
| Halted
| Rendered (p : Page).

Section Games.

Context {L : PandasLib}.

Fixpoint lookup_table (name : string) (ts : list (string * DataFrame))
  : option DataFrame :=
  match ts with
  | [] => None
  | (n, t) :: ts' => if String.eqb n name then Some t else lookup_table name ts'
  end.

(** Lines 60 and 63: the CSV when the file exists, else [pd.DataFrame()]. *)
Definition csv_or_empty (f : file DataFrame) : result DataFrame :=
  match f with
  | Absent => Ok empty_frame
  | _ => read_csv f
  end.

(** [x.astype(str).str.lower().str.strip()] *)
Definition join_key (vs : list value) : list value :=
  map (fun v => VStr (Py.strip (Py.lower (astype_str_cell v)))) vs.

(** [load_data()], lines 34-67. *)
Definition load_data (fs : Files) : result DataFrame :=
  let* df :=
    match db fs with
    | Absent => csv_or_empty (csv fs)
    | Unreadable => Raise DatabaseError
    | Readable ts =>
        match lookup_table "merged" ts with
        | Some t => Ok t
        | None =>
            match lookup_table "video_game_data" ts with
            | Some t => Ok t
            | None =>
                match lookup_table "games" ts, lookup_table "sales" ts with
                | Some g, Some s =>
                    let* t := getitem g "Title" in
                    let g := setitem g "title_lc" (join_key t) in
                    let* n := getitem s "Name" in
                    let s := setitem s "name_lc" (join_key n) in
                    merge_outer g s "title_lc" "name_lc"
                | _, _ => csv_or_empty (csv fs)
                end
            end
        end
    end in
  Ok (rename_columns Py.strip df).

(** *** Column resolver, lines 78-82 and 129 *)

Definition is_platform (c : string) : bool :=
  Py.startswith (Py.lower c) "platform".

Definition is_genre (c : string) : bool :=
  Py.contains (Py.lower c) "genre".

Definition is_title (c : string) : bool :=
  Py.startswith (Py.lower c) "title" || Py.startswith (Py.lower c) "name".

Definition is_rating (c : string) : bool :=
  String.eqb (Py.lower c) "rating".

Definition is_global_sales (c : string) : bool :=
  Py.contains (Py.lower c) "global" && Py.contains (Py.lower c) "sales".

Definition is_year (c : string) : bool :=
  String.eqb (Py.lower c) "year" ||
  (Py.contains (Py.lower c) "year" && negb (Py.contains (Py.lower c) "sales")).

Definition resolve (cols : list string) : Roles :=
  mkRoles (Py.next_match is_platform cols)
          (Py.next_match is_genre cols)
          (Py.next_match is_title cols)
          (Py.next_match is_rating cols)
          (Py.next_match is_global_sales cols).

Definition year_col (cols : list string) : option string :=
  Py.next_match is_year cols.

(** *** Sidebar filters, lines 93-102 *)

(** Lines 99-100: the rating column is coerced in place, then rows below
    the threshold are dropped ([None] as threshold cannot be compared). *)
Definition rating_mask (rc : string) (x : option Q) (d : DataFrame)
  : result (list bool) :=
  let* vs := getitem d rc in
  match x with
  | Some x => Ok (ge_float (fillna0 vs) x)
  | None => Raise TypeError
  end.

Definition coerce_rating (rc : string) (d : DataFrame) : result (list value) :=
  let* vs := getitem d rc in
  Ok (to_numeric vs).

Definition rating_filter (rc : string) (x : option Q) (d : DataFrame)
  : result DataFrame :=
  let* vs := coerce_rating rc d in
  let d := setitem d rc vs in
  let* m := rating_mask rc x d in
  Ok (boolean_index d m).

(** Line 102: [astype(str).str.contains(pat, case=False, na=False)]. *)
Definition search_mask (tc : string) (pat : string) (d : DataFrame)
  : result (list bool) :=
  let* vs := getitem d tc in
  let* m := re_compile_ic pat in
  Ok (map m (astype_str vs)).

Definition search_filter (tc : string) (pat : string) (d : DataFrame)
  : result DataFrame :=
  let* m := search_mask tc pat d in
  Ok (boolean_index d m).

(** Lines 94-97: the two membership filters. *)
Definition membership_filters (r : Roles) (sb : Sidebar) (df : DataFrame)
  : result DataFrame :=
  let filtered := df in
  let* filtered :=
    match platform_col r with
    | Some pc =>
        if Py.truthy pc && Py.nonempty (selected_platforms sb)
        then isin_filter filtered pc (selected_platforms sb)
        else Ok filtered
    | None => Ok filtered
    end in
  let* filtered :=
    match genre_col r with
    | Some gc =>
        if Py.truthy gc && Py.nonempty (selected_genres sb)
        then isin_filter filtered gc (selected_genres sb)
        else Ok filtered
    | None => Ok filtered
    end in
  Ok filtered.

(** Lines 93-102 as a function of the loaded frame. *)
Definition apply_filters (r : Roles) (sb : Sidebar) (df : DataFrame)
  : result DataFrame :=
  let* filtered := membership_filters r sb df in
  let* filtered :=
    match rating_col r with
    | Some rc =>
        if Py.truthy rc then rating_filter rc (min_rating sb) filtered
        else Ok filtered
    | None => Ok filtered
    end in
  let* filtered :=
    match title_col r with
    | Some tc =>
        if Py.truthy (search_title sb) && Py.truthy tc
        then search_filter tc (search_title sb) filtered
        else Ok filtered
    | None => Ok filtered
    end in
  Ok filtered.

(** *** KPIs, lines 108-111 *)

Definition total_sales (r : Roles) (filtered : DataFrame) : result value :=
  if has_col_opt filtered (global_sales_col r)
  then let* v := getitem_opt filtered (global_sales_col r) in series_sum v
  else Ok (VNum 0).

Definition avg_rating (r : Roles) (filtered : DataFrame) : result (option value) :=
  if has_col_opt filtered (rating_col r)
  then let* v := getitem_opt filtered (rating_col r) in
       let* m := series_mean v in Ok (Some m)
  else Ok None.

Definition unique_games (r : Roles) (filtered : DataFrame) : result nat :=
  if has_col_opt filtered (title_col r)
  then let* v := getitem_opt filtered (title_col r) in Ok (nunique v)
  else Ok (len filtered).

Definition avg_wishlist (filtered : DataFrame) : result (option value) :=
  if has_col filtered "Wishlist"
  then let* v := getitem filtered "Wishlist" in
       let* m := series_mean v in Ok (Some m)
  else Ok None.

Definition kpis (r : Roles) (filtered : DataFrame) : result Kpis :=
  let* a := total_sales r filtered in
  let* b := avg_rating r filtered in
  let* c := unique_games r filtered in
  let* d := avg_wishlist filtered in
  Ok (mkKpis a b c d).

(** *** Overview tab: the ten best sellers, lines 138-143 *)

Definition top10 (gs : string) (filtered : DataFrame) : result DataFrame :=
  let* sorted := sort_values_desc filtered gs in
  Ok (head 10 sorted).

Definition top_global_sellers (r : Roles) (filtered : DataFrame)
  : result (option DataFrame) :=
  match global_sales_col r with
  | Some gs =>
      if Py.truthy gs then
        let* t := top10 gs filtered in
        match title_col r with
        | Some tc =>
            if Py.truthy tc then
              let* t' := select_cols t [tc; gs] in
              Ok (Some (mkDF ["Title"; "Global_Sales"] (rows t')))
            else Ok (Some (head 10 t))
        | None => Ok (Some (head 10 t))
        end
      else Ok None
  | None => Ok None
  end.

(** Lines 129-133: global sales per year, in year order. *)
Definition yearly_sales (r : Roles) (cols : list string) (filtered : DataFrame)
  : result (option DataFrame) :=
  match year_col cols, global_sales_col r with
  | Some yc, Some gs =>
      if Py.truthy yc && Py.truthy gs && has_col filtered yc then
        let* g := groupby_sum filtered yc gs in
        let* t := sort_values_asc g yc in
        Ok (Some t)
      else Ok None
  | _, _ => Ok None
  end.

(** [df.groupby(k)[v]] with [v] possibly [None]. *)
Definition groupby_opt (agg : DataFrame -> string -> string -> result DataFrame)
    (df : DataFrame) (k : string) (v : option string) : result DataFrame :=
  let* _ := getitem df k in
  match v with
  | Some v => agg df k v
  | None => Raise (KeyError "None")
  end.

(** Lines 149-158 and 164-167: sales and ratings per genre, sales per
    platform, the largest first. *)
Definition sales_by (r : Roles) (k : string) (filtered : DataFrame)
  : result DataFrame :=
  let* g := groupby_opt groupby_sum filtered k (global_sales_col r) in
  sort_values_desc g (label (global_sales_col r)).

Definition rating_by (k rc : string) (filtered : DataFrame) : result DataFrame :=
  let* g := groupby_mean filtered k rc in
  sort_values_desc g rc.

(** Lines 171-177: total sales and mean rating per platform, missing
    aggregates replaced by zero. *)
Definition platform_rating (r : Roles) (pc rc : string) (filtered : DataFrame)
  : result DataFrame :=
  let* s := groupby_opt groupby_sum filtered pc (global_sales_col r) in
  let* m := groupby_mean filtered pc rc in
  Ok (mkDF [pc; "Total_Sales"; "Avg_Rating"]
        (zip_with (fun a b => cell_at 0 a :: fillna0 [cell_at 1 a; cell_at 1 b])
                  (rows s) (rows m))).

Definition genre_insights (r : Roles) (filtered : DataFrame) : result unit :=
  match genre_col r with
  | Some gc =>
      if Py.truthy gc then
        let* _ := sales_by r gc filtered in
        match rating_col r with
        | Some rc =>
            if Py.truthy rc then let* _ := rating_by gc rc filtered in Ok tt
            else Ok tt
        | None => Ok tt
        end
      else Ok tt
  | None => Ok tt
  end.

Definition platform_insights (r : Roles) (filtered : DataFrame) : result unit :=
  match platform_col r with
  | Some pc =>
      if Py.truthy pc then
        let* _ := sales_by r pc filtered in
        match rating_col r with
        | Some rc =>
            if Py.truthy rc then let* _ := platform_rating r pc rc filtered in Ok tt
            else Ok tt
        | None => Ok tt
        end
      else Ok tt
  | None => Ok tt
  end.

(** *** Consumer Behavior tab, lines 194-227 *)

(** Lines 198-199: [pd.to_numeric(filtered[c], errors='coerce').fillna(0)]. *)
Definition numeric_or_zero (c : string) (d : DataFrame) : result (list value) :=
  let* vs := getitem d c in
  Ok (fillna0 (to_numeric vs)).

(** Lines 223-227, on the frame with both columns made numeric. *)
Definition top_wishlist (r : Roles) (filtered : DataFrame)
  : result (option DataFrame) :=
  match title_col r with
  | Some tc =>
      if Py.truthy tc then
        let* sorted := sort_values_desc filtered "Wishlist" in
        let* t := select_cols_opt (head 10 sorted)
                    [Some tc; Some "Wishlist"; global_sales_col r; rating_col r] in
        Ok (Some (mkDF ["Title"; "Wishlist"; "Global Sales"; "Rating"] (rows t)))
      else Ok None
  | None => Ok None
  end.

(** The tab on a frame of its own: what lines 198-227 do to [filtered]
    and return. *)
Definition consumer_behavior (r : Roles) (filtered : DataFrame)
  : result (option DataFrame) :=
  let* w := numeric_or_zero "Wishlist" filtered in
  let filtered := setitem filtered "Wishlist" w in
  let* p := numeric_or_zero "Plays" filtered in
  let filtered := setitem filtered "Plays" p in
  top_wishlist r filtered.

(** *** Power BI tab: the second filter pass, lines 250-256 *)

Definition year_mask (lo hi : Q) (d : DataFrame) : result (list bool) :=
  let* ys := getitem d "Year" in
  between ys lo hi.

Definition second_filter (qa : QA) (df : DataFrame) : result DataFrame :=
  let filtered := df in
  let* filtered :=
    if Py.nonempty (genre_filter qa)
    then isin_filter filtered "Genre" (genre_filter qa)
    else Ok filtered in
  let* filtered :=
    if Py.nonempty (platform_filter qa)
    then isin_filter filtered "Platform" (platform_filter qa)
    else Ok filtered in
  let* filtered :=
    match year_range qa with
    | Some (lo, hi) =>
        if has_col filtered "Year"
        then let* m := year_mask lo hi filtered in Ok (boolean_index filtered m)
        else Ok filtered
    | None => Ok filtered
    end in
  Ok filtered.

(** *** Power BI tab: the questions, lines 304-389 *)

(** A plotly call: every column it is given by name must exist. *)
Definition plot (data : DataFrame) (named : list string) : result Answer :=
  if has_cols data named then Ok (Chart data) else Raise ValueError.

(** Line 357-362: the sum of every column whose label ends in [_Sales]. *)
Definition region_sales (filtered : DataFrame) : result Answer :=
  let region_cols := List.filter (fun c => Py.endswith c "_Sales") (columns filtered) in
  if Py.nonempty region_cols then
    let* rs := mapM (fun c => let* v := getitem filtered c in
                              let* t := series_sum v in
                              Ok [VStr c; t]) region_cols in
    plot (mkDF ["Region"; "Sales"] rs) ["Region"; "Sales"]
  else Ok Blank.

(** The [if]/[elif] chain: a branch is taken when the question is its
    own and its condition on the columns holds; every other case ends in
    the final [else]. *)
Definition answer (q : Question) (filtered : DataFrame) : result Answer :=
  match q with
  | TopRatedGames =>
      if has_col filtered "Rating" then
        let* t := nlargest 10 filtered "Rating" in
        let* top_games := select_cols t ["Title"; "Rating"] in
        plot top_games ["Rating"; "Title"]
      else Ok Unavailable
  | DevelopersByRating =>
      if has_col filtered "Developer" then
        let* g := groupby_mean filtered "Developer" "Rating" in
        let* dev_avg := nlargest 10 g "Rating" in
        plot dev_avg ["Rating"; "Developer"]
      else Ok Unavailable
  | MostCommonGenres =>
      if has_col filtered "Genre" then
        let* v := getitem filtered "Genre" in
        let* genre_count := value_counts v "Genre" "Count" in
        plot genre_count ["Genre"; "Count"]
      else Ok Unavailable
  | BacklogVsWishlist =>
      if has_cols filtered ["Backlogs"; "Wishlist"] then
        let* t := nlargest 10 filtered "Backlogs" in
        let* bl_wl := select_cols t ["Title"; "Backlogs"; "Wishlist"] in
        plot bl_wl ["Title"; "Backlogs"; "Wishlist"]
      else Ok Unavailable
  | ReleaseTrend =>
      if has_col filtered "Year" then
        let* year_count := groupby_size filtered "Year" "Count" in
        plot year_count ["Year"; "Count"]
      else Ok Unavailable
  | RatingDistribution =>
      if has_col filtered "Rating" then plot filtered ["Rating"]
      else Ok Unavailable
  | MostWishlisted =>
      if has_col filtered "Wishlist" then
        let* t := nlargest 10 filtered "Wishlist" in
        let* wl := select_cols t ["Title"; "Wishlist"] in
        plot wl ["Wishlist"; "Title"]
      else Ok Unavailable
  | PlaysPerGenre =>
      if has_cols filtered ["Genre"; "Plays"] then
        let* plays := groupby_mean filtered "Genre" "Plays" in
        plot plays ["Genre"; "Plays"]
      else Ok Unavailable
  | RegionSales => region_sales filtered
  | BestSellingGames =>
      if has_col filtered "Global_Sales" then
        let* t := nlargest 10 filtered "Global_Sales" in
        let* best_sellers := select_cols t ["Title"; "Global_Sales"] in
        plot best_sellers ["Global_Sales"; "Title"]
      else Ok Unavailable
  | GenreGlobalSales =>
      if has_cols filtered ["Genre"; "Global_Sales"] then
        let* g := groupby_sum filtered "Genre" "Global_Sales" in
        let* genre_sales := sort_values_desc g "Global_Sales" in
        plot (head 15 genre_sales) ["Global_Sales"; "Genre"]
      else Ok Unavailable
  | RatingVsSales =>
      if has_cols filtered ["Rating"; "Global_Sales"] then
        plot filtered ["Rating"; "Global_Sales"; "Genre"]
      else Ok Unavailable
  | WishlistBacklogRatingCorrelation =>
      if has_cols filtered ["Wishlist"; "Backlogs"; "Rating"] then
        let* t := select_cols filtered ["Wishlist"; "Backlogs"; "Rating"] in
        let* c := corr t in
        Ok (Chart c)
      else Ok Unavailable
  | _ => Ok Unavailable
  end.

(** *** The page, lines 76-389, on the objects it creates and changes

    [df] is the variable holding the loaded frame.  Widget option lists
    and chart calls outside the fifth tab are not part of the model. *)
Definition when_col (c : option string) (go : bool) (l : loc)
    (mask : string -> DataFrame -> result (list bool)) : M loc :=
  match c with
  | Some c => if Py.truthy c && go then index_by l (mask c) else ret l
  | None => ret l
  end.

Definition isin_mask (selected : list value) (c : string) (d : DataFrame)
  : result (list bool) :=
  let* vs := getitem d c in
  Ok (isin vs selected).

Definition sidebar_pass (r : Roles) (sb : Sidebar) (df : loc) : M loc :=
  do filtered <- copy df;
  do filtered <- when_col (platform_col r) (Py.nonempty (selected_platforms sb))
                   filtered (isin_mask (selected_platforms sb));
  do filtered <- when_col (genre_col r) (Py.nonempty (selected_genres sb))
                   filtered (isin_mask (selected_genres sb));
  do filtered <-
    (match rating_col r with
     | Some rc =>
         if Py.truthy rc then
           do _ <- assign filtered rc (coerce_rating rc);
           index_by filtered (rating_mask rc (min_rating sb))
         else ret filtered
     | None => ret filtered
     end);
  when_col (title_col r) (Py.truthy (search_title sb)) filtered
    (fun tc => search_mask tc (search_title sb)).

Definition second_pass (qa : QA) (df : loc) : M loc :=
  do filtered <- copy df;
  do filtered <-
    (if Py.nonempty (genre_filter qa)
     then index_by filtered (isin_mask (genre_filter qa) "Genre")
     else ret filtered);
  do filtered <-
    (if Py.nonempty (platform_filter qa)
     then index_by filtered (isin_mask (platform_filter qa) "Platform")
     else ret filtered);
  do d <- deref filtered;
  match year_range qa with
  | Some (lo, hi) =>
      if has_col d "Year" then index_by filtered (year_mask lo hi)
      else ret filtered
  | None => ret filtered
  end.

Definition page (sb : Sidebar) (qa : QA) (df : loc) : M Page :=
  do d0 <- deref df;
  let r := resolve (columns d0) in
  do filtered <- sidebar_pass r sb df;
  do d <- deref filtered;
  do k <- lift (kpis r d);
  do _ <- lift (yearly_sales r (columns d0) d);
  do top <- lift (top_global_sellers r d);
  do _ <- lift (genre_insights r d);
  do _ <- lift (platform_insights r d);
  do _ <- assign filtered "Wishlist" (numeric_or_zero "Wishlist");
  do _ <- assign filtered "Plays" (numeric_or_zero "Plays");
  do d4 <- deref filtered;
  do wish <- lift (top_wishlist r d4);
  do filtered <- second_pass qa df;
  do d5 <- deref filtered;
  do a <- lift (answer (question qa) d5);
  ret (mkPage k top wish d5 a).

(** Lines 69-72 and the page: an empty frame stops the run at the
    notice; an exception of the loader ends it. *)
Definition main (fs : Files) (sb : Sidebar) (qa : QA) : M Run :=
  do d <- lift (load_data fs);
  do df <- new d;
  if df_empty d then ret Halted
  else do p <- page sb qa df; ret (Rendered p).

(** *** Widget options, lines 84-90 and 234-248 *)

(** Lines 84-85: [df[c].dropna().unique().tolist() if c else []]. *)
Definition choices (c : option string) (df : DataFrame) : result (list value) :=
  match c with
  | Some c =>
      if Py.truthy c then let* vs := getitem df c in Ok (unique (dropna vs))
      else Ok []
  | None => Ok []
  end.

Definition platforms (r : Roles) (df : DataFrame) : result (list value) :=
  choices (platform_col r) df.

Definition genres (r : Roles) (df : DataFrame) : result (list value) :=
  choices (genre_col r) df.

(** Lines 87-88: the options of the two multiselects. *)
Definition platform_options (r : Roles) (df : DataFrame) : result (list value) :=
  let* p := platforms r df in py_sorted p.

Definition genre_options (r : Roles) (df : DataFrame) : result (list value) :=
  let* g := genres r df in py_sorted g.

(** Line 89: a slider between 0.0 and 5.0 when a rating column is
    resolved, [None] otherwise. *)
Definition slider_value (r : Roles) (x : option Q) : bool :=
  if Py.truthy_opt (rating_col r)
  then match x with
       | Some q => Qle_bool 0 q && Qle_bool q 5
       | None => false
       end
  else match x with
       | Some _ => false
       | None => true
       end.

(** Lines 234-242: the options of a multiselect of the fifth tab. *)
Definition column_options (c : string) (df : DataFrame) : result (list value) :=
  if has_col df c
  then let* vs := getitem df c in py_sorted (unique (dropna vs))
  else Ok [].

End Games.

Section YearRange.

Context {L : PandasLib}.

(** [(int(s.min()), int(s.max()))] of a column of dtype object, where
    [min], [max] and [int] are what Python makes of the cells. *)
Variable object_bounds : list value -> result (Z * Z).

(** Lines 244-248: the bounds of the year slider, [None] without a
    [Year] column. *)
Definition year_bounds (df : DataFrame) : result (option (Z * Z)) :=
  if has_col df "Year" then
    let* ys := getitem df "Year" in
    if is_float_col ys then
      let* min_year := int_of_float (float_min ys) in
      let* max_year := int_of_float (float_max ys) in
      Ok (Some (min_year, max_year))
    else
      let* b := object_bounds ys in
      Ok (Some b)
  else Ok None.

(** The value of the slider as the page opens: the whole range. *)
Definition default_year_range (df : DataFrame) : result (option (Q * Q)) :=
  let* b := year_bounds df in
  Ok (option_map (fun b => (inject_Z (fst b), inject_Z (snd b))) b).

(** The fifth tab as the page opens: nothing selected, the whole range
    of years. *)
Definition default_second_filter (df : DataFrame) : result DataFrame :=
  let* yr := default_year_range df in
  second_filter (mkQA [] [] yr TopRatedGames) df.

End YearRange.

End Games.

(** * The vocabulary of the statements *)

(** ** The column resolver *)

(** [o] is the first entry of [cols] that satisfies [p], or [None] when
    no entry does. *)
Definition first_satisfying (p : string -> bool) (cols : list string)
    (o : option string) : Prop :=
  match o with
  | Some c =>
      exists pre post, cols = pre ++ c :: post /\ p c = true /\
        Forall (fun x => p x = false) pre
  | None => Forall (fun x => p x = false) cols
  end.

(** [p] does not tell apart two headers that differ in letter case only. *)
Definition case_insensitive (p : string -> bool) : Prop :=
  forall c c' : string, Py.lower c = Py.lower c' -> p c = p c'.

(** ** Membership filters *)

(** The cell of row [r] in column [c] is one of the selected values. *)
Definition selected_in (df : DataFrame) (c : string) (sel : list value) (r : row)
  : bool :=
  match col_index c (columns df) with
  | Some i => existsb (value_eqb (cell_at i r)) sel
  | None => false
  end.

(** An empty selection restricts nothing. *)
Definition passes (df : DataFrame) (c : string) (sel : list value) (r : row) : bool :=
  negb (Py.nonempty sel) || selected_in df c sel r.

(** A role without a column restricts nothing. *)
Definition passes_opt (df : DataFrame) (c : option string) (sel : list value)
    (r : row) : bool :=
  match c with
  | Some c => passes df c sel r
  | None => true
  end.

(** ** Filters with nothing selected *)

(** The sidebar with no platform, no genre, an empty search text, and the
    rating slider at [x]. *)
Definition no_filters (x : option Q) : Games.Sidebar :=
  Games.mkSidebar [] [] x "".

(** A rating the coercion leaves alone and the threshold 0 lets pass:
    [NaN] or a number that is not negative. *)
Definition rating_ok (v : value) : bool :=
  match v with
  | VNaN => true
  | VNum q => Qle_bool 0 q
  | _ => false
  end.

(** No rating column is resolved, or all of its cells are [rating_ok]. *)
Definition ratings_plain (df : DataFrame) : bool :=
  match Games.rating_col (Games.resolve (columns df)) with
  | None => true
  | Some rc =>
      match getitem df rc with
      | Ok vs => forallb rating_ok vs
      | Raise _ => false
      end
  end.

(** ** Rankings *)

(** The number in position [i] of a column, [None] for a missing cell. *)
Definition metric (vs : list value) (i : nat) : option Q :=
  match nth i vs VNaN with
  | VNum q => Some q
  | _ => None
  end.

(** Position [i] may stand before position [j] in a descending order:
    its number is not smaller; missing cells come last. *)
Definition before (vs : list value) (i j : nat) : Prop :=
  match metric vs i, metric vs j with
  | Some p, Some q => (q <= p)%Q
  | _, None => True
  | None, Some _ => False
  end.

(** The same, with equal numbers (and missing cells) in the order of
    their positions. *)
Definition before_stable (vs : list value) (i j : nat) : Prop :=
  match metric vs i, metric vs j with
  | Some p, Some q => (q < p)%Q \/ ((q == p)%Q /\ (i < j)%nat)
  | Some _, None => True
  | None, Some _ => False
  | None, None => (i < j)%nat
  end.

(** [idx] is the first [n] positions of an arrangement of all positions
    [0 .. total-1] that is sorted by [R]. *)
Definition ranked (R : nat -> nat -> Prop) (n total : nat) (idx : list nat) : Prop :=
  exists full, idx = firstn n full /\ Permutation full (seq 0 total) /\
    StronglySorted R full.

Definition float_like (v : value) : bool :=
  match v with
  | VNum _ | VNaN => true
  | _ => false
  end.

Definition num_entry (p : nat * value) : list (nat * Q) :=
  match snd p with
  | VNum q => [(fst p, q)]
  | _ => []
  end.

(** ** Objects *)

(** [l] is an object created during the run: it is not an object of the
    initial store [s0], all of whose objects are still as they were, and
    it holds [x]. *)
Definition owned (s0 s : store) (l : loc) (x : DataFrame) : Prop :=
  s0 ⊆ s /\ s0 !! l = None /\ s !! l = Some x.

(** A step on objects computes what the function [p] on frames computes:
    the same exception, or a created object holding [p]'s frame; the
    objects of the initial store are unchanged either way. *)
Definition sim (s0 : store) (out : result loc * store) (p : result DataFrame)
  : Prop :=
  match fst out, p with
  | Ok l, Ok x => owned s0 (snd out) l x
  | Raise e, Raise e' => e = e' /\ s0 ⊆ snd out
  | _, _ => False
  end.

(** ** Selections *)

(** [x] has the headers of [df] and some of its rows, in their order. *)
Definition narrowed (df x : DataFrame) : Prop :=
  columns x = columns df /\ sublist (rows x) (rows df).

(** A pass that, whenever it succeeds on a frame, has selected its rows
    by a test on the row, and does the same on every frame that has the
    same headers and some of the rows. *)
Definition selects (F : DataFrame -> result DataFrame) : Prop :=
  forall df x, F df = Ok x ->
    exists p : row -> bool,
      x = mkDF (columns df) (List.filter p (rows df)) /\
      forall rs, sublist rs (rows df) ->
        F (mkDF (columns df) rs) = Ok (mkDF (columns df) (List.filter p rs)).

(** The row passes the three filters of the ride-hailing page. *)
Definition ride_passes (f : Ola.Filters) (df : DataFrame) (r : row) : bool :=
  passes df "Vehicle_Type" (Ola.vehicle f) r &&
  passes df "Payment_Method" (Ola.payment f) r &&
  passes df "Booking_Status" (Ola.status f) r.

(** The columns the filters read: those with a selection. *)
Definition ride_filters_readable (f : Ola.Filters) (df : DataFrame) : Prop :=
  (Py.nonempty (Ola.vehicle f) = true -> has_col df "Vehicle_Type" = true) /\
  (Py.nonempty (Ola.payment f) = true -> has_col df "Payment_Method" = true) /\
  (Py.nonempty (Ola.status f) = true -> has_col df "Booking_Status" = true).

(** A year within the range of the slider. *)
Definition in_years (lo hi : Q) (v : value) : bool :=
  match v with
  | VNum q => Qle_bool lo q && Qle_bool q hi
  | _ => false
  end.

(** A year cell that is missing or a whole number. *)
Definition whole_year (v : value) : Prop :=
  match v with
  | VNaN => True
  | VNum q => exists z : Z, (q == inject_Z z)%Q
  | _ => False
  end.

(** The row's title, as text, contains the search text up to letter
    case. *)
Definition title_matches {L : PandasLib} (i : nat) (pat : string) (r : row) : bool :=
  Py.contains (Py.lower (astype_str_cell (cell_at i r))) (Py.lower pat).

(** ** Ratings, hours and counts *)

(** What [fillna(0) >= x] makes of a cell. *)
Definition rating_kept (x : Q) (v : value) : bool :=
  match v with
  | VNum q => Qle_bool x q
  | VNaN | VNone => Qle_bool x 0
  | _ => false
  end.

(** A rating after the step: a number that is not below the threshold,
    or [NaN], which only a threshold of 0 or less lets through. *)
Definition rating_after (x : Q) (v : value) : Prop :=
  match v with
  | VNum q => (x <= q)%Q
  | VNaN => (x <= 0)%Q
  | _ => False
  end.

(** What lines 198-199 make of a cell: its numeric reading, 0 when it
    has none. *)
Definition number_or_zero {L : PandasLib} (v : value) : value :=
  if isna (to_numeric_cell v) then VNum 0 else to_numeric_cell v.





(** The table [value_counts] builds before it sorts: one row for every
    distinct cell that is not missing, with the number of its
    occurrences. *)
Definition counted (vs : list value) : list row :=
  map (fun v => [v; VNum (inject_Z (Z.of_nat (count_of v vs)))]) (first_seen vs).

(** ** Questions *)

(** The entries of the selectbox that no branch of the chain names. *)
Definition unanswered : list Games.Question :=
  [Games.ProductiveDevelopers; Games.BestSellingPlatforms;
   Games.ReleasesAndSalesTrend; Games.TopPublishers;
   Games.RegionalSalesPerPlatform; Games.MarketEvolution;
   Games.RegionalGenrePreferences; Games.YearlySalesChange;
   Games.AverageSalesPerPublisher; Games.TopFivePerPlatform;
   Games.HighRatedPlatforms; Games.ReleasesAndSalesOverTime;
   Games.WishlistVsSales; Games.EngagementVsSales;
   Games.EngagementAcrossGenres; Games.GenrePlatformCombinations;
   Games.RegionalSalesHeatmap].

(** A table without rows that has every column a branch reads. *)
Definition every_column : DataFrame :=
  mkDF ["Title"; "Rating"; "Developer"; "Genre"; "Backlogs"; "Wishlist"; "Year";
        "Plays"; "Global_Sales"] [].

(** The columns the region question adds up. *)
Definition region_cols (filtered : DataFrame) : list string :=
  List.filter (fun c => Py.endswith c "_Sales") (columns filtered).



(** ** Sample tables *)

Module Sample.

Definition ride (id : string) (status : string) (fare : Q) (pickup : string) : row :=
  [VStr id; VTime 1700000000; VStr "Mini"; VStr "UPI"; VStr status; VNum fare;
   VStr pickup].

Definition ride_columns : list string :=
  ["Booking_ID"; "Date"; "Vehicle_Type"; "Payment_Method"; "Booking_Status";
   "Booking_Value"; "Pickup_Location"].

(** Ten rides, seven of them successful. *)
Definition rides : DataFrame :=
  mkDF ride_columns
    [ride "B01" "Success" 120 "Airport"; ride "B02" "Success" 80 "Mall";
     ride "B03" "Cancelled" 60 "Airport"; ride "B04" "Success" 200 "Station";
     ride "B05" "Success" 80 "Mall"; ride "B06" "Cancelled" 40 "Mall";
     ride "B07" "Success" 150 "Airport"; ride "B08" "Success" 90 "Station";
     ride "B09" "Cancelled" 70 "Harbour"; ride "B10" "Success" 110 "Harbour"].

(** Two rides from the same pickup location. *)
Definition two_rides : DataFrame :=
  mkDF ride_columns
    [ride "B01" "Success" 120 "Airport"; ride "B02" "Success" 80 "Airport"].

(** No ride at all. *)
Definition no_rides : DataFrame := mkDF ride_columns [].

Definition game_columns : list string :=
  ["Title"; "Platform"; "Genre"; "Year"; "Rating"; "Global_Sales"; "Wishlist";
   "Plays"].

Definition game (title platform genre : string) (year rating sales : Q) : row :=
  [VStr title; VStr platform; VStr genre; VNum year; VNum rating; VNum sales;
   VNum 10; VNum 5].

Definition games : DataFrame :=
  mkDF game_columns
    [game "Car Racer" "PS4" "Racing" 2015 (9 # 2) 3;
     game "Sedan" "PC" "Racing" 2016 (7 # 2) 3;
     game "Farm Life" "PC" "Simulation" 2018 4 (5 # 2)].

(** A rating below zero. *)
Definition games_negative_rating : DataFrame :=
  mkDF game_columns [game "Car Racer" "PS4" "Racing" 2015 (-1) 3].

(** The three titles of the search scenario: two texts and a null. *)
Definition titles : DataFrame :=
  mkDF ["Title"] [[VStr "Car Racer"]; [VStr "Sedan"]; [VNaN]].

(** A sales table: the title column is called [Name]. *)
Definition sales_only : DataFrame :=
  mkDF ["Name"; "Rating"; "Global_Sales"]
    [[VStr "Car Racer"; VNum (9 # 2); VNum 3]].

End Sample.

(** ** A library instance

    A small implementation of the interface, on which the scripts can be
    run: decimal literals parse as numbers, floats print as decimals,
    numbers are sorted by a stable insertion sort, plain patterns and the
    wildcard [.] are matched, and every other library call raises. *)

Module Naive.

Definition digit (c : ascii) : option Z :=
  let n := nat_of_ascii c in
  if Nat.leb 48 n && Nat.leb n 57 then Some (Z.of_nat (n - 48)) else None.

Fixpoint parse_frac (s : string) (num : Z) (den : positive) : option Q :=
  match s with
  | EmptyString => Some (Qred (num # den))
  | String c s' =>
      match digit c with
      | Some d => parse_frac s' (num * 10 + d) (den * 10)
      | None => None
      end
  end.

Fixpoint parse_int (s : string) (num : Z) (seen : bool) : option Q :=
  match s with
  | EmptyString => if seen then Some (num # 1) else None
  | String c s' =>
      if Ascii.eqb c "." then (if seen then parse_frac s' num 1 else None)
      else match digit c with
           | Some d => parse_int s' (num * 10 + d) true
           | None => None
           end
  end.

Definition parse_float (s : string) : option Q :=
  match Py.strip s with
  | String "-" s' => option_map Qopp (parse_int s' 0 false)
  | s' => parse_int s' 0 false
  end.

Definition parse_datetime (v : value) : option Z :=
  match v with
  | VTime t => Some t
  | VNum q => Some (Qfloor q)
  | VStr s => option_map Qfloor (parse_float s)
  | _ => None
  end.

Fixpoint frac_digits (fuel : nat) (r den : Z) : string :=
  match fuel with
  | O => ""
  | S fuel' =>
      let d := (r * 10 / den)%Z in
      let r' := ((r * 10) mod den)%Z in
      String (ascii_of_nat (48 + Z.to_nat d))
        (if Z.eqb r' 0 then "" else frac_digits fuel' r' den)
  end.

Definition str_of_num (q : Q) : string :=
  let q := Qred q in
  let a := Z.abs (Qnum q) in
  let den := Zpos (Qden q) in
  String.append (if Z.ltb (Qnum q) 0 then "-" else "")
    (String.append (NilZero.string_of_int (Z.to_int (a / den)))
       (String.append "." (frac_digits 17 (a mod den) den))).

Definition str_of_time (t : Z) : string := NilZero.string_of_int (Z.to_int t).

Fixpoint all_nums (vs : list value) : option (list Q) :=
  match vs with
  | [] => Some []
  | VNum q :: vs' => option_map (cons q) (all_nums vs')
  | _ :: _ => None
  end.

Definition argsort_asc (qs : list Q) : list nat :=
  map fst (sort_by Qle_bool (indexed qs)).

Definition argsort (vs : list value) : result (list nat) :=
  match all_nums vs with
  | Some qs => Ok (argsort_asc qs)
  | None => Raise TypeError
  end.

Fixpoint any_char (p : ascii -> bool) (s : string) : bool :=
  match s with
  | EmptyString => false
  | String c s' => p c || any_char p s'
  end.

Definition re_compile_ic (pat : string) : result (string -> bool) :=
  if String.eqb pat "." then Ok (any_char (fun c => negb (Ascii.eqb c "010")))
  else if plain_pattern pat
       then Ok (fun s => Py.contains (Py.lower s) (Py.lower pat))
       else Raise ReError.

End Naive.

(** ** The order of ties under another sort

    A sort that is as good for numpy's contract as the stable one, and
    leaves equal numbers in the opposite order. *)

Module Backward.

Definition lt_bool (a b : Q) : bool := negb (Qle_bool b a).

Definition argsort_asc (qs : list Q) : list nat :=
  map fst (sort_by lt_bool (indexed qs)).

Definition argsort (vs : list value) : result (list nat) :=
  match Naive.all_nums vs with
  | Some qs => Ok (argsort_asc qs)
  | None => Raise TypeError
  end.

End Backward.

(** * Facts about the embedding *)

(** ** Frames *)

Lemma select_rows_map (p : row -> bool) (rs : list row) :
  select_rows rs (map p rs) = List.filter p rs.
Proof.
  induction rs as [|r rs IH]; simpl; [reflexivity|].
  destruct (p r); rewrite IH; reflexivity.
Qed.

Lemma select_rows_map_cell (f : value -> bool) (i : nat) (rs : list row) :
  select_rows rs (map f (map (cell_at i) rs)) = List.filter (fun r => f (cell_at i r)) rs.
Proof. rewrite map_map. apply (select_rows_map (fun r => f (cell_at i r))). Qed.

Lemma has_col_index (df : DataFrame) (c : string) :
  has_col df c = true -> exists i, col_index c (columns df) = Some i.
Proof.
  unfold has_col. destruct (col_index c (columns df)) as [i|]; [eauto|discriminate].
Qed.

Lemma next_match_in {A : Type} (p : A -> bool) (xs : list A) (x : A) :
  Py.next_match p xs = Some x -> In x xs /\ p x = true.
Proof.
  induction xs as [|y xs IH]; simpl; [discriminate|].
  destruct (p y) eqn:E.
  - intros [= <-]. auto.
  - intros H. destruct (IH H). auto.
Qed.

Lemma col_index_in (c : string) (cols : list string) :
  In c cols -> exists i, col_index c cols = Some i.
Proof.
  induction cols as [|x cols IH]; simpl; [tauto|].
  intros [->|H].
  - rewrite String.eqb_refl. eauto.
  - destruct (String.eqb x c); [eauto|].
    destruct (IH H) as [i ->]. simpl. eauto.
Qed.


(** ** The column resolver *)

Lemma next_match_first (p : string -> bool) (cols : list string) :
  first_satisfying p cols (Py.next_match p cols).
Proof.
  induction cols as [|x cols IH]; simpl.
  - constructor.
  - destruct (p x) eqn:E.
    + exists [], cols. simpl. auto.
    + unfold first_satisfying in *.
      destruct (Py.next_match p cols) as [c|].
      * destruct IH as (pre & post & -> & Hc & Hpre).
        exists (x :: pre), post. simpl. auto.
      * constructor; assumption.
Qed.

(** C7.  The resolver gives each role (platform, genre, title, rating,
    global sales, year) the first header, in the order of the columns,
    that satisfies the role's predicate, and [None] when no header does;
    each predicate looks at the lower-cased header only; and the
    resolution of two frames with the same headers is the same. *)
Theorem resolve_first_match (cols : list string) :
  let r := Games.resolve cols in
  (first_satisfying Games.is_platform cols (Games.platform_col r) /\
   first_satisfying Games.is_genre cols (Games.genre_col r) /\
   first_satisfying Games.is_title cols (Games.title_col r) /\
   first_satisfying Games.is_rating cols (Games.rating_col r) /\
   first_satisfying Games.is_global_sales cols (Games.global_sales_col r) /\
   first_satisfying Games.is_year cols (Games.year_col cols)) /\
  (case_insensitive Games.is_platform /\ case_insensitive Games.is_genre /\
   case_insensitive Games.is_title /\ case_insensitive Games.is_rating /\
   case_insensitive Games.is_global_sales /\ case_insensitive Games.is_year) /\
  (forall df1 df2 : DataFrame, columns df1 = cols -> columns df2 = cols ->
     Games.resolve (columns df1) = Games.resolve (columns df2) /\
     Games.year_col (columns df1) = Games.year_col (columns df2)).
Proof.
  simpl. split; [|split].
  - repeat split; apply next_match_first.
  - unfold case_insensitive, Games.is_platform, Games.is_genre, Games.is_title,
      Games.is_rating, Games.is_global_sales, Games.is_year.
    repeat split; intros c c' ->; reflexivity.
  - intros df1 df2 -> ->. split; reflexivity.
Qed.

Example resolve_sample :
  Games.resolve ["Name"; "PLATFORM "; "Genre"; "Year_of_Release"; "Global_Sales"; "User_Rating"]
  = Games.mkRoles (Some "PLATFORM ") (Some "Genre") (Some "Name") None (Some "Global_Sales")
  /\ Games.year_col ["Name"; "Year_Sales"; "Release Year"; "year"] = Some "Release Year".
Proof. split; reflexivity. Qed.

(** ** Membership filters *)

Lemma filter_true {A : Type} (l : list A) : List.filter (fun _ => true) l = l.
Proof. induction l as [|x l IH]; simpl; [|rewrite IH]; reflexivity. Qed.

Lemma filter_filter {A : Type} (p q : A -> bool) (l : list A) :
  List.filter p (List.filter q l) = List.filter (fun x => q x && p x) l.
Proof.
  induction l as [|x l IH]; simpl; [reflexivity|].
  destruct (q x); simpl; [destruct (p x)|]; rewrite IH; reflexivity.
Qed.

Lemma isin_filter_exact (df : DataFrame) (c : string) (sel : list value) :
  has_col df c = true ->
  isin_filter df c sel
  = Ok (mkDF (columns df) (List.filter (selected_in df c sel) (rows df))).
Proof.
  intros H. destruct (has_col_index _ _ H) as [i Hi].
  unfold isin_filter, getitem, boolean_index, isin, selected_in.
  rewrite Hi. simpl. rewrite select_rows_map_cell. reflexivity.
Qed.

Lemma member_step_exact (df : DataFrame) (c : string) (sel : list value) :
  has_col df c = true ->
  (if Py.nonempty sel then isin_filter df c sel else Ok df)
  = Ok (mkDF (columns df) (List.filter (passes df c sel) (rows df))).
Proof.
  intros H. unfold passes. destruct sel as [|v sel]; simpl.
  - rewrite filter_true. destruct df; reflexivity.
  - rewrite (isin_filter_exact _ _ _ H). reflexivity.
Qed.

Lemma resolved_truthy (p : string -> bool) (cols : list string) (c : string) :
  p "" = false -> Py.next_match p cols = Some c ->
  Py.truthy c = true /\ In c cols.
Proof.
  intros Hp H. destruct (next_match_in _ _ _ H) as [Hin Hc]. split; [|exact Hin].
  destruct c; [congruence|reflexivity].
Qed.

Lemma member_step_opt_exact (p : string -> bool) (df : DataFrame) (sel : list value) :
  p "" = false ->
  match Py.next_match p (columns df) with
  | Some c =>
      if Py.truthy c && Py.nonempty sel then isin_filter df c sel else Ok df
  | None => Ok df
  end
  = Ok (mkDF (columns df)
          (List.filter (passes_opt df (Py.next_match p (columns df)) sel) (rows df))).
Proof.
  intros Hp. destruct (Py.next_match p (columns df)) as [c|] eqn:E; simpl.
  - destruct (resolved_truthy _ _ _ Hp E) as [-> Hin]. simpl.
    apply member_step_exact. unfold has_col.
    destruct (col_index_in _ _ Hin) as [i ->]. reflexivity.
  - rewrite filter_true. destruct df; reflexivity.
Qed.

(** C2.  A membership filter keeps exactly the rows whose cell in the
    filtered column is one of the selected values, in their order: it is
    sound and complete.  The filters of the ride-hailing page (lines
    37-43) and the two membership filters of the video-game sidebar
    (lines 94-97, before the rating step of lines 98-100) keep exactly the
    rows that pass every filter with a non-empty selection. *)
Theorem membership_filters_exact (f : Ola.Filters) (sb : Games.Sidebar)
    (rides games : DataFrame) :
  has_cols rides ["Vehicle_Type"; "Payment_Method"; "Booking_Status"] = true ->
  (forall (df : DataFrame) (c : string) (sel : list value), has_col df c = true ->
     exists df', isin_filter df c sel = Ok df' /\ columns df' = columns df /\
       forall r, In r (rows df') <-> In r (rows df) /\ selected_in df c sel r = true) /\
  Ola.apply_filters f rides
  = Ok (mkDF (columns rides)
          (List.filter
             (fun r => passes rides "Vehicle_Type" (Ola.vehicle f) r &&
                       passes rides "Payment_Method" (Ola.payment f) r &&
                       passes rides "Booking_Status" (Ola.status f) r)
             (rows rides))) /\
  Games.membership_filters (Games.resolve (columns games)) sb games
  = Ok (mkDF (columns games)
          (List.filter
             (fun r =>
                passes_opt games (Games.platform_col (Games.resolve (columns games)))
                  (Games.selected_platforms sb) r &&
                passes_opt games (Games.genre_col (Games.resolve (columns games)))
                  (Games.selected_genres sb) r)
             (rows games))).
Proof.
  intros H. simpl in H.
  apply andb_prop in H as [H1 H]. apply andb_prop in H as [H2 H].
  apply andb_prop in H as [H3 _].
  split; [|split].
  - intros df c sel Hc. eexists. split; [apply (isin_filter_exact _ _ _ Hc)|].
    split; [reflexivity|]. intros r. simpl. apply filter_In.
  - unfold Ola.apply_filters.
    rewrite (member_step_exact rides _ _ H1). cbn [bind].
    rewrite member_step_exact by exact H2. cbn [bind columns rows].
    rewrite member_step_exact by exact H3. cbn [bind columns rows].
    rewrite !filter_filter. do 2 f_equal. apply filter_ext. intros r.
    unfold passes, selected_in. cbn [columns]. apply andb_assoc.
  - unfold Games.membership_filters, Games.resolve.
    cbn [Games.platform_col Games.genre_col].
    rewrite (member_step_opt_exact Games.is_platform games _ eq_refl). cbn [bind].
    pose proof (member_step_opt_exact Games.is_genre
      (mkDF (columns games)
         (List.filter (passes_opt games (Py.next_match Games.is_platform (columns games))
                         (Games.selected_platforms sb)) (rows games)))
      (Games.selected_genres sb) eq_refl) as E.
    cbn [columns rows] in E. rewrite E. rewrite filter_filter. reflexivity.
Qed.

(** ** Sorting *)

Lemma Forall_perm {A : Type} (P : A -> Prop) (l1 l2 : list A) :
  Permutation l1 l2 -> Forall P l1 -> Forall P l2.
Proof.
  intros H. rewrite !List.Forall_forall. intros F x Hx. apply F.
  eapply Permutation_in; [symmetry; exact H|exact Hx].
Qed.

Section StableSort.

Variable le : Q -> Q -> bool.
Hypothesis le_total : forall a b, le a b = true \/ le b a = true.
Hypothesis le_trans : forall a b c, le a b = true -> le b c = true -> le a c = true.

(** [x] may stand before [y]: it is not above [y], and has the smaller
    position when [le] does not tell them apart. *)
Definition stable_le (x y : nat * Q) : Prop :=
  le (snd x) (snd y) = true /\ (le (snd y) (snd x) = true -> (fst x < fst y)%nat).

Lemma insert_by_perm (x : nat * Q) (l : list (nat * Q)) :
  Permutation (insert_by le x l) (x :: l).
Proof.
  induction l as [|y l IH]; simpl; [reflexivity|].
  destruct (le (snd x) (snd y)); [reflexivity|].
  rewrite IH. apply perm_swap.
Qed.

Lemma sort_by_perm (l : list (nat * Q)) : Permutation (sort_by le l) l.
Proof.
  induction l as [|x l IH]; simpl; [reflexivity|].
  rewrite insert_by_perm. constructor. exact IH.
Qed.

Lemma insert_by_sorted (x : nat * Q) (l : list (nat * Q)) :
  StronglySorted stable_le l ->
  Forall (fun y => (fst x < fst y)%nat) l ->
  StronglySorted stable_le (insert_by le x l).
Proof.
  induction l as [|y l IH]; simpl; intros Hs Hx.
  - repeat constructor.
  - apply StronglySorted_inv in Hs as [Hs Hy].
    apply Forall_cons_iff in Hx as [Hxy Hx].
    destruct (le (snd x) (snd y)) eqn:E.
    + constructor; [constructor; assumption|].
      constructor; [split; auto|].
      rewrite List.Forall_forall in *. intros z Hz. split.
      * apply (le_trans _ (snd y)); [exact E|]. apply (Hy z Hz).
      * intros _. apply (Hx z Hz).
    + constructor; [apply IH; assumption|].
      apply (Forall_perm _ (x :: l)).
      { symmetry. apply insert_by_perm. }
      constructor; [|exact Hy].
      split; [|congruence].
      destruct (le_total (snd x) (snd y)); congruence.
Qed.

Lemma sort_by_sorted (l : list (nat * Q)) :
  StronglySorted (fun a b => (fst a < fst b)%nat) l ->
  StronglySorted stable_le (sort_by le l).
Proof.
  induction l as [|x l IH]; simpl; intros H; [constructor|].
  apply StronglySorted_inv in H as [H Hx].
  apply insert_by_sorted; [auto|].
  apply (Forall_perm _ l); [symmetry; apply sort_by_perm|exact Hx].
Qed.

End StableSort.

Section SortedLists.

Context {A : Type}.

Lemma SS_app (R : A -> A -> Prop) (l1 l2 : list A) :
  StronglySorted R l1 -> StronglySorted R l2 ->
  (forall a b, In a l1 -> In b l2 -> R a b) ->
  StronglySorted R (l1 ++ l2).
Proof.
  induction l1 as [|x l1 IH]; simpl; intros H1 H2 H; [exact H2|].
  apply StronglySorted_inv in H1 as [H1 Hx].
  constructor.
  - apply IH; auto.
  - apply Forall_app. split; [exact Hx|].
    apply List.Forall_forall. intros b Hb. apply H; auto.
Qed.

Lemma SS_rev (R : A -> A -> Prop) (l : list A) :
  StronglySorted R l -> StronglySorted (fun a b => R b a) (rev l).
Proof.
  induction l as [|x l IH]; simpl; intros H; [constructor|].
  apply StronglySorted_inv in H as [H Hx].
  apply SS_app; [auto|repeat constructor|].
  intros a b Ha [<-|[]]. apply in_rev in Ha.
  rewrite List.Forall_forall in Hx. auto.
Qed.

Lemma SS_impl_in (R R' : A -> A -> Prop) (l : list A) :
  (forall a b, In a l -> In b l -> R a b -> R' a b) ->
  StronglySorted R l -> StronglySorted R' l.
Proof.
  induction l as [|x l IH]; intros H Hs; [constructor|].
  apply StronglySorted_inv in Hs as [Hs Hx].
  constructor.
  - apply IH; [|exact Hs]. intros a b Ha Hb. apply H; right; assumption.
  - rewrite List.Forall_forall in *. intros b Hb.
    apply H; [left; reflexivity|right; exact Hb|auto].
Qed.

Lemma SS_map {B : Type} (f : A -> B) (R : B -> B -> Prop) (l : list A) :
  StronglySorted (fun a b => R (f a) (f b)) l -> StronglySorted R (map f l).
Proof.
  induction l as [|x l IH]; simpl; intros H; [constructor|].
  apply StronglySorted_inv in H as [H Hx].
  constructor; [auto|]. apply Forall_map. exact Hx.
Qed.

Lemma SS_nth (R : A -> A -> Prop) (d : A) (l : list A) (i j : nat) :
  StronglySorted R l -> (i < j)%nat -> (j < List.length l)%nat ->
  R (nth i l d) (nth j l d).
Proof.
  intros H. revert i j. induction H as [|x l H IH Hx]; simpl; intros i j Hij Hj.
  - lia.
  - destruct j as [|j]; [lia|]. destruct i as [|i].
    + rewrite List.Forall_forall in Hx. apply Hx. apply nth_In. lia.
    + apply IH; lia.
Qed.

Lemma map_nth_seq (d : A) (l : list A) :
  map (fun k => nth k l d) (seq 0 (List.length l)) = l.
Proof.
  induction l as [|x l IH]; simpl; [reflexivity|].
  f_equal. rewrite <- seq_shift, map_map. exact IH.
Qed.

End SortedLists.

(** ** Rankings *)

Lemma in_indexed_from {A : Type} (d : A) (vs : list A) (s i : nat) (v : A) :
  In (i, v) (combine (seq s (List.length vs)) vs) ->
  (s <= i)%nat /\ nth (i - s) vs d = v /\ In v vs.
Proof.
  revert s. induction vs as [|x vs IH]; simpl; intros s H; [tauto|].
  destruct H as [[= <- <-]|H].
  - rewrite Nat.sub_diag. auto.
  - destruct (IH _ H) as (Hs & Hn & Hv). split; [lia|]. split; [|auto].
    replace (i - s)%nat with (S (i - S s)) by lia. exact Hn.
Qed.

Lemma indexed_sorted {A : Type} (vs : list A) (s : nat) :
  StronglySorted (fun a b : nat * A => (fst a < fst b)%nat)
    (combine (seq s (List.length vs)) vs).
Proof.
  revert s. induction vs as [|x vs IH]; simpl; intros s; constructor; [apply IH|].
  apply List.Forall_forall. intros [i v] H.
  apply (in_indexed_from v) in H. simpl. lia.
Qed.

Lemma indexed_fst {A : Type} (vs : list A) (s : nat) :
  map fst (combine (seq s (List.length vs)) vs) = seq s (List.length vs).
Proof.
  revert s. induction vs as [|x vs IH]; simpl; intros s; [|rewrite IH]; reflexivity.
Qed.

Lemma float_col_indexed (vs : list value) :
  is_float_col vs = true ->
  Forall (fun p : nat * value => float_like (snd p) = true) (indexed vs).
Proof.
  intros H. apply List.Forall_forall. intros [i v] Hin.
  apply (in_indexed_from VNaN) in Hin as (_ & _ & Hv).
  unfold is_float_col in H. rewrite forallb_forall in H.
  specialize (H v Hv). destruct v; simpl; auto.
Qed.

Section Entries.

Variable l : list (nat * value).
Hypothesis l_float : Forall (fun p : nat * value => float_like (snd p) = true) l.

Lemma entries_perm :
  Permutation
    (map fst (flat_map num_entry l) ++
     map fst (List.filter (fun p => isna (snd p)) l))
    (map fst l).
Proof using l_float.
  induction l as [|[i v] l' IH]; simpl; [reflexivity|].
  apply Forall_cons_iff in l_float as [Hv Hl]. specialize (IH Hl).
  destruct v; simpl in *; try discriminate.
  - symmetry. rewrite <- IH. apply Permutation_middle.
  - constructor. exact IH.
Qed.

Lemma entries_present :
  List.filter (fun p => negb (isna (snd p))) l
  = map (fun p : nat * Q => (fst p, VNum (snd p))) (flat_map num_entry l).
Proof using l_float.
  induction l as [|[i v] l' IH]; simpl; [reflexivity|].
  apply Forall_cons_iff in l_float as [Hv Hl]. specialize (IH Hl).
  destruct v; simpl in *; try discriminate; rewrite IH; reflexivity.
Qed.

End Entries.

Lemma in_num_entries (l : list (nat * value)) (i : nat) (q : Q) :
  In (i, q) (flat_map num_entry l) -> In (i, VNum q) l.
Proof.
  rewrite in_flat_map. intros ([j v] & Hin & H).
  unfold num_entry in H. simpl in H.
  destruct v; simpl in H; try tauto.
  destruct H as [[= <- <-]|[]]. exact Hin.
Qed.

Lemma num_entries_sorted (l : list (nat * value)) :
  StronglySorted (fun a b : nat * value => (fst a < fst b)%nat) l ->
  StronglySorted (fun a b : nat * Q => (fst a < fst b)%nat) (flat_map num_entry l).
Proof.
  induction l as [|[i v] l IH]; simpl; intros H; [constructor|].
  apply StronglySorted_inv in H as [H Hx]. specialize (IH H).
  unfold num_entry at 1. simpl. destruct v; simpl; try exact IH.
  constructor; [exact IH|].
  apply List.Forall_forall. intros [j p] Hj. apply in_num_entries in Hj.
  rewrite List.Forall_forall in Hx. apply (Hx _ Hj).
Qed.

Lemma missing_sorted (l : list (nat * value)) :
  StronglySorted (fun a b : nat * value => (fst a < fst b)%nat) l ->
  StronglySorted lt (map fst (List.filter (fun p => isna (snd p)) l)).
Proof.
  induction l as [|[i v] l IH]; simpl; intros H; [constructor|].
  apply StronglySorted_inv in H as [H Hx]. specialize (IH H).
  destruct (isna v); simpl; [|exact IH].
  constructor; [exact IH|].
  apply Forall_map. apply List.Forall_forall. intros p Hp.
  apply filter_In in Hp as [Hp _].
  rewrite List.Forall_forall in Hx. apply (Hx _ Hp).
Qed.

Lemma metric_present (vs : list value) (i : nat) (q : Q) :
  In (i, q) (present_nums vs) -> metric vs i = Some q.
Proof.
  intros H. apply in_num_entries, (in_indexed_from VNaN) in H as (_ & H & _).
  unfold metric. rewrite Nat.sub_0_r in H. rewrite H. reflexivity.
Qed.

Lemma metric_missing (vs : list value) (i : nat) :
  In i (missing vs) -> metric vs i = None.
Proof.
  unfold missing. rewrite in_map_iff. intros ([j v] & <- & H).
  apply filter_In in H as [H Hna]. simpl in *.
  apply (in_indexed_from VNaN) in H as (_ & H & _).
  unfold metric. rewrite Nat.sub_0_r in H. rewrite H.
  destruct v; simpl in Hna; try discriminate; reflexivity.
Qed.

Lemma positions_perm (vs : list value) :
  is_float_col vs = true ->
  Permutation (map fst (present_nums vs) ++ missing vs) (seq 0 (List.length vs)).
Proof.
  intros H. unfold present_nums, missing.
  rewrite <- (indexed_fst vs 0).
  apply (entries_perm (indexed vs)). apply float_col_indexed. exact H.
Qed.

Lemma ge_total (a b : Q) : Qle_bool b a = true \/ Qle_bool a b = true.
Proof.
  destruct (Qlt_le_dec a b) as [H|H].
  - right. apply Qle_bool_iff. apply Qlt_le_weak. exact H.
  - left. apply Qle_bool_iff. exact H.
Qed.

Lemma ge_trans (a b c : Q) :
  Qle_bool b a = true -> Qle_bool c b = true -> Qle_bool c a = true.
Proof.
  rewrite !Qle_bool_iff. intros H1 H2. apply (Qle_trans _ b); assumption.
Qed.

Lemma le_total (a b : Q) : Qle_bool a b = true \/ Qle_bool b a = true.
Proof. destruct (ge_total a b); auto. Qed.

Lemma le_trans (a b c : Q) :
  Qle_bool a b = true -> Qle_bool b c = true -> Qle_bool a c = true.
Proof.
  rewrite !Qle_bool_iff. intros H1 H2. apply (Qle_trans _ b); assumption.
Qed.

Lemma ranked_length (R : nat -> nat -> Prop) (n total : nat) (idx : list nat) :
  ranked R n total idx -> List.length idx = Nat.min n total.
Proof.
  intros (full & -> & Hp & _). rewrite length_firstn.
  rewrite (Permutation_length Hp), length_seq. reflexivity.
Qed.

Lemma missing_ranked (vs : list value) :
  StronglySorted (before_stable vs) (missing vs).
Proof.
  apply (SS_impl_in lt).
  - intros a b Ha Hb Hab. unfold before_stable.
    rewrite (metric_missing _ _ Ha), (metric_missing _ _ Hb). exact Hab.
  - apply missing_sorted. apply indexed_sorted.
Qed.

(** The positions [nlargest] selects: the largest numbers first, equal
    numbers in order of appearance, missing cells last. *)
Lemma nlargest_idx_ranked (n : nat) (vs : list value) :
  is_float_col vs = true ->
  ranked (before_stable vs) n (List.length vs) (nlargest_idx n vs).
Proof.
  intros Hf. exists (map fst (sort_desc (present_nums vs)) ++ missing vs).
  split; [reflexivity|]. split.
  - rewrite <- (positions_perm vs Hf). apply Permutation_app_tail.
    apply Permutation_map. apply sort_by_perm.
  - assert (Hin : forall a, In a (sort_desc (present_nums vs)) ->
                            metric vs (fst a) = Some (snd a)).
    { intros [i q] Ha. apply metric_present.
      eapply Permutation_in; [apply sort_by_perm|exact Ha]. }
    apply SS_app.
    + apply SS_map.
      apply (SS_impl_in (stable_le (fun a b => Qle_bool b a))).
      * intros a b Ha Hb [H1 H2]. unfold before_stable.
        rewrite (Hin a Ha), (Hin b Hb).
        apply Qle_bool_iff in H1.
        destruct (Qle_lt_or_eq _ _ H1) as [Hlt|Heq]; [left; exact Hlt|].
        right. split; [exact Heq|]. apply H2. apply Qle_bool_iff.
        rewrite Heq. apply Qle_refl.
      * apply sort_by_sorted; [apply ge_total|apply ge_trans|].
        apply num_entries_sorted, indexed_sorted.
    + apply missing_ranked.
    + intros a b Ha Hb. apply in_map_iff in Ha as (x & <- & Hx).
      unfold before_stable.
      rewrite (Hin x Hx), (metric_missing _ _ Hb). exact I.
Qed.

Lemma take_length (rs : list row) (idx : list nat) :
  List.length (take rs idx) = List.length idx.
Proof. apply length_map. Qed.

Lemma getitem_length (df : DataFrame) (c : string) (vs : list value) :
  getitem df c = Ok vs -> List.length vs = len df.
Proof.
  unfold getitem. destruct (col_index c (columns df)); [|discriminate].
  intros [= <-]. apply length_map.
Qed.

Section SortValues.

Context {L : PandasLib}.

Lemma present_float (vs : list value) :
  is_float_col vs = true ->
  present vs = map (fun p : nat * Q => (fst p, VNum (snd p))) (present_nums vs).
Proof.
  intros H. apply (entries_present (indexed vs)). apply float_col_indexed. exact H.
Qed.

(** What [nargsort] returns on a float column, for every sort numpy may
    run: all positions, largest number first, missing cells last; with a
    stable sort, equal numbers in the order of their positions. *)
Lemma nargsort_desc_spec (vs : list value) :
  is_float_col vs = true ->
  exists idx, nargsort_desc vs = Ok idx /\
    Permutation idx (seq 0 (List.length vs)) /\
    StronglySorted (before vs) idx /\
    (stable_argsort L -> StronglySorted (before_stable vs) idx).
Proof.
  intros Hf. unfold nargsort_desc. rewrite (present_float vs Hf).
  set (P := present_nums vs).
  set (RP := rev P).
  assert (Esnd : map snd (rev (map (fun p : nat * Q => (fst p, VNum (snd p))) P))
                 = map VNum (map snd RP)).
  { rewrite <- map_rev, !map_map. reflexivity. }
  assert (Efst : map fst (rev (map (fun p : nat * Q => (fst p, VNum (snd p))) P))
                 = map fst RP).
  { rewrite <- map_rev, map_map. reflexivity. }
  rewrite Esnd, Efst.
  destruct (argsort_numbers (map snd RP)) as (idx0 & Ha & Hperm & Hasc).
  rewrite Ha. cbn [bind]. eexists. split; [reflexivity|].
  rewrite length_map in Hperm.
  set (S := map (fun k => nth k RP (0%nat, 0%Q)) idx0).
  assert (EI : map (fun k => nth k (map fst RP) 0%nat) idx0 = map fst S).
  { unfold S. rewrite map_map. apply map_ext. intros k.
    apply (map_nth fst RP (0%nat, 0%Q)). }
  rewrite EI, <- map_rev.
  assert (HS : Permutation S RP).
  { unfold S.
    apply (Permutation_trans
             (l' := map (fun k => nth k RP (0%nat, 0%Q)) (seq 0 (List.length RP)))).
    - apply Permutation_map. exact Hperm.
    - rewrite map_nth_seq. reflexivity. }
  assert (HRP : Permutation RP P) by (symmetry; apply Permutation_rev).
  assert (Hin : forall a, In a (rev S) -> metric vs (fst a) = Some (snd a)).
  { intros [i q] Hi. apply metric_present. fold P.
    apply in_rev in Hi.
    eapply Permutation_in; [exact HRP|]. eapply Permutation_in; [exact HS|exact Hi]. }
  assert (Hlt : forall k, In k idx0 -> (k < List.length RP)%nat).
  { intros k Hk. apply (Permutation_in _ Hperm) in Hk. apply in_seq in Hk. lia. }
  assert (Hq : forall k, qnth (map snd RP) k = snd (nth k RP (0%nat, 0%Q))).
  { intros k. apply (map_nth snd RP (0%nat, 0%Q)). }
  split; [|split].
  - rewrite <- (positions_perm vs Hf). apply Permutation_app_tail.
    apply Permutation_map. rewrite <- Permutation_rev.
    rewrite HS. exact HRP.
  - apply SS_app.
    + apply SS_map.
      apply (SS_impl_in (fun a b : nat * Q => (snd b <= snd a)%Q)).
      * intros a b Ha' Hb' Hab. unfold before.
        rewrite (Hin a Ha'), (Hin b Hb'). exact Hab.
      * apply (SS_rev (fun a b : nat * Q => (snd a <= snd b)%Q)).
        unfold S. apply SS_map.
        apply (SS_impl_in (fun i j => (qnth (map snd RP) i <= qnth (map snd RP) j)%Q));
          [|exact Hasc].
        intros i j _ _. rewrite !Hq. auto.
    + apply (SS_impl_in (before_stable vs)); [|apply missing_ranked].
      intros a b Ha' Hb' _. unfold before.
      rewrite (metric_missing _ _ Hb'). destruct (metric vs a); exact I.
    + intros a b Ha' Hb'. apply in_map_iff in Ha' as (x & <- & Hx).
      unfold before. rewrite (Hin x Hx), (metric_missing _ _ Hb'). exact I.
  - intros Hst. specialize (Hst _ _ Ha).
    assert (Hdesc : StronglySorted (fun a b : nat * Q => (fst b < fst a)%nat) RP).
    { unfold RP.
      apply (SS_rev (fun a b : nat * Q => (fst a < fst b)%nat)).
      apply num_entries_sorted, indexed_sorted. }
    apply SS_app.
    + apply SS_map.
      apply (SS_impl_in
               (fun a b : nat * Q =>
                  (snd b < snd a)%Q \/ ((snd b == snd a)%Q /\ (fst a < fst b)%nat))).
      * intros a b Ha' Hb' Hab. unfold before_stable.
        rewrite (Hin a Ha'), (Hin b Hb'). exact Hab.
      * apply (SS_rev
                 (fun a b : nat * Q =>
                    (snd a < snd b)%Q \/ ((snd a == snd b)%Q /\ (fst b < fst a)%nat))).
        unfold S. apply SS_map.
        refine (SS_impl_in _ _ _ _ Hst).
        intros i j Hi Hj H. cbv beta in H.
        destruct H as [H|[H1 H2]]; rewrite !Hq in *; [left; exact H|].
        right. split; [exact H1|].
        apply (SS_nth _ (0%nat, 0%Q) RP i j Hdesc H2). apply Hlt. exact Hj.
    + apply missing_ranked.
    + intros a b Ha' Hb'. apply in_map_iff in Ha' as (x & <- & Hx).
      unfold before_stable. rewrite (Hin x Hx), (metric_missing _ _ Hb'). exact I.
Qed.

End SortValues.

(** ** The library instances *)

Module NaiveFacts.

Import Naive.

Lemma all_nums_map (qs : list Q) : all_nums (map VNum qs) = Some qs.
Proof. induction qs as [|q qs IH]; simpl; [|rewrite IH]; reflexivity. Qed.

Lemma argsort_asc_stable (qs : list Q) :
  Permutation (argsort_asc qs) (seq 0 (List.length qs)) /\
  ascending_stable qs (argsort_asc qs).
Proof.
  unfold argsort_asc. split.
  - rewrite <- (indexed_fst qs 0). apply Permutation_map, sort_by_perm.
  - apply SS_map. apply (SS_impl_in (stable_le Qle_bool)).
    + intros [i p] [j q] Hi Hj [H1 H2]. simpl in *.
      assert (Ei : qnth qs i = p).
      { apply (Permutation_in _ (sort_by_perm _ _)) in Hi.
        apply (in_indexed_from 0%Q) in Hi as (_ & Hi & _).
        rewrite Nat.sub_0_r in Hi. exact Hi. }
      assert (Ej : qnth qs j = q).
      { apply (Permutation_in _ (sort_by_perm _ _)) in Hj.
        apply (in_indexed_from 0%Q) in Hj as (_ & Hj & _).
        rewrite Nat.sub_0_r in Hj. exact Hj. }
      rewrite Ei, Ej. apply Qle_bool_iff in H1.
      destruct (Qle_lt_or_eq _ _ H1) as [Hlt|Heq]; [left; exact Hlt|].
      right. split; [exact Heq|]. apply H2. apply Qle_bool_iff.
      rewrite Heq. apply Qle_refl.
    + apply sort_by_sorted; [apply le_total|apply le_trans|apply indexed_sorted].
Qed.

Lemma argsort_numbers (qs : list Q) :
  exists idx, argsort (map VNum qs) = Ok idx /\
    Permutation idx (seq 0 (List.length qs)) /\ ascending qs idx.
Proof.
  exists (argsort_asc qs). unfold argsort. rewrite all_nums_map.
  destruct (argsort_asc_stable qs) as [Hp Hs]. repeat split; [exact Hp|].
  refine (SS_impl_in _ _ _ _ Hs).
  intros i j _ _ H. cbv beta in H. destruct H as [H|[H _]].
  - apply Qlt_le_weak. exact H.
  - rewrite H. apply Qle_refl.
Qed.

Lemma re_plain (pat : string) :
  plain_pattern pat = true ->
  exists m, re_compile_ic pat = Ok m /\
    forall s, is_ascii s = true -> m s = Py.contains (Py.lower s) (Py.lower pat).
Proof.
  intros H. unfold re_compile_ic.
  destruct (String.eqb pat ".") eqn:E.
  - apply String.eqb_eq in E. subst pat. discriminate.
  - rewrite H. eexists. split; [reflexivity|]. reflexivity.
Qed.

Lemma re_dot :
  exists m, re_compile_ic "." = Ok m /\
    forall c s, c <> "010"%char -> m (String c s) = true.
Proof.
  eexists. split; [reflexivity|]. intros c s Hc. simpl.
  destruct (Ascii.eqb c "010") eqn:E; [|reflexivity].
  apply Ascii.eqb_eq in E. contradiction.
Qed.

End NaiveFacts.

(** The instance. *)
Definition naive : PandasLib := {|
  parse_float := Naive.parse_float;
  parse_datetime := Naive.parse_datetime;
  str_of_num := Naive.str_of_num;
  str_of_time := Naive.str_of_time;
  object_sum := fun _ => Raise TypeError;
  object_mean := fun _ => Raise TypeError;
  argsort := Naive.argsort;
  argsort_numbers := NaiveFacts.argsort_numbers;
  re_compile_ic := Naive.re_compile_ic;
  re_plain := NaiveFacts.re_plain;
  re_dot := NaiveFacts.re_dot;
  re_open_paren := eq_refl;
  merge_outer := fun _ _ _ _ => Raise ValueError;
  corr := fun _ => Raise TypeError
|}.

Lemma naive_stable : stable_argsort naive.
Proof.
  intros qs idx H. simpl in H. unfold Naive.argsort in H.
  rewrite NaiveFacts.all_nums_map in H. injection H as <-.
  apply NaiveFacts.argsort_asc_stable.
Qed.



(** ** Top-N *)

Lemma mapM_pure {A B : Type} (f : A -> result B) (g : A -> B) (l : list A) :
  (forall x, In x l -> f x = Ok (g x)) -> mapM f l = Ok (map g l).
Proof.
  induction l as [|x l IH]; simpl; intros H; [reflexivity|].
  rewrite (H x) by auto. cbn [bind]. rewrite IH by auto. reflexivity.
Qed.

Lemma nlargest_ranked (n : nat) (g : DataFrame) (c : string) (vs : list value) :
  getitem g c = Ok vs -> is_float_col vs = true ->
  exists idx,
    nlargest n g c = Ok (mkDF (columns g) (take (rows g) idx)) /\
    List.length idx = Nat.min n (len g) /\
    ranked (before_stable vs) n (len g) idx.
Proof.
  intros Hg Hf. exists (nlargest_idx n vs).
  pose proof (nlargest_idx_ranked n vs Hf) as Hr.
  rewrite (getitem_length _ _ _ Hg) in Hr.
  unfold nlargest. rewrite Hg. cbn [bind]. rewrite Hf.
  split; [reflexivity|]. split; [|exact Hr].
  apply (ranked_length _ _ _ _ Hr).
Qed.

Section TopN.

Context {L : PandasLib}.

Lemma top10_ranked (filtered : DataFrame) (gs : string) (vs : list value) :
  getitem filtered gs = Ok vs -> is_float_col vs = true ->
  exists idx,
    Games.top10 gs filtered = Ok (mkDF (columns filtered) (take (rows filtered) idx)) /\
    List.length idx = Nat.min 10 (len filtered) /\
    ranked (before vs) 10 (len filtered) idx /\
    (stable_argsort L -> ranked (before_stable vs) 10 (len filtered) idx).
Proof.
  intros Hg Hf.
  destruct (nargsort_desc_spec vs Hf) as (full & Hn & Hp & Hs & Hst).
  rewrite (getitem_length _ _ _ Hg) in Hp.
  exists (firstn 10 full).
  unfold Games.top10, sort_values_desc. rewrite Hg. cbn [bind]. rewrite Hn.
  cbn [bind]. unfold head, take. cbn [columns rows].
  rewrite firstn_map.
  assert (Hr : ranked (before vs) 10 (len filtered) (firstn 10 full)).
  { exists full. auto. }
  split; [reflexivity|]. split; [apply (ranked_length _ _ _ _ Hr)|].
  split; [exact Hr|]. intros H. exists full. auto.
Qed.

Lemma groupby_sum_float (df : DataFrame) (k v : string) (ks vs : list value) :
  getitem df k = Ok ks -> getitem df v = Ok vs -> is_float_col vs = true ->
  groupby_sum df k v
  = Ok (mkDF [k; v] (map (fun g => [fst g; sum_agg (nums (snd g))]) (groups ks vs))).
Proof.
  intros Hk Hv Hf. unfold groupby_sum, groupby_agg.
  rewrite Hk, Hv. cbn [bind]. rewrite Hf.
  rewrite (mapM_pure _ (fun g => [fst g; sum_agg (nums (snd g))])); reflexivity.
Qed.

End TopN.

Lemma sums_float (gs : list (value * list value)) :
  is_float_col (map (cell_at 1) (map (fun g => [fst g; sum_agg (nums (snd g))]) gs))
  = true.
Proof. induction gs as [|g gs IH]; simpl; [reflexivity|exact IH]. Qed.

(** C3, as the code has it.  The best-seller list (lines 138-143) is the
    first ten rows of the filtered table in an order with the larger
    sales first and missing sales last; the revenue ranking (lines 74-77)
    is the first ten rows of the table of per-location sums, so its length
    is bounded by the number of locations, not of rides.  Each has
    [min(10, rows ranked)] rows.  In the revenue ranking
    ([nlargest], which keeps the first of equal values) equal values
    stand in the order of the ranked table; in the best-seller list
    ([sort_values] with numpy's default sort) they do so whenever that
    sort is stable.  Both are functions of their input. *)
Theorem top_n_ranked {L : PandasLib} (games rides : DataFrame) (gs : string)
    (sales locations fares : list value) :
  getitem games gs = Ok sales -> is_float_col sales = true ->
  getitem rides "Pickup_Location" = Ok locations ->
  getitem rides "Booking_Value" = Ok fares -> is_float_col fares = true ->
  (exists idx,
     Games.top10 gs games = Ok (mkDF (columns games) (take (rows games) idx)) /\
     List.length idx = Nat.min 10 (len games) /\
     ranked (before sales) 10 (len games) idx /\
     (stable_argsort L -> ranked (before_stable sales) 10 (len games) idx)) /\
  (exists g sums idx,
     groupby_sum rides "Pickup_Location" "Booking_Value" = Ok g /\
     len g = List.length (groups locations fares) /\
     getitem g "Booking_Value" = Ok sums /\
     Ola.revenue_by_pickup rides
     = Ok (mkDF ["Pickup_Location"; "Revenue"] (take (rows g) idx)) /\
     List.length idx = Nat.min 10 (len g) /\
     ranked (before_stable sums) 10 (len g) idx) /\
  (forall t1 t2, Games.top10 gs games = Ok t1 -> Games.top10 gs games = Ok t2 ->
     t1 = t2) /\
  (forall t1 t2, Ola.revenue_by_pickup rides = Ok t1 ->
     Ola.revenue_by_pickup rides = Ok t2 -> t1 = t2).
Proof.
  intros Hs Hsf Hl Hf Hff. split; [|split; [|split]].
  - apply top10_ranked; assumption.
  - pose proof (groupby_sum_float rides _ _ _ _ Hl Hf Hff) as Hg.
    set (g := mkDF ["Pickup_Location"; "Booking_Value"]
                (map (fun g => [fst g; sum_agg (nums (snd g))])
                   (groups locations fares))) in *.
    assert (Hc : getitem g "Booking_Value" = Ok (map (cell_at 1) (rows g)))
      by reflexivity.
    destruct (nlargest_ranked 10 g "Booking_Value" _ Hc (sums_float _))
      as (idx & Hn & Hlen & Hr).
    exists g, (map (cell_at 1) (rows g)), idx.
    split; [exact Hg|]. split; [apply length_map|]. split; [exact Hc|].
    split; [|split; assumption].
    unfold Ola.revenue_by_pickup. rewrite Hg. cbn [bind]. rewrite Hn. reflexivity.
  - intros t1 t2 H1 H2. congruence.
  - intros t1 t2 H1 H2. congruence.
Qed.

(** The theorem on the sample tables, with the stable library sort. *)
Lemma top_n_ranked_witness :
  (exists idx,
     Games.top10 (L := naive) "Global_Sales" Sample.games
     = Ok (mkDF (columns Sample.games) (take (rows Sample.games) idx)) /\
     List.length idx = 3%nat) /\
  (exists t, Ola.revenue_by_pickup (L := naive) Sample.rides = Ok t /\ len t = 4%nat).
Proof.
  destruct (top_n_ranked (L := naive) Sample.games Sample.rides "Global_Sales"
              _ _ _ eq_refl eq_refl eq_refl eq_refl eq_refl)
    as ((idx & H1 & H2 & _) & (g & sums & idx' & Hg & Hl & _ & Hr & Hn & _) & _).
  split.
  - exists idx. split; [exact H1|exact H2].
  - eexists. split; [exact Hr|]. unfold len in *. cbn [rows].
    rewrite take_length, Hn, Hl. reflexivity.
Defined.

(** C3 as stated fails: two rides from one pickup location give a
    revenue ranking of one row, not of [min(10, 2)] rows. *)
Lemma top_n_length_counterexample :
  exists t, Ola.revenue_by_pickup (L := naive) Sample.two_rides = Ok t /\
    len t = 1%nat /\ Nat.min 10 (len Sample.two_rides) = 2%nat.
Proof. eexists. split; [reflexivity|]. split; reflexivity. Qed.

(** The revenue ranking of the ten sample rides, largest sum first. *)
Example revenue_by_pickup_sample :
  Ola.revenue_by_pickup (L := naive) Sample.rides
  = Ok (mkDF ["Pickup_Location"; "Revenue"]
          [[VStr "Airport"; VNum 330]; [VStr "Station"; VNum 290];
           [VStr "Mall"; VNum 200]; [VStr "Harbour"; VNum 180]]).
Proof. reflexivity. Qed.

(** The best sellers of the sample games: the two titles with equal sales
    stay in table order under the stable library sort. *)
Example top10_sample :
  Games.top10 (L := naive) "Global_Sales" Sample.games
  = Ok (mkDF Sample.game_columns
          [Sample.game "Car Racer" "PS4" "Racing" 2015 (9 # 2) 3;
           Sample.game "Sedan" "PC" "Racing" 2016 (7 # 2) 3;
           Sample.game "Farm Life" "PC" "Simulation" 2018 4 (5 # 2)]).
Proof. reflexivity. Qed.

(** ** KPIs *)

Lemma getitem_no_rows (cols : list string) (c : string) :
  has_col (mkDF cols []) c = true -> getitem (mkDF cols []) c = Ok [].
Proof.
  intros H. destruct (has_col_index _ _ H) as [i Hi].
  unfold getitem. rewrite Hi. reflexivity.
Qed.

Lemma filter_map_length {A B : Type} (f : B -> bool) (g : A -> B) (l : list A) :
  List.length (List.filter f (map g l))
  = List.length (List.filter (fun x => f (g x)) l).
Proof.
  induction l as [|x l IH]; simpl; [reflexivity|].
  destruct (f (g x)); simpl; rewrite IH; reflexivity.
Qed.

Lemma success_rides_count (df : DataFrame) (st : list value) :
  getitem df "Booking_Status" = Ok st ->
  Ola.success_rides df
  = Ok (List.length (List.filter (fun v => value_eqb v (VStr "Success")) st)).
Proof.
  intros H. unfold Ola.success_rides. rewrite H. cbn [bind].
  unfold getitem in H. destruct (col_index _ _) as [i|]; [|discriminate].
  injection H as <-. unfold len, boolean_index, eq_str. cbn [rows].
  rewrite select_rows_map_cell, filter_map_length. reflexivity.
Qed.

(** C4.  On a table without rows the success rate is 0 and the sums
    (total revenue, total global sales) are 0, none of them an error or
    a missing value; on a table of ten rides of which seven have the
    status [Success] the success rate is 70. *)
Theorem kpis_zero_rows_and_scenario {L : PandasLib} (none ten : DataFrame)
    (r : Games.Roles) (st : list value) :
  rows none = [] ->
  has_col none "Booking_Status" = true ->
  has_col none "Booking_Value" = true ->
  getitem ten "Booking_Status" = Ok st ->
  List.length st = 10%nat ->
  List.length (List.filter (fun v => value_eqb v (VStr "Success")) st) = 7%nat ->
  Ola.success_rate none = Ok 0%Q /\
  Ola.total_revenue none = Ok (VNum 0) /\
  Games.total_sales r none = Ok (VNum 0) /\
  Ola.success_rate ten = Ok 70%Q.
Proof.
  intros Hn Hs Hv Hst Hlen Hcount.
  destruct none as [cols rs]. simpl in Hn. subst rs.
  split; [|split; [|split]].
  - unfold Ola.success_rate.
    rewrite (success_rides_count _ _ (getitem_no_rows _ _ Hs)). reflexivity.
  - unfold Ola.total_revenue. rewrite (getitem_no_rows _ _ Hv). reflexivity.
  - unfold Games.total_sales.
    destruct (Games.global_sales_col r) as [c|]; simpl; [|reflexivity].
    destruct (has_col (mkDF cols []) c) eqn:E; [|reflexivity].
    rewrite (getitem_no_rows _ _ E). reflexivity.
  - unfold Ola.success_rate. rewrite (success_rides_count _ _ Hst). cbn [bind].
    unfold Ola.total_rides. rewrite <- (getitem_length _ _ _ Hst), Hlen, Hcount.
    reflexivity.
Qed.

Lemma kpis_zero_rows_and_scenario_witness :
  Ola.success_rate Sample.no_rides = Ok 0%Q /\
  Ola.total_revenue (L := naive) Sample.no_rides = Ok (VNum 0) /\
  Games.total_sales (L := naive) (Games.resolve Sample.game_columns)
    (mkDF Sample.game_columns []) = Ok (VNum 0) /\
  Ola.success_rate Sample.rides = Ok 70%Q.
Proof.
  destruct (kpis_zero_rows_and_scenario (L := naive) Sample.no_rides Sample.rides
              (Games.resolve Sample.game_columns) _
              eq_refl eq_refl eq_refl eq_refl eq_refl eq_refl)
    as (H1 & H2 & H3 & H4).
  split; [exact H1|]. split; [exact H2|]. split; [exact H3|exact H4].
Defined.

(** C10.  On a table without rows the average fare is [NaN]: the mean
    of an empty column, which [round] leaves as it is; it is neither an
    error nor the 0 that the guarded success rate gives. *)
Theorem avg_fare_zero_rows {L : PandasLib} (none : DataFrame) :
  rows none = [] ->
  has_col none "Booking_Value" = true ->
  has_col none "Booking_Status" = true ->
  Ola.avg_fare none = Ok VNaN /\ Ola.avg_fare none <> Ok (VNum 0) /\
  ~ raises (Ola.avg_fare none) /\ Ola.success_rate none = Ok 0%Q.
Proof.
  intros Hn Hv Hs. destruct none as [cols rs]. simpl in Hn. subst rs.
  assert (E : Ola.avg_fare (mkDF cols []) = Ok VNaN).
  { unfold Ola.avg_fare. rewrite (getitem_no_rows _ _ Hv). reflexivity. }
  rewrite E. split; [reflexivity|]. split; [discriminate|]. split.
  - intros [e He]. discriminate.
  - unfold Ola.success_rate.
    rewrite (success_rides_count _ _ (getitem_no_rows _ _ Hs)). reflexivity.
Qed.

Lemma avg_fare_zero_rows_witness :
  Ola.avg_fare (L := naive) Sample.no_rides = Ok VNaN.
Proof.
  exact (proj1 (avg_fare_zero_rows (L := naive) Sample.no_rides
                  eq_refl eq_refl eq_refl)).
Defined.

(** The average fare of the ten sample rides. *)
Example avg_fare_sample :
  Ola.avg_fare (L := naive) Sample.rides = Ok (VNum 100) /\
  Ola.total_revenue (L := naive) Sample.rides = Ok (VNum 1000).
Proof. split; reflexivity. Qed.

(** ** Filters with nothing selected *)

Lemma set_nth_cell (i : nat) (r : row) : set_nth i (cell_at i r) r = r.
Proof.
  unfold cell_at. revert i.
  induction r as [|x r IH]; intros i; [destruct i; reflexivity|].
  destruct i as [|i]; simpl; [reflexivity|]. rewrite IH. reflexivity.
Qed.

Lemma setitem_same (df : DataFrame) (c : string) (vs : list value) :
  getitem df c = Ok vs -> setitem df c vs = df.
Proof.
  unfold getitem, setitem. destruct (col_index c (columns df)) as [i|]; [|discriminate].
  intros [= <-]. destruct df as [cols rs]. simpl. f_equal.
  induction rs as [|r rs IH]; simpl; [reflexivity|].
  rewrite set_nth_cell, IH. reflexivity.
Qed.

Section NoFilters.

Context {L : PandasLib}.

Lemma to_numeric_plain (vs : list value) :
  forallb rating_ok vs = true -> to_numeric vs = vs.
Proof.
  induction vs as [|v vs IH]; simpl; intros H; [reflexivity|].
  apply andb_prop in H as [Hv H]. rewrite (IH H).
  destruct v; try discriminate; reflexivity.
Qed.

Lemma rating_mask_plain (vs : list value) :
  forallb rating_ok vs = true -> ge_float (fillna0 vs) 0 = map (fun _ => true) vs.
Proof.
  induction vs as [|v vs IH]; simpl; intros H; [reflexivity|].
  apply andb_prop in H as [Hv H]. unfold ge_float, fillna0 in *. rewrite (IH H).
  destruct v; try discriminate; simpl; [reflexivity|].
  simpl in Hv. rewrite Hv. reflexivity.
Qed.

Lemma select_rows_all (rs : list row) (vs : list value) :
  List.length vs = List.length rs -> select_rows rs (map (fun _ => true) vs) = rs.
Proof.
  revert vs. induction rs as [|r rs IH]; intros [|v vs] H; simpl in *;
    try reflexivity; try discriminate.
  rewrite IH by lia. reflexivity.
Qed.

Lemma rating_filter_plain (df : DataFrame) (rc : string) (vs : list value) :
  getitem df rc = Ok vs -> forallb rating_ok vs = true ->
  Games.rating_filter rc (Some 0%Q) df = Ok df.
Proof.
  intros Hg Hok. unfold Games.rating_filter, Games.coerce_rating, Games.rating_mask.
  rewrite Hg. cbn [bind]. rewrite (to_numeric_plain _ Hok).
  rewrite (setitem_same _ _ _ Hg), Hg. cbn [bind].
  rewrite (rating_mask_plain _ Hok). unfold boolean_index.
  rewrite select_rows_all by (apply (getitem_length _ _ _ Hg)).
  destruct df; reflexivity.
Qed.

End NoFilters.

(** C1, as the code has it.  With nothing selected the ride-hailing
    filters return the loaded table as it is.  The video-game filters do
    so when no rating column is resolved, or when every rating is [NaN]
    or a number that is not negative: the rating step runs whenever a
    rating column exists, also with the slider at its default 0. *)
Theorem all_empty_filters_identity {L : PandasLib} (df : DataFrame) :
  ratings_plain df = true ->
  Ola.apply_filters (Ola.mkFilters [] [] []) df = Ok df /\
  Games.apply_filters (Games.resolve (columns df)) (no_filters (Some 0%Q)) df = Ok df.
Proof.
  intros H. split; [reflexivity|].
  unfold Games.apply_filters, Games.membership_filters, no_filters.
  cbn [Games.selected_platforms Games.selected_genres Games.min_rating
       Games.search_title Py.nonempty Py.truthy String.eqb negb].
  assert (E1 : forall o : option string,
             match o with
             | Some pc => if Py.truthy pc && false then isin_filter df pc [] else Ok df
             | None => Ok df
             end = Ok df).
  { intros [pc|]; [rewrite andb_false_r|]; reflexivity. }
  rewrite E1. cbn [bind]. rewrite E1. cbn [bind].
  assert (E3 : match Games.title_col (Games.resolve (columns df)) with
               | Some tc =>
                   if false && Py.truthy tc then Games.search_filter tc "" df
                   else Ok df
               | None => Ok df
               end = Ok df).
  { destruct (Games.title_col _); reflexivity. }
  unfold ratings_plain in H.
  destruct (Games.rating_col (Games.resolve (columns df))) as [rc|] eqn:Er.
  - destruct (resolved_truthy Games.is_rating _ _ eq_refl Er) as [-> _].
    destruct (getitem df rc) as [vs|] eqn:Eg; [|discriminate].
    rewrite (rating_filter_plain df rc vs Eg H). cbn [bind]. rewrite E3. reflexivity.
  - cbn [bind]. rewrite E3. reflexivity.
Qed.

Lemma all_empty_filters_identity_witness :
  Games.apply_filters (L := naive) (Games.resolve (columns Sample.games))
    (no_filters (Some 0%Q)) Sample.games = Ok Sample.games.
Proof.
  exact (proj2 (all_empty_filters_identity (L := naive) Sample.games eq_refl)).
Defined.

(** C1 as stated fails: with nothing selected and the slider at 0, a row
    with a negative rating is dropped. *)
Lemma all_empty_filters_counterexample :
  Games.apply_filters (L := naive)
    (Games.resolve (columns Sample.games_negative_rating))
    (no_filters (Some 0%Q)) Sample.games_negative_rating
  = Ok (mkDF Sample.game_columns []) /\
  rows Sample.games_negative_rating <> [].
Proof. split; [reflexivity|discriminate]. Qed.

(** With nothing selected a rating that is not a number is replaced by
    [NaN], for every library. *)
Example all_empty_filters_coerce {L : PandasLib} :
  parse_float "unrated" = None ->
  Games.apply_filters (Games.resolve ["Title"; "Rating"]) (no_filters (Some 0%Q))
    (mkDF ["Title"; "Rating"] [[VStr "Sedan"; VStr "unrated"]])
  = Ok (mkDF ["Title"; "Rating"] [[VStr "Sedan"; VNaN]]).
Proof.
  intros H. unfold Games.apply_filters, Games.rating_filter, Games.coerce_rating.
  simpl. rewrite H. reflexivity.
Qed.

(** The membership theorem on the sample tables: one vehicle type and
    one status selected for the rides, one platform for the games. *)
Lemma membership_filters_exact_witness :
  Ola.apply_filters (Ola.mkFilters [VStr "Mini"] [] [VStr "Cancelled"]) Sample.rides
  = Ok (mkDF Sample.ride_columns
          [Sample.ride "B03" "Cancelled" 60 "Airport";
           Sample.ride "B06" "Cancelled" 40 "Mall";
           Sample.ride "B09" "Cancelled" 70 "Harbour"]) /\
  Games.membership_filters (Games.resolve (columns Sample.games))
    (Games.mkSidebar [VStr "PC"] [] None "") Sample.games
  = Ok (mkDF Sample.game_columns
          [Sample.game "Sedan" "PC" "Racing" 2016 (7 # 2) 3;
           Sample.game "Farm Life" "PC" "Simulation" 2018 4 (5 # 2)]).
Proof.
  destruct (membership_filters_exact
              (Ola.mkFilters [VStr "Mini"] [] [VStr "Cancelled"])
              (Games.mkSidebar [VStr "PC"] [] None "") Sample.rides Sample.games
              eq_refl)
    as (_ & H1 & H2).
  rewrite H1, H2. split; reflexivity.
Defined.

(** ** The title search *)

Section Search.

Context {L : PandasLib}.

(** A plain search text keeps exactly the rows whose title, as text,
    contains it up to letter case (titles in ASCII). *)
Lemma search_filter_plain (df : DataFrame) (tc pat : string) (vs : list value) :
  getitem df tc = Ok vs -> plain_pattern pat = true ->
  forallb is_ascii (astype_str vs) = true ->
  Games.search_filter tc pat df
  = Ok (boolean_index df
          (map (fun s => Py.contains (Py.lower s) (Py.lower pat)) (astype_str vs))).
Proof.
  intros Hg Hp Ha. unfold Games.search_filter, Games.search_mask.
  rewrite Hg. cbn [bind].
  destruct (re_plain pat Hp) as (m & -> & Hm). cbn [bind]. do 2 f_equal.
  apply map_ext_in. intros s Hs. apply Hm.
  rewrite forallb_forall in Ha. apply Ha. exact Hs.
Qed.

(** C5 on the code: the search text is a regular expression matched
    against [astype(str)] of the title.  A null title is the text [nan]
    by then, so searching [nan] keeps the row of the null title; the
    text [.] keeps a title without a dot; the text [(] raises.  The
    scenario of the claim does hold: [car] keeps the row of
    [Car Racer] alone. *)
Theorem search_title_on_nulls_and_patterns :
  Games.apply_filters (Games.resolve ["Title"]) (Games.mkSidebar [] [] None "nan")
    Sample.titles
  = Ok (mkDF ["Title"] [[VNaN]]) /\
  Games.apply_filters (Games.resolve ["Title"]) (Games.mkSidebar [] [] None ".")
    (mkDF ["Title"] [[VStr "Sedan"]])
  = Ok (mkDF ["Title"] [[VStr "Sedan"]]) /\
  Games.apply_filters (Games.resolve ["Title"]) (Games.mkSidebar [] [] None "(")
    Sample.titles
  = Raise ReError /\
  Games.apply_filters (Games.resolve ["Title"]) (Games.mkSidebar [] [] None "car")
    Sample.titles
  = Ok (mkDF ["Title"] [[VStr "Car Racer"]]).
Proof.
  assert (E : forall pat d, Py.truthy pat = true ->
            Games.apply_filters (Games.resolve ["Title"])
              (Games.mkSidebar [] [] None pat) d
            = Games.search_filter "Title" pat d).
  { intros pat d Hp.
    assert (R : Games.resolve ["Title"]
                = Games.mkRoles None None (Some "Title") None None)
      by (vm_compute; reflexivity).
    rewrite R. unfold Games.apply_filters, Games.membership_filters.
    cbn [Games.platform_col Games.genre_col Games.rating_col Games.title_col
         Games.search_title bind].
    rewrite Hp. change (Py.truthy "Title") with true. cbn [andb].
    destruct (Games.search_filter "Title" pat d); reflexivity. }
  split; [|split; [|split]].
  - rewrite E by reflexivity.
    rewrite (search_filter_plain Sample.titles "Title" "nan"
               [VStr "Car Racer"; VStr "Sedan"; VNaN] eq_refl eq_refl eq_refl).
    reflexivity.
  - rewrite E by reflexivity. unfold Games.search_filter, Games.search_mask.
    cbn [getitem col_index columns rows String.eqb Ascii.eqb Bool.eqb bind map].
    destruct re_dot as (m & -> & Hm). cbn [bind astype_str map astype_str_cell cell_at nth].
    rewrite Hm by discriminate. reflexivity.
  - rewrite E by reflexivity. unfold Games.search_filter, Games.search_mask.
    cbn [getitem col_index columns rows String.eqb Ascii.eqb Bool.eqb bind map].
    rewrite re_open_paren. reflexivity.
  - rewrite E by reflexivity.
    rewrite (search_filter_plain Sample.titles "Title" "car"
               [VStr "Car Racer"; VStr "Sedan"; VNaN] eq_refl eq_refl eq_refl).
    reflexivity.
Qed.

End Search.

(** ** Questions without their columns *)

Section Questions.

Context {L : PandasLib}.

(** A question whose branch is missing from the chain, or whose
    condition on the columns fails, ends in the notice. *)
Lemma answer_guarded (filtered : DataFrame) :
  (has_col filtered "Rating" = false ->
     Games.answer Games.TopRatedGames filtered = Ok Games.Unavailable /\
     Games.answer Games.RatingDistribution filtered = Ok Games.Unavailable) /\
  (has_col filtered "Developer" = false ->
     Games.answer Games.DevelopersByRating filtered = Ok Games.Unavailable) /\
  (has_col filtered "Global_Sales" = false ->
     Games.answer Games.BestSellingGames filtered = Ok Games.Unavailable) /\
  Games.answer Games.TopPublishers filtered = Ok Games.Unavailable /\
  Games.answer Games.RegionalSalesHeatmap filtered = Ok Games.Unavailable.
Proof.
  split; [intros H; split; unfold Games.answer; rewrite H; reflexivity|].
  split; [intros H; unfold Games.answer; rewrite H; reflexivity|].
  split; [intros H; unfold Games.answer; rewrite H; reflexivity|].
  split; reflexivity.
Qed.

(** C6 on the code: a condition that names fewer columns than its
    branch reads lets the branch raise.  On a sales table whose title
    column is called [Name], the top-rated question reads the absent
    [Title] and the rating-and-sales question colours by the absent
    [Genre]; the Consumer Behavior tab reads [Wishlist] without asking;
    and the region question shows nothing, not the notice, when no column
    ends in [_Sales]. *)
Theorem questions_read_unchecked_columns :
  Games.answer Games.TopRatedGames Sample.sales_only = Raise (KeyError "Title") /\
  Games.answer Games.BestSellingGames Sample.sales_only = Raise (KeyError "Title") /\
  Games.answer Games.RatingVsSales Sample.sales_only = Raise ValueError /\
  Games.consumer_behavior (Games.resolve (columns Sample.sales_only)) Sample.sales_only
  = Raise (KeyError "Wishlist") /\
  Games.answer Games.RegionSales Sample.titles = Ok Games.Blank.
Proof. repeat split. Qed.

End Questions.

(** ** Loading *)

(** C8, as the code has it.  In the video-game script, when neither
    file exists (or the database has none of the expected tables and the
    CSV is absent, or the loaded table is empty for any reason) the
    loader returns an empty table and the run stops at the notice with
    nothing else computed.  A file that exists and cannot be parsed makes
    the loader raise, and nothing catches it.  The ride-hailing loader
    has one source and no fallback: an absent or unparsable CSV raises. *)
Theorem loaders_without_sources {L : PandasLib} (sb : Games.Sidebar) (qa : Games.QA)
    (f : Ola.Filters) (s : store) :
  Games.load_data (Games.mkFiles Absent Absent) = Ok empty_frame /\
  fst (Games.main (Games.mkFiles Absent Absent) sb qa s) = Ok Games.Halted /\
  fst (Games.main (Games.mkFiles (Readable []) Absent) sb qa s) = Ok Games.Halted /\
  (forall fs d, Games.load_data fs = Ok d -> df_empty d = true ->
     fst (Games.main fs sb qa s) = Ok Games.Halted) /\
  (forall c, fst (Games.main (Games.mkFiles Unreadable c) sb qa s)
             = Raise DatabaseError) /\
  fst (Games.main (Games.mkFiles Absent Unreadable) sb qa s) = Raise ParserError /\
  fst (Ola.main Absent f s) = Raise FileNotFoundError /\
  fst (Ola.main Unreadable f s) = Raise ParserError.
Proof.
  repeat split.
  intros fs d Hd He. unfold Games.main, mbind, lift, new, ret.
  rewrite Hd, He. reflexivity.
Qed.

(** C8 as stated fails for the ride-hailing loader: without its CSV the
    script ends in an exception, not in an empty table and a notice. *)
Lemma ola_loader_counterexample :
  fst (Ola.main (L := naive) Absent (Ola.mkFilters [] [] []) ∅)
  = Raise FileNotFoundError.
Proof. reflexivity. Qed.

(** ** Objects: what the scripts change *)

Lemma mbind_lift {A B : Type} (r : result A) (k : A -> M B) (s : store) :
  mbind (lift r) k s = match r with Ok a => k a s | Raise e => (Raise e, s) end.
Proof. destruct r; reflexivity. Qed.

Lemma mbind_deref {B : Type} (l : loc) (x : DataFrame) (k : DataFrame -> M B)
    (s : store) :
  s !! l = Some x -> mbind (deref l) k s = k x s.
Proof. intros H. unfold mbind, deref. rewrite H. reflexivity. Qed.

Lemma fresh_unused (s0 s : store) :
  s0 ⊆ s -> s0 !! fresh (dom s) = None /\ s !! fresh (dom s) = None.
Proof.
  intros Hsub.
  assert (H : s !! fresh (dom s) = None).
  { apply not_elem_of_dom. apply is_fresh. }
  split; [|exact H].
  destruct (s0 !! fresh (dom s)) as [y|] eqn:E; [|reflexivity].
  pose proof (lookup_weaken _ _ _ _ E Hsub) as H'. congruence.
Qed.

Lemma new_owned (s0 s : store) (x : DataFrame) :
  s0 ⊆ s -> owned s0 (<[fresh (dom s) := x]> s) (fresh (dom s)) x.
Proof.
  intros Hsub. destruct (fresh_unused s0 s Hsub) as [H0 H].
  split; [|split].
  - apply insert_subseteq_r; assumption.
  - exact H0.
  - apply lookup_insert_eq.
Qed.

Lemma sim_bind (s0 s : store) (m : M loc) (p : result DataFrame)
    (k : loc -> M loc) (kp : DataFrame -> result DataFrame) :
  sim s0 (m s) p ->
  (forall s' l x, owned s0 s' l x -> sim s0 (k l s') (kp x)) ->
  sim s0 (mbind m k s) (bind p kp).
Proof.
  unfold sim at 1, mbind. destruct (m s) as [[l|e] s'], p as [x|e']; simpl;
    intros H Hk; try contradiction.
  - apply Hk. exact H.
  - exact H.
Qed.

Lemma sim_copy (s0 s : store) (df : loc) (d : DataFrame) :
  s0 ⊆ s -> s !! df = Some d -> sim s0 (copy df s) (Ok d).
Proof.
  intros Hsub Hd. unfold copy. rewrite (mbind_deref _ _ _ _ Hd).
  apply new_owned. exact Hsub.
Qed.

Lemma sim_index_by (s0 s : store) (l : loc) (x : DataFrame)
    (mask : DataFrame -> result (list bool)) :
  s0 ⊆ s -> s !! l = Some x ->
  sim s0 (index_by l mask s) (let* m := mask x in Ok (boolean_index x m)).
Proof.
  intros Hsub Hl. unfold index_by. rewrite (mbind_deref _ _ _ _ Hl), mbind_lift.
  destruct (mask x) as [m|e]; simpl.
  - apply new_owned. exact Hsub.
  - split; [reflexivity|exact Hsub].
Qed.

Lemma assign_run (s : store) (l : loc) (x : DataFrame) (c : string)
    (f : DataFrame -> result (list value)) :
  s !! l = Some x ->
  assign l c f s
  = match f x with
    | Ok vs => (Ok tt, <[l := setitem x c vs]> s)
    | Raise e => (Raise e, s)
    end.
Proof.
  intros Hl. unfold assign. rewrite (mbind_deref _ _ _ _ Hl), mbind_lift.
  destruct (f x); reflexivity.
Qed.

Lemma assign_owned (s0 s : store) (l : loc) (x y : DataFrame) :
  owned s0 s l x -> owned s0 (<[l := y]> s) l y.
Proof.
  intros (Hsub & H0 & _). split; [|split].
  - apply insert_subseteq_r; assumption.
  - exact H0.
  - apply lookup_insert_eq.
Qed.

Lemma sim_assign_bind (s0 s : store) (l : loc) (x : DataFrame) (c : string)
    (f : DataFrame -> result (list value)) (k : unit -> M loc)
    (kp : DataFrame -> result DataFrame) :
  owned s0 s l x ->
  (forall s' y, owned s0 s' l y -> sim s0 (k tt s') (kp y)) ->
  sim s0 (mbind (assign l c f) k s) (let* vs := f x in kp (setitem x c vs)).
Proof.
  intros Ho Hk. unfold mbind. rewrite (assign_run _ _ x) by apply Ho.
  destruct (f x) as [vs|e]; simpl.
  - apply Hk. apply (assign_owned _ _ _ x). exact Ho.
  - split; [reflexivity|apply Ho].
Qed.

Lemma bind_Ok_r {A : Type} (m : result A) : (let* x := m in Ok x) = m.
Proof. destruct m; reflexivity. Qed.

Lemma sim_when_col (s0 s : store) (l : loc) (x : DataFrame) (c : option string)
    (go : bool) (mask : string -> DataFrame -> result (list bool)) :
  owned s0 s l x ->
  sim s0 (Games.when_col c go l mask s)
    (match c with
     | Some c =>
         if Py.truthy c && go
         then let* m := mask c x in Ok (boolean_index x m)
         else Ok x
     | None => Ok x
     end).
Proof.
  intros H. unfold Games.when_col. destruct c as [c|]; [|exact H].
  destruct (Py.truthy c && go); [|exact H].
  apply sim_index_by; apply H.
Qed.

Lemma sim_when (s0 s : store) (l : loc) (x : DataFrame) (go : bool)
    (mask : DataFrame -> result (list bool)) :
  owned s0 s l x ->
  sim s0 ((if go then index_by l mask else ret l) s)
    (if go then let* m := mask x in Ok (boolean_index x m) else Ok x).
Proof.
  intros H. destruct go; [|exact H]. apply sim_index_by; apply H.
Qed.

Section Passes.

Context {L : PandasLib}.

Lemma member_eq (c : option string) (sel : list value) (x : DataFrame) :
  match c with
  | Some c =>
      if Py.truthy c && Py.nonempty sel
      then let* m := Games.isin_mask sel c x in Ok (boolean_index x m)
      else Ok x
  | None => Ok x
  end
  = match c with
    | Some c =>
        if Py.truthy c && Py.nonempty sel then isin_filter x c sel else Ok x
    | None => Ok x
    end.
Proof.
  destruct c as [c|]; [|reflexivity].
  destruct (Py.truthy c && Py.nonempty sel); [|reflexivity].
  unfold Games.isin_mask, isin_filter. destruct (getitem x c); reflexivity.
Qed.

Lemma search_eq (c : option string) (pat : string) (x : DataFrame) :
  match c with
  | Some c =>
      if Py.truthy c && Py.truthy pat
      then let* m := (fun tc => Games.search_mask tc pat) c x in
           Ok (boolean_index x m)
      else Ok x
  | None => Ok x
  end
  = match c with
    | Some tc =>
        if Py.truthy pat && Py.truthy tc then Games.search_filter tc pat x else Ok x
    | None => Ok x
    end.
Proof.
  destruct c as [c|]; [|reflexivity]. rewrite andb_comm. reflexivity.
Qed.

(** The sidebar pass on objects computes [Games.apply_filters] of the
    loaded frame, in an object of its own. *)
Lemma sidebar_pass_sim (s0 s : store) (r : Games.Roles) (sb : Games.Sidebar)
    (df : loc) (d : DataFrame) :
  s0 ⊆ s -> s !! df = Some d ->
  sim s0 (Games.sidebar_pass r sb df s) (Games.apply_filters r sb d).
Proof.
  intros Hsub Hd.
  assert (H : exists p, sim s0 (Games.sidebar_pass r sb df s) p /\
                        p = Games.apply_filters r sb d).
  { eexists. split.
    - unfold Games.sidebar_pass.
      eapply sim_bind; [apply sim_copy; eassumption|]. intros s1 l1 x1 H1.
      eapply sim_bind; [apply sim_when_col; exact H1|]. intros s2 l2 x2 H2.
      eapply sim_bind; [apply sim_when_col; exact H2|]. intros s3 l3 x3 H3.
      eapply sim_bind.
      { instantiate (1 := match Games.rating_col r with
                          | Some rc =>
                              if Py.truthy rc
                              then Games.rating_filter rc (Games.min_rating sb) x3
                              else Ok x3
                          | None => Ok x3
                          end).
        destruct (Games.rating_col r) as [rc|]; [|exact H3].
        destruct (Py.truthy rc); [|exact H3].
        unfold Games.rating_filter.
        apply (sim_assign_bind s0 s3 l3 x3 rc (Games.coerce_rating rc)
                 (fun _ => index_by l3 (Games.rating_mask rc (Games.min_rating sb)))
                 (fun y => let* m := Games.rating_mask rc (Games.min_rating sb) y in
                           Ok (boolean_index y m)) H3).
        intros s' y Hy. apply sim_index_by; apply Hy. }
      intros s4 l4 x4 H4. apply sim_when_col. exact H4.
    - unfold Games.apply_filters, Games.membership_filters. cbn [bind]. cbv zeta.
      rewrite member_eq.
      match goal with |- bind ?m _ = _ => destruct m; cbn [bind]; [|reflexivity] end.
      rewrite member_eq.
      match goal with |- bind ?m _ = _ => destruct m; cbn [bind]; [|reflexivity] end.
      match goal with |- bind ?m _ = _ => destruct m; cbn [bind]; [|reflexivity] end.
      rewrite search_eq, bind_Ok_r. reflexivity. }
  destruct H as (p & Hp & <-). exact Hp.
Qed.

End Passes.

Lemma when_eq (go : bool) (sel : list value) (c : string) (x : DataFrame) :
  (if go
   then let* m := (let* vs := getitem x c in Ok (isin vs sel)) in
        Ok (boolean_index x m)
   else Ok x)
  = (if go then isin_filter x c sel else Ok x).
Proof.
  destruct go; [|reflexivity].
  unfold isin_filter. destruct (getitem x c); reflexivity.
Qed.

(** What follows a pass: it continues in a store where the pass's result
    is an object of its own, or the run has ended with the exception of
    the function on frames. *)
Lemma sim_run {B : Type} (s0 s : store) (m : M loc) (p : result DataFrame)
    (k : loc -> M B) :
  sim s0 (m s) p ->
  match p with
  | Ok x => exists l s', owned s0 s' l x /\ mbind m k s = k l s'
  | Raise e => exists s', s0 ⊆ s' /\ mbind m k s = (Raise e, s')
  end.
Proof.
  unfold sim, mbind. destruct (m s) as [[l|e] s'], p as [x|e']; simpl;
    intros H; try contradiction.
  - exists l, s'. auto.
  - destruct H as [-> H]. exists s'. auto.
Qed.

(** The second pass on objects computes [Games.second_filter] of the
    loaded frame. *)
Lemma second_pass_sim (s0 s : store) (qa : Games.QA) (df : loc) (d : DataFrame) :
  s0 ⊆ s -> s !! df = Some d ->
  sim s0 (Games.second_pass qa df s) (Games.second_filter qa d).
Proof.
  intros Hsub Hd.
  assert (H : exists p, sim s0 (Games.second_pass qa df s) p /\
                        p = Games.second_filter qa d).
  { eexists. split.
    - unfold Games.second_pass.
      eapply sim_bind; [apply sim_copy; eassumption|]. intros s1 l1 x1 H1.
      eapply sim_bind; [apply sim_when; exact H1|]. intros s2 l2 x2 H2.
      eapply sim_bind; [apply sim_when; exact H2|]. intros s3 l3 x3 H3.
      instantiate (1 := fun x3 =>
        match Games.year_range qa with
        | Some (lo, hi) =>
            if has_col x3 "Year"
            then let* m := Games.year_mask lo hi x3 in Ok (boolean_index x3 m)
            else Ok x3
        | None => Ok x3
        end). cbv beta.
      rewrite (mbind_deref _ _ _ _ (proj2 (proj2 H3))).
      destruct (Games.year_range qa) as [[lo hi]|]; [|exact H3].
      destruct (has_col x3 "Year"); [|exact H3].
      apply sim_index_by; apply H3.
    - unfold Games.second_filter, Games.isin_mask. cbn [bind]. cbv zeta.
      rewrite when_eq.
      match goal with |- bind ?m _ = _ => destruct m; cbn [bind]; [|reflexivity] end.
      rewrite when_eq.
      match goal with |- bind ?m _ = _ => destruct m; cbn [bind]; [|reflexivity] end.
      rewrite bind_Ok_r. reflexivity. }
  destruct H as (p & Hp & <-). exact Hp.
Qed.

(** The filters of the ride-hailing page on objects compute
    [Ola.apply_filters] of the loaded frame. *)
Lemma filter_pass_sim (s0 s : store) (f : Ola.Filters) (df : loc) (d : DataFrame) :
  s0 ⊆ s -> s !! df = Some d ->
  sim s0 (Ola.filter_pass f df s) (Ola.apply_filters f d).
Proof.
  intros Hsub Hd.
  assert (H : exists p, sim s0 (Ola.filter_pass f df s) p /\
                        p = Ola.apply_filters f d).
  { eexists. split.
    - unfold Ola.filter_pass.
      eapply sim_bind; [apply sim_copy; eassumption|]. intros s1 l1 x1 H1.
      eapply sim_bind; [apply sim_when; exact H1|]. intros s2 l2 x2 H2.
      eapply sim_bind; [apply sim_when; exact H2|]. intros s3 l3 x3 H3.
      apply sim_when. exact H3.
    - unfold Ola.apply_filters. cbn [bind]. cbv zeta beta.
      rewrite (when_eq _ (Ola.vehicle f) "Vehicle_Type").
      match goal with |- bind ?m _ = _ => destruct m; cbn [bind]; [|reflexivity] end.
      rewrite (when_eq _ (Ola.payment f) "Payment_Method").
      match goal with |- bind ?m _ = _ => destruct m; cbn [bind]; [|reflexivity] end.
      rewrite (when_eq _ (Ola.status f) "Booking_Status"), bind_Ok_r. reflexivity. }
  destruct H as (p & Hp & <-). exact Hp.
Qed.

(** A read-only step: the run goes on in the same store, or ends there. *)
Ltac lift_step post :=
  rewrite mbind_lift;
  match goal with
  | |- context [match ?r with Ok _ => _ | Raise _ => _ end] =>
      let E := fresh "E" in
      destruct r eqn:E;
      [|unfold post; cbn [fst snd]; split; [assumption|intros ? [=]]]
  end.

Section Pages.

Context {L : PandasLib}.

(** One run of the video-game page leaves every object of the initial
    store as it was, and what it shows is a function of the loaded
    frame: the sidebar pass, the KPIs and lists of that pass, and the
    second pass on the loaded frame itself. *)
Lemma page_frame (sb : Games.Sidebar) (qa : Games.QA) (s : store) (df : loc)
    (d : DataFrame) :
  s !! df = Some d ->
  s ⊆ snd (Games.page sb qa df s) /\
  forall p, fst (Games.page sb qa df s) = Ok p ->
    Games.second_filter qa d = Ok (Games.qa_table p) /\
    Games.answer (Games.question qa) (Games.qa_table p) = Ok (Games.qa_answer p) /\
    exists x, Games.apply_filters (Games.resolve (columns d)) sb d = Ok x /\
      Games.kpis (Games.resolve (columns d)) x = Ok (Games.kpis_out p) /\
      Games.top_global_sellers (Games.resolve (columns d)) x
      = Ok (Games.top_sellers p) /\
      Games.consumer_behavior (Games.resolve (columns d)) x
      = Ok (Games.top_wishlist_out p).
Proof.
  intros Hd.
  set (post := fun out : result Games.Page * gmap positive DataFrame =>
    s ⊆ snd out /\
    forall p, fst out = Ok p ->
      Games.second_filter qa d = Ok (Games.qa_table p) /\
      Games.answer (Games.question qa) (Games.qa_table p) = Ok (Games.qa_answer p) /\
      exists x, Games.apply_filters (Games.resolve (columns d)) sb d = Ok x /\
        Games.kpis (Games.resolve (columns d)) x = Ok (Games.kpis_out p) /\
        Games.top_global_sellers (Games.resolve (columns d)) x
        = Ok (Games.top_sellers p) /\
        Games.consumer_behavior (Games.resolve (columns d)) x
        = Ok (Games.top_wishlist_out p)).
  change (post (Games.page sb qa df s)).
  unfold Games.page. rewrite (mbind_deref _ _ _ _ Hd). cbv zeta.
  pose proof (sidebar_pass_sim s s (Games.resolve (columns d)) sb df d
                (reflexivity _) Hd) as Hsim.
  eapply sim_run in Hsim. 
  destruct (Games.apply_filters (Games.resolve (columns d)) sb d) as [x|e] eqn:Ex.
  2:{ destruct Hsim as (s' & Hs' & Hrun). rewrite Hrun. unfold post. cbn [fst snd].
      split; [exact Hs'|]. intros p [=]. }
  destruct Hsim as (l & s1 & (Hsub & Hl0 & Hl) & Hrun). rewrite Hrun. clear Hrun.
  rewrite (mbind_deref _ _ _ _ Hl).
  do 5 lift_step post.
  unfold mbind at 1. rewrite (assign_run _ _ x) by exact Hl.
  destruct (Games.numeric_or_zero "Wishlist" x) as [w|e] eqn:Ew;
    [|unfold post; cbn [fst snd]; split; [assumption|intros ? [=]]].
  assert (Ho2 : owned s (<[l := setitem x "Wishlist" w]> s1) l (setitem x "Wishlist" w)).
  { apply (assign_owned _ _ _ x). repeat split; assumption. }
  destruct Ho2 as (Hsub2 & _ & Hl2).
  unfold mbind at 1. rewrite (assign_run _ _ _ _ _ Hl2).
  destruct (Games.numeric_or_zero "Plays" (setitem x "Wishlist" w)) as [pl|e] eqn:Ep;
    [|unfold post; cbn [fst snd]; split; [assumption|intros ? [=]]].
  set (x4 := setitem (setitem x "Wishlist" w) "Plays" pl) in *.
  assert (Ho3 : owned s (<[l := x4]> (<[l := setitem x "Wishlist" w]> s1)) l x4).
  { apply (assign_owned _ _ _ (setitem x "Wishlist" w)). repeat split; assumption. }
  destruct Ho3 as (Hsub3 & _ & Hl3).
  rewrite (mbind_deref _ _ _ _ Hl3).
  lift_step post.
  pose proof (second_pass_sim s _ qa df d Hsub3 (lookup_weaken _ _ _ _ Hd Hsub3))
    as Hsim2.
  eapply sim_run in Hsim2.
  destruct (Games.second_filter qa d) as [x5|e] eqn:Ex5.
  2:{ destruct Hsim2 as (s' & Hs' & Hrun). rewrite Hrun. unfold post. cbn [fst snd].
      split; [exact Hs'|]. intros p [=]. }
  destruct Hsim2 as (l5 & s5 & (Hsub5 & _ & Hl5) & Hrun). rewrite Hrun. clear Hrun.
  rewrite (mbind_deref _ _ _ _ Hl5).
  lift_step post.
  unfold post, ret. cbn [fst snd].
  split; [exact Hsub5|]. intros p [= <-]. cbn.
  split; [reflexivity|]. split; [assumption|].
  exists x. split; [reflexivity|]. split; [assumption|]. split; [assumption|].
  unfold Games.consumer_behavior. rewrite Ew. cbn [bind]. rewrite Ep. cbn [bind].
  assumption.
Qed.

End Pages.

Section Dashboards.

Context {L : PandasLib}.

(** One run of the ride-hailing page leaves every object of the initial
    store as it was; its KPIs are those of [Ola.apply_filters] of the
    loaded frame. *)
Lemma dashboard_frame (f : Ola.Filters) (s : store) (df : loc) (d : DataFrame) :
  s !! df = Some d ->
  s ⊆ snd (Ola.dashboard f df s) /\
  forall p, fst (Ola.dashboard f df s) = Ok p ->
    exists x, Ola.apply_filters f d = Ok x /\
      Ola.total_rides_kpi p = Ola.total_rides x /\
      Ola.success_rate x = Ok (Ola.success_rate_kpi p) /\
      Ola.total_revenue x = Ok (Ola.total_revenue_kpi p) /\
      Ola.avg_fare x = Ok (Ola.avg_fare_kpi p) /\
      Ola.revenue_by_pickup x = Ok (Ola.revenue_chart p).
Proof.
  intros Hd.
  set (post := fun out : result Ola.Dashboard * gmap positive DataFrame =>
    s ⊆ snd out /\
    forall p, fst out = Ok p ->
      exists x, Ola.apply_filters f d = Ok x /\
        Ola.total_rides_kpi p = Ola.total_rides x /\
        Ola.success_rate x = Ok (Ola.success_rate_kpi p) /\
        Ola.total_revenue x = Ok (Ola.total_revenue_kpi p) /\
        Ola.avg_fare x = Ok (Ola.avg_fare_kpi p) /\
        Ola.revenue_by_pickup x = Ok (Ola.revenue_chart p)).
  change (post (Ola.dashboard f df s)).
  unfold Ola.dashboard.
  pose proof (filter_pass_sim s s f df d (reflexivity _) Hd) as Hsim.
  eapply sim_run in Hsim.
  destruct (Ola.apply_filters f d) as [x|e] eqn:Ex.
  2:{ destruct Hsim as (s' & Hs' & Hrun). rewrite Hrun. unfold post. cbn [fst snd].
      split; [exact Hs'|]. intros p [=]. }
  destruct Hsim as (l & s1 & (Hsub & Hl0 & Hl) & Hrun). rewrite Hrun. clear Hrun.
  rewrite (mbind_deref _ _ _ _ Hl).
  do 4 lift_step post.
  unfold mbind at 1. rewrite (assign_run _ _ x) by exact Hl.
  destruct (Ola.hour_of_day x) as [h|e] eqn:Eh;
    [|unfold post; cbn [fst snd]; split; [assumption|intros ? [=]]].
  assert (Ho2 : owned s (<[l := setitem x "Hour" h]> s1) l (setitem x "Hour" h)).
  { apply (assign_owned _ _ _ x). repeat split; assumption. }
  destruct Ho2 as (Hsub2 & _ & Hl2).
  rewrite (mbind_deref _ _ _ _ Hl2).
  lift_step post.
  unfold post, ret. cbn [fst snd].
  split; [exact Hsub2|]. intros p [= <-]. cbn.
  exists x. repeat split; assumption.
Qed.

End Dashboards.

(** C9.  A run of either page leaves every object that existed before
    it, the loaded frame among them, exactly as it was: each filter works
    on a copy or on a frame it has derived, and the in-place column
    assignments ([Rating], [Wishlist], [Plays], [Hour]) hit those.  The
    table of the Power BI tab is the second filter pass applied to the
    loaded frame, whatever the sidebar selected. *)
Theorem loaded_table_never_mutated {L : PandasLib} (sb : Games.Sidebar)
    (qa : Games.QA) (f : Ola.Filters) (s : store) (df : loc) (d : DataFrame) :
  s !! df = Some d ->
  (s ⊆ snd (Games.page sb qa df s) /\
   snd (Games.page sb qa df s) !! df = Some d /\
   forall p, fst (Games.page sb qa df s) = Ok p ->
     Games.second_filter qa d = Ok (Games.qa_table p)) /\
  (s ⊆ snd (Ola.dashboard f df s) /\
   snd (Ola.dashboard f df s) !! df = Some d).
Proof.
  intros Hd.
  destruct (page_frame sb qa s df d Hd) as [Hg Hp].
  destruct (dashboard_frame f s df d Hd) as [Ho _].
  split; [split; [exact Hg|split]|split; [exact Ho|]].
  - apply (lookup_weaken _ _ _ _ Hd Hg).
  - intros p E. apply (Hp p E).
  - apply (lookup_weaken _ _ _ _ Hd Ho).
Qed.

Lemma loaded_table_never_mutated_witness :
  snd (Games.page (L := naive)
         (Games.mkSidebar [VStr "PC"] [] (Some 0%Q) "")
         (Games.mkQA [VStr "Racing"] [] None Games.TopRatedGames)
         1%positive {[1%positive := Sample.games]}) !! 1%positive
  = Some Sample.games.
Proof.
  exact (proj1 (proj2 (proj1
    (loaded_table_never_mutated (L := naive)
       (Games.mkSidebar [VStr "PC"] [] (Some 0%Q) "")
       (Games.mkQA [VStr "Racing"] [] None Games.TopRatedGames)
       (Ola.mkFilters [] [] [])
       {[1%positive := Sample.games]} 1%positive Sample.games
       (lookup_singleton_eq _ _))))).
Defined.

(** A run on the sample games with the platform [PC] selected in the
    sidebar and the genre [Racing] in the Power BI tab: the best-seller
    list is from the PC rows, the table of the tab holds both racing
    games, the PS4 one included. *)
Example page_sample :
  exists p,
    fst (Games.page (L := naive)
           (Games.mkSidebar [VStr "PC"] [] (Some 0%Q) "")
           (Games.mkQA [VStr "Racing"] [] None Games.TopRatedGames)
           1%positive {[1%positive := Sample.games]}) = Ok p /\
    Games.top_sellers p
    = Some (mkDF ["Title"; "Global_Sales"]
              [[VStr "Sedan"; VNum 3]; [VStr "Farm Life"; VNum (5 # 2)]]) /\
    rows (Games.qa_table p)
    = [Sample.game "Car Racer" "PS4" "Racing" 2015 (9 # 2) 3;
       Sample.game "Sedan" "PC" "Racing" 2016 (7 # 2) 3] /\
    Games.qa_answer p
    = Games.Chart (mkDF ["Title"; "Rating"]
                     [[VStr "Car Racer"; VNum (9 # 2)]; [VStr "Sedan"; VNum (7 # 2)]]).
Proof. eexists. split; [vm_compute; reflexivity|]. repeat split. Qed.

(** A run of the ride-hailing script from its CSV, the successful rides
    selected. *)
Example dashboard_sample :
  exists p,
    fst (Ola.main (L := naive) (Readable Sample.rides)
           (Ola.mkFilters [] [] [VStr "Success"]) ∅) = Ok p /\
    Ola.total_rides_kpi p = 7%nat /\ Ola.success_rate_kpi p = 100%Q /\
    Ola.total_revenue_kpi p = VNum 830.
Proof. eexists. split; [vm_compute; reflexivity|]. repeat split. Qed.

(** ** The order of ties under another sort *)

Module BackwardFacts.

Import Backward.

Lemma insert_sorted (x : nat * Q) (l : list (nat * Q)) :
  StronglySorted (fun a b => (snd a <= snd b)%Q) l ->
  StronglySorted (fun a b => (snd a <= snd b)%Q) (insert_by lt_bool x l).
Proof.
  induction l as [|y l IH]; simpl; intros Hs; [repeat constructor|].
  apply StronglySorted_inv in Hs as [Hs Hy].
  unfold lt_bool at 1. destruct (Qle_bool (snd y) (snd x)) eqn:E; simpl.
  - constructor; [apply IH; exact Hs|].
    apply (Forall_perm _ (x :: l)); [symmetry; apply insert_by_perm|].
    constructor; [|exact Hy]. apply Qle_bool_iff. exact E.
  - assert (Hxy : (snd x <= snd y)%Q).
    { destruct (le_total (snd x) (snd y)) as [H|H]; [|congruence].
      apply Qle_bool_iff. exact H. }
    constructor; [constructor; assumption|].
    constructor; [exact Hxy|].
    rewrite List.Forall_forall in *. intros z Hz.
    apply (Qle_trans _ (snd y)); [exact Hxy|apply (Hy z Hz)].
Qed.

Lemma backward_argsort_numbers (qs : list Q) :
  exists idx, argsort (map VNum qs) = Ok idx /\
    Permutation idx (seq 0 (List.length qs)) /\ ascending qs idx.
Proof.
  exists (argsort_asc qs). unfold argsort. rewrite NaiveFacts.all_nums_map.
  split; [reflexivity|]. unfold argsort_asc. split.
  - rewrite <- (indexed_fst qs 0). apply Permutation_map, sort_by_perm.
  - apply SS_map.
    apply (SS_impl_in (fun a b : nat * Q => (snd a <= snd b)%Q)).
    + intros [i p] [j q] Hi Hj H. simpl in *.
      apply (Permutation_in _ (sort_by_perm _ _)) in Hi, Hj.
      apply (in_indexed_from 0%Q) in Hi as (_ & Hi & _).
      apply (in_indexed_from 0%Q) in Hj as (_ & Hj & _).
      rewrite Nat.sub_0_r in Hi, Hj. unfold qnth. rewrite Hi, Hj. exact H.
    + unfold sort_by. induction (indexed qs) as [|x l IH]; simpl; [constructor|].
      apply insert_sorted. exact IH.
Qed.

End BackwardFacts.

Definition backward : PandasLib := {|
  parse_float := Naive.parse_float;
  parse_datetime := Naive.parse_datetime;
  str_of_num := Naive.str_of_num;
  str_of_time := Naive.str_of_time;
  object_sum := fun _ => Raise TypeError;
  object_mean := fun _ => Raise TypeError;
  argsort := Backward.argsort;
  argsort_numbers := BackwardFacts.backward_argsort_numbers;
  re_compile_ic := Naive.re_compile_ic;
  re_plain := NaiveFacts.re_plain;
  re_dot := NaiveFacts.re_dot;
  re_open_paren := eq_refl;
  merge_outer := fun _ _ _ _ => Raise ValueError;
  corr := fun _ => Raise TypeError
|}.

(** Under that sort the two sample games with equal sales change places
    in the best-seller list: their order is the sort's, not the code's. *)
Example top10_ties_follow_the_sort :
  Games.top10 (L := backward) "Global_Sales" Sample.games
  = Ok (mkDF Sample.game_columns
          [Sample.game "Sedan" "PC" "Racing" 2016 (7 # 2) 3;
           Sample.game "Car Racer" "PS4" "Racing" 2015 (9 # 2) 3;
           Sample.game "Farm Life" "PC" "Simulation" 2018 4 (5 # 2)]) /\
  ~ stable_argsort backward.
Proof.
  split; [reflexivity|]. intros H.
  specialize (H [1%Q; 1%Q] [1%nat; 0%nat] eq_refl).
  apply StronglySorted_inv in H as [_ H].
  apply Forall_cons_iff in H as [[H|[_ H]] _].
  - apply Qlt_irrefl in H. exact H.
  - lia.
Qed.

(** * Further properties of the two scripts *)

(** ** Headers *)






Lemma bind_Ok_inv {A B : Type} (m : result A) (k : A -> result B) (b : B) :
  bind m k = Ok b -> exists a, m = Ok a /\ k a = Ok b.
Proof. destruct m as [a|e]; simpl; [eauto|discriminate]. Qed.



(** ** Loading *)

Lemma getitem_Ok_index (df : DataFrame) (c : string) (vs : list value) :
  getitem df c = Ok vs ->
  exists i, col_index c (columns df) = Some i /\ vs = map (cell_at i) (rows df).
Proof.
  unfold getitem. destruct (col_index c (columns df)) as [i|]; [|discriminate].
  intros [= <-]. eauto.
Qed.

Lemma getitem_has_col (df : DataFrame) (c : string) :
  has_col df c = true <-> exists vs, getitem df c = Ok vs.
Proof.
  unfold has_col, getitem. destruct (col_index c (columns df)); split; eauto.
  - discriminate.
  - intros [vs [=]].
Qed.

Lemma getitem_absent (df : DataFrame) (c : string) :
  has_col df c = false -> getitem df c = Raise (KeyError c).
Proof.
  unfold has_col, getitem. destruct (col_index c (columns df)); [discriminate|reflexivity].
Qed.

Lemma zip_with_map_r {A B C : Type} (f : A -> B -> C) (g : A -> B) (xs : list A) :
  zip_with f xs (map g xs) = map (fun x => f x (g x)) xs.
Proof. induction xs as [|x xs IH]; simpl; [|rewrite IH]; reflexivity. Qed.

Lemma cell_set_nth_same (i : nat) (v : value) (r : row) :
  cell_at i (set_nth i v r) = if Nat.ltb i (List.length r) then v else VNaN.
Proof.
  unfold cell_at. revert i. induction r as [|x r IH]; intros i.
  - destruct i; reflexivity.
  - destruct i as [|i]; simpl; [reflexivity|]. apply IH.
Qed.

Lemma cell_set_nth_other (i j : nat) (v : value) (r : row) :
  i <> j -> cell_at j (set_nth i v r) = cell_at j r.
Proof.
  unfold cell_at. revert i j. induction r as [|x r IH]; intros i j Hij.
  - destruct i; reflexivity.
  - destruct i as [|i], j as [|j]; simpl; try reflexivity; try congruence.
    apply IH. congruence.
Qed.

(** Overwriting a cell with a function of itself that keeps a missing
    cell missing. *)
Lemma cell_set_nth_map (f : value -> value) (i : nat) (r : row) :
  f VNaN = VNaN -> cell_at i (set_nth i (f (cell_at i r)) r) = f (cell_at i r).
Proof.
  intros Hf. rewrite cell_set_nth_same.
  destruct (Nat.ltb i (List.length r)) eqn:E; [reflexivity|].
  apply Nat.ltb_ge in E. unfold cell_at. rewrite nth_overflow by exact E.
  symmetry. exact Hf.
Qed.

Lemma setitem_map (df : DataFrame) (c : string) (i : nat) (f : value -> value) :
  col_index c (columns df) = Some i ->
  setitem df c (map f (map (cell_at i) (rows df)))
  = mkDF (columns df) (map (fun r => set_nth i (f (cell_at i r)) r) (rows df)).
Proof.
  intros Hi. unfold setitem. rewrite Hi. f_equal.
  rewrite map_map. apply (zip_with_map_r (fun r v => set_nth i v r)).
Qed.

Lemma col_index_Some (c : string) (cols : list string) (i : nat) :
  col_index c cols = Some i -> nth_error cols i = Some c.
Proof.
  revert i. induction cols as [|x cols IH]; intros i; simpl; [discriminate|].
  destruct (String.eqb x c) eqn:E.
  - intros [= <-]. apply String.eqb_eq in E. subst. reflexivity.
  - destruct (col_index c cols) as [j|]; [|discriminate].
    intros [= <-]. simpl. apply IH. reflexivity.
Qed.


(** X2.  The loader of the video-game script reads one source: the
    table [merged] of the database when it has one, else the table
    [video_game_data], else the join of [games] and [sales]; the CSV is
    read only when the database is absent or has none of these, and a
    CSV that is not read cannot disturb the load. *)
Theorem games_loader_reads_one_source {L : PandasLib}
    (ts : list (string * DataFrame)) (t : DataFrame) (csv csv' : file DataFrame) :
  (Games.lookup_table "merged" ts = Some t ->
     Games.load_data (Games.mkFiles (Readable ts) csv)
     = Ok (rename_columns Py.strip t)) /\
  (Games.lookup_table "merged" ts = None ->
   Games.lookup_table "video_game_data" ts = Some t ->
     Games.load_data (Games.mkFiles (Readable ts) csv)
     = Ok (rename_columns Py.strip t)) /\
  (Games.lookup_table "merged" ts = None ->
   Games.lookup_table "video_game_data" ts = None ->
   Games.lookup_table "games" ts <> None -> Games.lookup_table "sales" ts <> None ->
     Games.load_data (Games.mkFiles (Readable ts) csv)
     = Games.load_data (Games.mkFiles (Readable ts) csv')) /\
  (Games.lookup_table "merged" ts = None ->
   Games.lookup_table "video_game_data" ts = None ->
   Games.lookup_table "games" ts = None \/ Games.lookup_table "sales" ts = None ->
     Games.load_data (Games.mkFiles (Readable ts) csv)
     = Games.load_data (Games.mkFiles Absent csv)).
Proof.
  unfold Games.load_data. cbn [Games.db Games.csv].
  split; [|split; [|split]].
  - intros ->. reflexivity.
  - intros -> ->. reflexivity.
  - intros -> -> Hg Hs.
    destruct (Games.lookup_table "games" ts); [|congruence].
    destruct (Games.lookup_table "sales" ts); [|congruence]. reflexivity.
  - intros -> -> [->| ->]; [reflexivity|].
    destruct (Games.lookup_table "games" ts); reflexivity.
Qed.

Lemma games_loader_reads_one_source_witness :
  Games.load_data (L := naive)
    (Games.mkFiles (Readable [("sales", Sample.sales_only); ("merged", Sample.games)])
       Unreadable)
  = Ok Sample.games.
Proof.
  apply (proj1 (games_loader_reads_one_source (L := naive)
                  [("sales", Sample.sales_only); ("merged", Sample.games)]
                  Sample.games Unreadable Absent)).
  reflexivity.
Defined.

(** X3.  The loader of the ride-hailing script converts the column
    [Date] before it strips the headers: a CSV without a header that is
    exactly [Date] makes it raise [KeyError], also when a header would be
    [Date] once stripped.  With the header present it returns the rows in
    their order, each with its date cell made a timestamp or [NaT] and
    every other cell as it was, under the stripped headers. *)
Theorem ola_loader_converts_date_first {L : PandasLib} (df : DataFrame) :
  (has_col df "Date" = false ->
     Ola.load_data (Readable df) = Raise (KeyError "Date")) /\
  (has_col df "Date" = true ->
     exists i d, col_index "Date" (columns df) = Some i /\
       Ola.load_data (Readable df) = Ok d /\
       columns d = map Py.strip (columns df) /\
       rows d = map (fun r => set_nth i (to_datetime_cell (cell_at i r)) r) (rows df) /\
       len d = len df /\
       Forall (fun r => match cell_at i r with VTime _ | VNaN => True | _ => False end)
         (rows d) /\
       forall j, j <> i -> map (cell_at j) (rows d) = map (cell_at j) (rows df)).
Proof.
  unfold Ola.load_data. cbn [read_csv bind]. split.
  - intros H. rewrite (getitem_absent _ _ H). reflexivity.
  - intros H. destruct (has_col_index _ _ H) as [i Hi].
    unfold getitem. rewrite Hi. cbn [bind]. unfold to_datetime.
    rewrite (setitem_map df "Date" i to_datetime_cell Hi).
    exists i. eexists. split; [reflexivity|]. split; [reflexivity|].
    cbn [rename_columns columns rows len]. split; [reflexivity|]. split; [reflexivity|].
    split; [apply length_map|]. split.
    + apply List.Forall_forall. intros r Hr. apply in_map_iff in Hr as (r0 & <- & _).
      rewrite (cell_set_nth_map to_datetime_cell) by reflexivity.
      unfold to_datetime_cell. destruct (isna (cell_at i r0)); [exact I|].
      destruct (parse_datetime (cell_at i r0)); exact I.
    + intros j Hj. rewrite map_map. apply map_ext. intros r.
      apply cell_set_nth_other. congruence.
Qed.

Lemma ola_loader_converts_date_first_witness :
  Ola.load_data (L := naive) (Readable (mkDF [" Date"; "Booking_ID"] []))
  = Raise (KeyError "Date").
Proof.
  apply (proj1 (ola_loader_converts_date_first (L := naive)
                  (mkDF [" Date"; "Booking_ID"] []))).
  reflexivity.
Defined.

(** ** What a filter pass keeps *)

Lemma select_rows_sublist (rs : list row) (m : list bool) :
  sublist (select_rows rs m) rs.
Proof.
  revert m. induction rs as [|r rs IH]; intros m; simpl.
  - destruct m; constructor.
  - destruct m as [|b m]; [apply sublist_nil_l|].
    destruct b; [apply sublist_skip|apply sublist_cons]; apply IH.
Qed.


Lemma filter_sublist {A : Type} (p : A -> bool) (l : list A) :
  sublist (List.filter p l) l.
Proof.
  induction l as [|x l IH]; simpl; [constructor|].
  destruct (p x); [apply sublist_skip|apply sublist_cons]; exact IH.
Qed.

Lemma narrowed_refl (df : DataFrame) : narrowed df df.
Proof. split; reflexivity. Qed.

Lemma narrowed_trans (a b c : DataFrame) : narrowed a b -> narrowed b c -> narrowed a c.
Proof.
  intros [H1 H2] [H3 H4]. split; [congruence|]. etransitivity; eassumption.
Qed.

Lemma narrowed_boolean_index (df : DataFrame) (m : list bool) :
  narrowed df (boolean_index df m).
Proof. split; [reflexivity|apply select_rows_sublist]. Qed.

Lemma narrowed_len (df x : DataFrame) : narrowed df x -> (len x <= len df)%nat.
Proof. intros [_ H]. apply sublist_length in H. exact H. Qed.

Lemma isin_filter_inv (df x : DataFrame) (c : string) (sel : list value) :
  isin_filter df c sel = Ok x ->
  has_col df c = true /\
  x = mkDF (columns df) (List.filter (selected_in df c sel) (rows df)).
Proof.
  intros H. assert (Hc : has_col df c = true).
  { apply getitem_has_col. unfold isin_filter in H.
    apply bind_Ok_inv in H as (vs & H & _). eauto. }
  split; [exact Hc|]. rewrite (isin_filter_exact _ _ _ Hc) in H. congruence.
Qed.

Lemma member_step_inv (df x : DataFrame) (c : string) (sel : list value) :
  (if Py.nonempty sel then isin_filter df c sel else Ok df) = Ok x ->
  (Py.nonempty sel = true -> has_col df c = true) /\
  x = mkDF (columns df) (List.filter (passes df c sel) (rows df)).
Proof.
  unfold passes. destruct (Py.nonempty sel) eqn:E; simpl.
  - intros H. apply isin_filter_inv in H as [Hc ->]. auto.
  - intros [= <-]. rewrite filter_true. destruct df. split; [discriminate|reflexivity].
Qed.

Lemma member_step_narrowed (df x : DataFrame) (c : string) (sel : list value) :
  (if Py.nonempty sel then isin_filter df c sel else Ok df) = Ok x -> narrowed df x.
Proof.
  intros H. apply member_step_inv in H as [_ ->]. split; [reflexivity|].
  simpl. apply filter_sublist.
Qed.

Lemma member_step_on (df : DataFrame) (c : string) (sel : list value) (rs : list row) :
  (Py.nonempty sel = true -> has_col df c = true) ->
  (if Py.nonempty sel then isin_filter (mkDF (columns df) rs) c sel
   else Ok (mkDF (columns df) rs))
  = Ok (mkDF (columns df) (List.filter (passes df c sel) rs)).
Proof.
  intros H. destruct (Py.nonempty sel) eqn:E.
  - rewrite isin_filter_exact by (apply H; reflexivity).
    unfold passes. rewrite E. reflexivity.
  - unfold passes. rewrite E. simpl. rewrite filter_true. reflexivity.
Qed.

Lemma ola_filters_on (f : Ola.Filters) (df : DataFrame) (rs : list row) :
  ride_filters_readable f df ->
  Ola.apply_filters f (mkDF (columns df) rs)
  = Ok (mkDF (columns df) (List.filter (ride_passes f df) rs)).
Proof.
  intros (H1 & H2 & H3). unfold Ola.apply_filters.
  rewrite (member_step_on df _ _ rs H1). cbn [bind].
  rewrite (member_step_on df _ _ _ H2). cbn [bind].
  rewrite (member_step_on df _ _ _ H3). cbn [bind].
  rewrite !filter_filter. do 2 f_equal. apply filter_ext. intros r.
  unfold ride_passes. apply andb_assoc.
Qed.

Lemma ola_filters_inv (f : Ola.Filters) (df x : DataFrame) :
  Ola.apply_filters f df = Ok x ->
  ride_filters_readable f df /\
  x = mkDF (columns df) (List.filter (ride_passes f df) (rows df)).
Proof.
  intros H. unfold Ola.apply_filters in H.
  apply bind_Ok_inv in H as (x1 & E1 & H).
  apply bind_Ok_inv in H as (x2 & E2 & H).
  apply bind_Ok_inv in H as (x3 & E3 & H). injection H as <-.
  apply member_step_inv in E1 as [H1 ->].
  apply member_step_inv in E2 as [H2 ->].
  apply member_step_inv in E3 as [H3 ->].
  assert (R : ride_filters_readable f df) by (split; [|split]; assumption).
  split; [exact R|].
  destruct df as [cols rs]. cbn [columns rows]. rewrite !filter_filter.
  f_equal. apply filter_ext. intros r.
  unfold ride_passes, passes, selected_in. cbn [columns]. apply andb_assoc.
Qed.

Lemma filter_sublist_mono {A : Type} (p : A -> bool) (l1 l2 : list A) :
  sublist l1 l2 -> sublist (List.filter p l1) (List.filter p l2).
Proof.
  induction 1 as [|x l1 l2 _ IH|x l1 l2 _ IH]; simpl.
  - constructor.
  - destruct (p x); [apply sublist_skip|]; exact IH.
  - destruct (p x); [apply sublist_cons|]; exact IH.
Qed.

Lemma filter_idem {A : Type} (p : A -> bool) (l : list A) :
  List.filter p (List.filter p l) = List.filter p l.
Proof.
  rewrite filter_filter. apply filter_ext. intros x. apply andb_diag.
Qed.

Lemma selects_bind (F G : DataFrame -> result DataFrame) :
  selects F -> selects G -> selects (fun df => let* y := F df in G y).
Proof.
  intros HF HG df x H. apply bind_Ok_inv in H as (y & Ey & Ex).
  destruct (HF _ _ Ey) as (p & -> & Hp).
  destruct (HG _ _ Ex) as (q & -> & Hq). cbn [columns rows] in *.
  exists (fun r => p r && q r). split; [rewrite filter_filter; reflexivity|].
  intros rs Hrs. rewrite (Hp rs Hrs). cbn [bind].
  rewrite (Hq (List.filter p rs)) by (apply filter_sublist_mono; exact Hrs).
  rewrite filter_filter. reflexivity.
Qed.

Lemma selects_idempotent (F : DataFrame -> result DataFrame) (df x : DataFrame) :
  selects F -> F df = Ok x -> F x = Ok x /\ narrowed df x.
Proof.
  intros HF H. destruct (HF _ _ H) as (p & -> & Hp). split.
  - rewrite (Hp _ (filter_sublist p (rows df))). rewrite filter_idem. reflexivity.
  - split; [reflexivity|apply filter_sublist].
Qed.

Lemma selects_member (c : string) (sel : list value) :
  selects (fun df => if Py.nonempty sel then isin_filter df c sel else Ok df).
Proof.
  intros df x H. apply member_step_inv in H as [Hc ->].
  exists (passes df c sel). split; [reflexivity|].
  intros rs _. apply member_step_on. exact Hc.
Qed.

Lemma forallb_sublist {A : Type} (p : A -> bool) (l1 l2 : list A) :
  sublist l1 l2 -> forallb p l2 = true -> forallb p l1 = true.
Proof.
  induction 1 as [|x l1 l2 _ IH|x l1 l2 _ IH]; simpl; intros H.
  - reflexivity.
  - apply andb_prop in H as [-> H]. simpl. auto.
  - apply andb_prop in H as [_ H]. auto.
Qed.

Lemma sublist_map {A B : Type} (f : A -> B) (l1 l2 : list A) :
  sublist l1 l2 -> sublist (map f l1) (map f l2).
Proof. induction 1; simpl; constructor; assumption. Qed.

Section Selections.

Context {L : PandasLib}.

Lemma year_mask_float (lo hi : Q) (cols : list string) (rs : list row) (i : nat) :
  col_index "Year" cols = Some i ->
  is_float_col (map (cell_at i) rs) = true ->
  (let* m := Games.year_mask lo hi (mkDF cols rs) in
   Ok (boolean_index (mkDF cols rs) m))
  = Ok (mkDF cols (List.filter (fun r => in_years lo hi (cell_at i r)) rs)).
Proof.
  intros Hi Hf. unfold Games.year_mask, getitem, between. cbn [columns rows].
  rewrite Hi. cbn [bind]. rewrite Hf. cbn [bind]. unfold boolean_index.
  cbn [columns rows]. f_equal. f_equal.
  apply (select_rows_map_cell (in_years lo hi)).
Qed.

Lemma selects_years (yr : option (Q * Q)) :
  selects (fun df =>
    match yr with
    | Some (lo, hi) =>
        if has_col df "Year"
        then let* m := Games.year_mask lo hi df in Ok (boolean_index df m)
        else Ok df
    | None => Ok df
    end).
Proof.
  intros df x H.
  assert (Hid : forall rs, mkDF (columns df) (List.filter (fun _ => true) rs)
                           = mkDF (columns df) rs) by (intros; rewrite filter_true; reflexivity).
  destruct yr as [[lo hi]|].
  - unfold has_col in *. cbn [columns] in *.
    destruct (col_index "Year" (columns df)) as [i|] eqn:Hi.
    + assert (Hf : is_float_col (map (cell_at i) (rows df)) = true).
      { unfold Games.year_mask, getitem, between in H. rewrite Hi in H. cbn [bind] in H.
        destruct (is_float_col (map (cell_at i) (rows df))); [reflexivity|discriminate]. }
      destruct df as [cols rs]. cbn [columns rows] in *.
      rewrite (year_mask_float lo hi cols rs i Hi Hf) in H. injection H as <-.
      exists (fun r => in_years lo hi (cell_at i r)). split; [reflexivity|].
      intros rs' Hrs. apply year_mask_float; [exact Hi|].
      apply (forallb_sublist _ _ _ (sublist_map (cell_at i) _ _ Hrs) Hf).
    + injection H as <-. exists (fun _ => true). split.
      * rewrite Hid. destruct df; reflexivity.
      * intros rs _. rewrite Hid. reflexivity.
  - injection H as <-. exists (fun _ => true). split.
    + rewrite Hid. destruct df; reflexivity.
    + intros rs _. rewrite Hid. reflexivity.
Qed.

Lemma selects_ola (f : Ola.Filters) : selects (Ola.apply_filters f).
Proof.
  unfold Ola.apply_filters.
  apply (selects_bind _ _ (selects_member "Vehicle_Type" (Ola.vehicle f))).
  apply (selects_bind _ _ (selects_member "Payment_Method" (Ola.payment f))).
  apply (selects_bind _ (fun y => Ok y)
           (selects_member "Booking_Status" (Ola.status f))).
  intros df x [= <-]. exists (fun _ => true). split.
  - rewrite filter_true. destruct df; reflexivity.
  - intros rs _. rewrite filter_true. reflexivity.
Qed.

Lemma selects_second (qa : Games.QA) : selects (Games.second_filter qa).
Proof.
  unfold Games.second_filter.
  apply (selects_bind _ _ (selects_member "Genre" (Games.genre_filter qa))).
  apply (selects_bind _ _ (selects_member "Platform" (Games.platform_filter qa))).
  apply (selects_bind _ (fun y => Ok y) (selects_years (Games.year_range qa))).
  intros df x [= <-]. exists (fun _ => true). split.
  - rewrite filter_true. destruct df; reflexivity.
  - intros rs _. rewrite filter_true. reflexivity.
Qed.

End Selections.

(** X4.  The filters of the ride-hailing page select rows: a pass that
    succeeds keeps the headers and some of the rows, in their order, and
    run again on its own result it changes nothing. *)
Theorem ride_filters_are_idempotent (f : Ola.Filters)
    (df x : DataFrame) :
  Ola.apply_filters f df = Ok x ->
  narrowed df x /\ Ola.apply_filters f x = Ok x.
Proof.
  intros H. destruct (selects_idempotent _ _ _ (selects_ola f) H). auto.
Qed.

Lemma ride_filters_are_idempotent_witness :
  Ola.apply_filters (Ola.mkFilters [VStr "Mini"] [] [VStr "Cancelled"])
    (mkDF Sample.ride_columns
       [Sample.ride "B03" "Cancelled" 60 "Airport";
        Sample.ride "B06" "Cancelled" 40 "Mall";
        Sample.ride "B09" "Cancelled" 70 "Harbour"])
  = Ok (mkDF Sample.ride_columns
          [Sample.ride "B03" "Cancelled" 60 "Airport";
           Sample.ride "B06" "Cancelled" 40 "Mall";
           Sample.ride "B09" "Cancelled" 70 "Harbour"]).
Proof.
  apply (ride_filters_are_idempotent
           (Ola.mkFilters [VStr "Mini"] [] [VStr "Cancelled"]) Sample.rides).
  reflexivity.
Defined.

(** ** The rating step *)

Section Rating.

Context {L : PandasLib}.

Lemma ge_fillna0 (x : Q) (vs : list value) :
  ge_float (fillna0 vs) x = map (rating_kept x) vs.
Proof.
  unfold ge_float, fillna0. rewrite map_map. apply map_ext.
  intros [| |s|q|t]; reflexivity.
Qed.

Lemma rating_filter_spec (rc : string) (x : Q) (d : DataFrame) (i : nat) :
  col_index rc (columns d) = Some i ->
  Games.rating_filter rc (Some x) d
  = Ok (mkDF (columns d)
          (List.filter (fun r => rating_kept x (cell_at i r))
             (map (fun r => set_nth i (to_numeric_cell (cell_at i r)) r) (rows d)))).
Proof.
  intros Hi. unfold Games.rating_filter, Games.coerce_rating, getitem.
  rewrite Hi. cbn [bind]. unfold to_numeric.
  rewrite (setitem_map d rc i to_numeric_cell Hi).
  unfold Games.rating_mask, getitem. cbn [columns rows]. rewrite Hi. cbn [bind].
  rewrite ge_fillna0. unfold boolean_index. cbn [columns rows].
  rewrite select_rows_map_cell. reflexivity.
Qed.

Lemma rating_filter_inv (rc : string) (x : option Q) (d d' : DataFrame) :
  Games.rating_filter rc x d = Ok d' ->
  exists i q, col_index rc (columns d) = Some i /\ x = Some q /\
    d' = mkDF (columns d)
           (List.filter (fun r => rating_kept q (cell_at i r))
              (map (fun r => set_nth i (to_numeric_cell (cell_at i r)) r) (rows d))).
Proof.
  intros H. destruct (col_index rc (columns d)) as [i|] eqn:Hi.
  - destruct x as [q|].
    + rewrite (rating_filter_spec rc q d i Hi) in H. injection H as <-. eauto.
    + unfold Games.rating_filter, Games.coerce_rating, getitem in H.
      rewrite Hi in H. cbn [bind] in H. unfold Games.rating_mask in H.
      destruct (getitem _ rc) in H; discriminate.
  - unfold Games.rating_filter, Games.coerce_rating, getitem in H.
    rewrite Hi in H. discriminate.
Qed.

Lemma rating_after_coerced (x : Q) (v : value) :
  rating_kept x (to_numeric_cell v) = true -> rating_after x (to_numeric_cell v).
Proof.
  unfold rating_after, rating_kept.
  destruct (to_numeric_cell v) eqn:E; try discriminate;
    try (intros H; apply Qle_bool_iff in H; exact H).
  destruct v as [| |s|q|t]; simpl in E; try discriminate.
  destruct (parse_float s); discriminate.
Qed.

Lemma filter_length_le {A : Type} (p : A -> bool) (l : list A) :
  (List.length (List.filter p l) <= List.length l)%nat.
Proof. induction l as [|a l IH]; simpl; [|destruct (p a); simpl]; lia. Qed.

End Rating.

Lemma map_filter_comm {A B : Type} (f : A -> B) (p : B -> bool) (l : list A) :
  map f (List.filter (fun a => p (f a)) l) = List.filter p (map f l).
Proof.
  induction l as [|a l IH]; simpl; [reflexivity|].
  destruct (p (f a)); simpl; rewrite IH; reflexivity.
Qed.


Lemma rating_column_after {L : PandasLib} (rc : string) (q : Q) (d : DataFrame) (i : nat) :
  col_index rc (columns d) = Some i ->
  map (cell_at i)
    (List.filter (fun r => rating_kept q (cell_at i r))
       (map (fun r => set_nth i (to_numeric_cell (cell_at i r)) r) (rows d)))
  = List.filter (rating_kept q) (to_numeric (map (cell_at i) (rows d))).
Proof.
  intros _. rewrite (map_filter_comm (cell_at i) (rating_kept q)). f_equal.
  unfold to_numeric. rewrite !map_map. apply map_ext. intros r.
  apply (cell_set_nth_map to_numeric_cell). reflexivity.
Qed.

Lemma kept_after {L : PandasLib} (q : Q) (vs : list value) :
  Forall (rating_after q) (List.filter (rating_kept q) (to_numeric vs)).
Proof.
  apply List.Forall_forall. intros v Hv.
  apply filter_In in Hv as [Hv Hk]. unfold to_numeric in Hv.
  apply in_map_iff in Hv as (v0 & <- & _). apply rating_after_coerced. exact Hk.
Qed.

(** X5.  The rating step (lines 98-100) on a frame that has the rating
    column: the column is replaced by its numeric reading, and the rows
    kept are those whose reading, with [NaN] counted as 0, is not below
    the threshold.  So every rating left is a number at or above the
    threshold, or [NaN], and [NaN] is left only under a threshold that is
    not positive. *)
Theorem rating_step_keeps_rated_rows {L : PandasLib} (rc : string) (x : option Q)
    (d d' : DataFrame) :
  Games.rating_filter rc x d = Ok d' ->
  exists q vs vs', x = Some q /\ getitem d rc = Ok vs /\ getitem d' rc = Ok vs' /\
    columns d' = columns d /\
    vs' = List.filter (rating_kept q) (to_numeric vs) /\
    Forall (rating_after q) vs' /\
    (len d' <= len d)%nat.
Proof.
  intros H. apply rating_filter_inv in H as (i & q & Hi & -> & ->).
  exists q. unfold getitem. cbn [columns rows]. rewrite Hi.
  do 2 eexists. split; [reflexivity|]. split; [reflexivity|]. split; [reflexivity|].
  split; [reflexivity|].
  split; [apply (rating_column_after rc q d i Hi)|]. split.
  - rewrite (rating_column_after rc q d i Hi). apply kept_after.
  - unfold len. cbn [rows]. etransitivity; [apply filter_length_le|].
    rewrite length_map. reflexivity.
Qed.

Lemma rating_step_keeps_rated_rows_witness :
  exists vs', getitem (mkDF Sample.game_columns
                         [Sample.game "Car Racer" "PS4" "Racing" 2015 (9 # 2) 3;
                          Sample.game "Farm Life" "PC" "Simulation" 2018 4 (5 # 2)])
                "Rating" = Ok vs' /\
    Forall (rating_after 4) vs'.
Proof.
  destruct (rating_step_keeps_rated_rows (L := naive) "Rating" (Some 4%Q) Sample.games
              (mkDF Sample.game_columns
                 [Sample.game "Car Racer" "PS4" "Racing" 2015 (9 # 2) 3;
                  Sample.game "Farm Life" "PC" "Simulation" 2018 4 (5 # 2)])
              eq_refl)
    as (q & vs & vs' & Hq & _ & H1 & _ & _ & H2 & _).
  injection Hq as <-. exists vs'. split; assumption.
Defined.

(** ** The sidebar pass as a whole *)

Section Sidebar.

Context {L : PandasLib}.

Lemma membership_filters_narrowed (r : Games.Roles) (sb : Games.Sidebar)
    (df y : DataFrame) :
  Games.membership_filters r sb df = Ok y -> narrowed df y.
Proof.
  unfold Games.membership_filters. intros H.
  apply bind_Ok_inv in H as (y1 & E1 & H).
  apply bind_Ok_inv in H as (y2 & E2 & H). injection H as <-.
  assert (S : forall (c : option string) (sel : list value) (a b : DataFrame),
            match c with
            | Some pc => if Py.truthy pc && Py.nonempty sel then isin_filter a pc sel
                         else Ok a
            | None => Ok a
            end = Ok b -> narrowed a b).
  { intros c sel a b Hs. destruct c as [pc|]; [|injection Hs as <-; apply narrowed_refl].
    destruct (Py.truthy pc && Py.nonempty sel).
    - apply isin_filter_inv in Hs as [_ ->]. split; [reflexivity|apply filter_sublist].
    - injection Hs as <-. apply narrowed_refl. }
  eapply narrowed_trans; eapply S; eassumption.
Qed.

(** The three stages of the pass and what each leaves. *)
Lemma apply_filters_stages (r : Games.Roles) (sb : Games.Sidebar) (df x : DataFrame) :
  Games.apply_filters r sb df = Ok x ->
  exists y z, narrowed df y /\
    match Games.rating_col r with
    | Some rc =>
        if Py.truthy rc then Games.rating_filter rc (Games.min_rating sb) y = Ok z
        else z = y
    | None => z = y
    end /\
    narrowed z x.
Proof.
  unfold Games.apply_filters. intros H.
  apply bind_Ok_inv in H as (y & Ey & H).
  apply bind_Ok_inv in H as (z & Ez & H).
  apply bind_Ok_inv in H as (w & Ew & H). injection H as <-.
  exists y, z. split; [eapply membership_filters_narrowed; exact Ey|].
  split.
  - destruct (Games.rating_col r) as [rc|]; [|injection Ez as <-; auto].
    destruct (Py.truthy rc) eqn:T; [|injection Ez as <-; auto]. exact Ez.
  - destruct (Games.title_col r) as [tc|]; [|injection Ew as <-; apply narrowed_refl].
    destruct (Py.truthy (Games.search_title sb) && Py.truthy tc).
    + unfold Games.search_filter in Ew. apply bind_Ok_inv in Ew as (m & _ & Ew).
      injection Ew as <-. apply narrowed_boolean_index.
    + injection Ew as <-. apply narrowed_refl.
Qed.

Lemma rating_filter_shape (rc : string) (x : option Q) (d d' : DataFrame) :
  Games.rating_filter rc x d = Ok d' ->
  columns d' = columns d /\ (len d' <= len d)%nat.
Proof.
  intros H. apply rating_filter_inv in H as (i & q & _ & _ & ->).
  split; [reflexivity|].
  unfold len. cbn [rows]. etransitivity; [apply filter_length_le|].
  rewrite length_map. reflexivity.
Qed.

Lemma apply_filters_columns (r : Games.Roles) (sb : Games.Sidebar) (df x : DataFrame) :
  Games.apply_filters r sb df = Ok x ->
  columns x = columns df /\ (len x <= len df)%nat.
Proof.
  intros H. apply apply_filters_stages in H as (y & z & Hy & Hz & Hx).
  assert (Z : columns z = columns y /\ (len z <= len y)%nat).
  { destruct (Games.rating_col r) as [rc|]; [|subst; split; reflexivity].
    destruct (Py.truthy rc); [|subst; split; reflexivity].
    apply rating_filter_shape in Hz. exact Hz. }
  destruct Z as [Zc Zl]. destruct Hy as [Yc Yl]. pose proof (narrowed_len _ _ Hx) as Xl.
  destruct Hx as [Xc _]. apply sublist_length in Yl. unfold len in *.
  split; [congruence|lia].
Qed.

End Sidebar.

(** ** KPIs of the video-game page *)



Section Kpis.

Context {L : PandasLib}.


Lemma resolved_in (p : string -> bool) (df : DataFrame) (c : string) :
  Py.next_match p (columns df) = Some c -> has_col df c = true.
Proof.
  intros H. apply next_match_in in H as [Hin _].
  unfold has_col. destruct (col_index_in _ _ Hin) as [i ->]. reflexivity.
Qed.

End Kpis.



Lemma distinct_length (vs : list value) : (nunique vs <= List.length vs)%nat.
Proof.
  unfold nunique. induction vs as [|v vs IH]; simpl; [lia|].
  destruct (isna v || existsb (value_eqb v) vs); simpl; lia.
Qed.

(** X7.  The cards follow the resolver.  After a sidebar pass the
    filtered table has the headers of the loaded one, so each card's test
    [col in filtered.columns] holds exactly when the role was resolved:
    without a sales column the total is 0; the average rating is missing
    exactly when no rating column was resolved; and the number of games
    is the number of distinct titles, at most the number of rows, or the
    number of rows when no title column was resolved. *)
Theorem kpi_cards_follow_the_resolver {L : PandasLib} (df x : DataFrame)
    (sb : Games.Sidebar) :
  Games.apply_filters (Games.resolve (columns df)) sb df = Ok x ->
  columns x = columns df /\ (len x <= len df)%nat /\
  (Games.global_sales_col (Games.resolve (columns df)) = None ->
     Games.total_sales (Games.resolve (columns df)) x = Ok (VNum 0)) /\
  (forall gs, Games.global_sales_col (Games.resolve (columns df)) = Some gs ->
     exists vs, getitem x gs = Ok vs /\
       Games.total_sales (Games.resolve (columns df)) x = series_sum vs) /\
  (Games.rating_col (Games.resolve (columns df)) = None <->
     Games.avg_rating (Games.resolve (columns df)) x = Ok None) /\
  (Games.title_col (Games.resolve (columns df)) = None ->
     Games.unique_games (Games.resolve (columns df)) x = Ok (len x)) /\
  (forall tc, Games.title_col (Games.resolve (columns df)) = Some tc ->
     exists ts, getitem x tc = Ok ts /\
       Games.unique_games (Games.resolve (columns df)) x = Ok (nunique ts) /\
       (nunique ts <= len x)%nat).
Proof.
  intros H. apply apply_filters_columns in H as [Hc Hl].
  assert (R : forall p c, Py.next_match p (columns df) = Some c ->
            has_col x c = true /\ exists vs, getitem x c = Ok vs).
  { intros p c Hp. assert (Hx : has_col x c = true).
    { unfold has_col. rewrite Hc. apply (resolved_in p df c Hp). }
    split; [exact Hx|]. apply getitem_has_col. exact Hx. }
  split; [exact Hc|]. split; [exact Hl|].
  unfold Games.total_sales, Games.avg_rating, Games.unique_games, Games.resolve.
  cbn [Games.global_sales_col Games.rating_col Games.title_col].
  split; [|split; [|split; [|split]]].
  - intros ->. reflexivity.
  - intros gs Hgs. rewrite Hgs. cbn [has_col_opt getitem_opt].
    destruct (R _ _ Hgs) as [-> (vs & Hvs)]. exists vs. rewrite Hvs. auto.
  - destruct (Py.next_match Games.is_rating (columns df)) as [rc|] eqn:E.
    + cbn [has_col_opt getitem_opt]. destruct (R _ _ E) as [-> (vs & ->)].
      cbn [bind]. split; [discriminate|].
      destruct (series_mean vs); discriminate.
    + split; reflexivity.
  - intros ->. reflexivity.
  - intros tc Htc. rewrite Htc. cbn [has_col_opt getitem_opt].
    destruct (R _ _ Htc) as [-> (ts & Hts)]. exists ts. rewrite Hts.
    split; [reflexivity|]. split; [reflexivity|].
    rewrite <- (getitem_length _ _ _ Hts). apply distinct_length.
Qed.

Lemma kpi_cards_follow_the_resolver_witness :
  Games.unique_games (Games.resolve (columns Sample.sales_only))
    Sample.sales_only = Ok 1%nat.
Proof.
  destruct (kpi_cards_follow_the_resolver (L := naive) Sample.sales_only
              Sample.sales_only (Games.mkSidebar [] [] (Some 0%Q) "") eq_refl)
    as (_ & _ & _ & _ & _ & _ & H).
  destruct (H "Name" eq_refl) as (ts & Hts & Hu & _).
  injection Hts as <-. exact Hu.
Defined.

(** X8.  With the widgets as the page builds them (the slider present
    exactly when a rating column is resolved) and a search text without
    regular-expression syntax, the sidebar pass never raises, whatever
    the table holds. *)
Theorem sidebar_pass_never_raises {L : PandasLib} (df : DataFrame)
    (sb : Games.Sidebar) :
  Games.slider_value (Games.resolve (columns df)) (Games.min_rating sb) = true ->
  plain_pattern (Games.search_title sb) = true ->
  exists x, Games.apply_filters (Games.resolve (columns df)) sb df = Ok x.
Proof.
  intros Hs Hp. unfold Games.apply_filters.
  assert (M : exists y, Games.membership_filters (Games.resolve (columns df)) sb df = Ok y
                        /\ columns y = columns df).
  { unfold Games.membership_filters, Games.resolve.
    cbn [Games.platform_col Games.genre_col].
    rewrite (member_step_opt_exact Games.is_platform df _ eq_refl). cbn [bind].
    pose proof (member_step_opt_exact Games.is_genre
      (mkDF (columns df)
         (List.filter (passes_opt df (Py.next_match Games.is_platform (columns df))
                         (Games.selected_platforms sb)) (rows df)))
      (Games.selected_genres sb) eq_refl) as E.
    cbn [columns rows] in E. rewrite E. cbn [bind]. eexists. split; reflexivity. }
  destruct M as (y & -> & Hy). cbn [bind].
  assert (Z : exists z,
            match Games.rating_col (Games.resolve (columns df)) with
            | Some rc =>
                if Py.truthy rc then Games.rating_filter rc (Games.min_rating sb) y
                else Ok y
            | None => Ok y
            end = Ok z /\ columns z = columns df).
  { unfold Games.slider_value in Hs.
    destruct (Games.rating_col (Games.resolve (columns df))) as [rc|] eqn:E; [|eauto].
    cbn [Games.resolve Games.rating_col] in E.
    destruct (resolved_truthy Games.is_rating _ _ eq_refl E) as [T Hin].
    cbn [Py.truthy_opt] in Hs. rewrite T in *.
    destruct (Games.min_rating sb) as [q|]; [|discriminate].
    destruct (col_index_in rc (columns y)) as [i Hi]; [rewrite Hy; exact Hin|].
    rewrite (rating_filter_spec rc q y i Hi). eexists. split; [reflexivity|exact Hy]. }
  destruct Z as (z & -> & Hz). cbn [bind].
  destruct (Games.title_col (Games.resolve (columns df))) as [tc|] eqn:E; [|eauto].
  cbn [Games.resolve Games.title_col] in E.
  destruct (resolved_truthy Games.is_title _ _ eq_refl E) as [T Hin].
  rewrite T, andb_true_r.
  destruct (Py.truthy (Games.search_title sb)); [|eauto].
  destruct (col_index_in tc (columns z)) as [i Hi]; [rewrite Hz; exact Hin|].
  destruct (re_plain _ Hp) as (m & Hm & _).
  unfold Games.search_filter, Games.search_mask, getitem. rewrite Hi. cbn [bind].
  rewrite Hm. cbn [bind]. eauto.
Qed.

Lemma sidebar_pass_never_raises_witness :
  exists x, Games.apply_filters (L := naive) (Games.resolve (columns Sample.games))
              (Games.mkSidebar [VStr "PC"] [] (Some (7 # 2)) "sed") Sample.games = Ok x.
Proof.
  apply (sidebar_pass_never_raises (L := naive) Sample.games
           (Games.mkSidebar [VStr "PC"] [] (Some (7 # 2)) "sed")); reflexivity.
Defined.

(** ** KPIs of the ride-hailing page *)

Lemma round_half_even_bounds (a b : Z) (x : Q) :
  (inject_Z a <= x)%Q -> (x <= inject_Z b)%Q ->
  (a <= round_half_even x <= b)%Z.
Proof.
  intros Ha Hb.
  assert (Fa : (a <= Qfloor x)%Z) by (rewrite <- (Qfloor_Z a); apply Qfloor_resp_le; exact Ha).
  assert (Fb : (Qfloor x <= b)%Z) by (rewrite <- (Qfloor_Z b); apply Qfloor_resp_le; exact Hb).
  assert (Up : (0 < x - inject_Z (Qfloor x))%Q -> (Qfloor x + 1 <= b)%Z).
  { intros Hd. destruct (Z.eq_dec (Qfloor x) b) as [E|E]; [|lia]. exfalso.
    rewrite E in Hd. apply (Qlt_not_le _ _ Hd).
    apply (Qplus_le_l _ _ (inject_Z b)). ring_simplify. exact Hb. }
  unfold round_half_even.
  destruct (Qcompare (x - inject_Z (Qfloor x)) (1 # 2)) eqn:C.
  - destruct (Z.even (Qfloor x)); [lia|]. split; [lia|]. apply Up.
    apply Qeq_alt in C. rewrite C. reflexivity.
  - lia.
  - split; [lia|]. apply Up. apply Qgt_alt in C.
    eapply Qlt_trans; [|exact C]. reflexivity.
Qed.

Lemma round2_percentage (x : Q) : (0 <= x)%Q -> (x <= 100)%Q -> (0 <= round2 x <= 100)%Q.
Proof.
  intros H0 H1. unfold round2.
  destruct (round_half_even_bounds 0 10000 (x * 100)) as [Ha Hb].
  - change (inject_Z 0) with (0 * 100)%Q. apply Qmult_le_compat_r; [exact H0|discriminate].
  - change (inject_Z 10000) with (100 * 100)%Q.
    apply Qmult_le_compat_r; [exact H1|discriminate].
  - rewrite Qred_correct. unfold Qle. simpl. lia.
Qed.

(** X9.  The success rate is a percentage: whatever the table holds,
    the card shows a number between 0 and 100, since the successful rides
    are some of the rides and rounding to two places cannot leave that
    range. *)
Theorem success_rate_is_a_percentage (df : DataFrame) (p : Q) :
  Ola.success_rate df = Ok p -> (0 <= p <= 100)%Q.
Proof.
  unfold Ola.success_rate. intros H. apply bind_Ok_inv in H as (s & Hs & H).
  injection H as <-.
  assert (Hle : (s <= Ola.total_rides df)%nat).
  { unfold Ola.success_rides in Hs. apply bind_Ok_inv in Hs as (st & _ & Hs).
    injection Hs as <-. apply narrowed_len. apply narrowed_boolean_index. }
  destruct (Nat.ltb 0 (Ola.total_rides df)) eqn:T.
  - apply Nat.ltb_lt in T.
    assert (Tq : (0 < Ola.qnat (Ola.total_rides df))%Q).
    { unfold Ola.qnat. change 0%Q with (inject_Z 0). rewrite <- Zlt_Qlt. lia. }
    apply round2_percentage.
    + apply Qmult_le_0_compat; [|discriminate]. apply Qle_shift_div_l; [exact Tq|].
      rewrite Qmult_0_l. unfold Ola.qnat. change 0%Q with (inject_Z 0).
      rewrite <- Zle_Qle. lia.
    + rewrite <- (Qmult_1_l 100) at 2. apply Qmult_le_compat_r; [|discriminate].
      apply Qle_shift_div_r; [exact Tq|]. rewrite Qmult_1_l. unfold Ola.qnat.
      rewrite <- Zle_Qle. lia.
  - split; [apply Qle_refl|discriminate].
Qed.

Lemma success_rate_is_a_percentage_witness : (0 <= 70 <= 100)%Q.
Proof. apply (success_rate_is_a_percentage Sample.rides 70). reflexivity. Defined.

(** ** The hour of the day *)






(** ** The options of the multiselects *)

Lemma value_eqb_refl (v : value) : value_eqb v v = true.
Proof.
  destruct v as [| |s|q|t]; simpl; try reflexivity.
  - apply String.eqb_refl.
  - apply Qeq_bool_iff. reflexivity.
  - apply Z.eqb_refl.
Qed.

Lemma value_eqb_sym (a b : value) : value_eqb a b = value_eqb b a.
Proof.
  destruct a as [| |s|p|t], b as [| |s'|q|t']; simpl; try reflexivity.
  - apply String.eqb_sym.
  - destruct (Qeq_bool p q) eqn:E, (Qeq_bool q p) eqn:E'; try reflexivity.
    + apply Qeq_bool_iff in E. symmetry in E. apply Qeq_bool_iff in E. congruence.
    + apply Qeq_bool_iff in E'. symmetry in E'. apply Qeq_bool_iff in E'. congruence.
  - apply Z.eqb_sym.
Qed.

Lemma value_eqb_trans (a b c : value) :
  value_eqb a b = true -> value_eqb b c = true -> value_eqb a c = true.
Proof.
  destruct a as [| |s|p|t], b as [| |s'|q|t'], c as [| |s''|r|t'']; simpl;
    try discriminate; try reflexivity.
  - intros H1 H2. apply String.eqb_eq in H1, H2. subst. apply String.eqb_refl.
  - intros H1 H2. apply Qeq_bool_iff in H1, H2. apply Qeq_bool_iff.
    etransitivity; eassumption.
  - intros H1 H2. apply Z.eqb_eq in H1, H2. subst. apply Z.eqb_refl.
Qed.

(** Equal cells are found in the same lists. *)
Lemma existsb_eqb (a b : value) (l : list value) :
  value_eqb a b = true -> existsb (value_eqb a) l = existsb (value_eqb b) l.
Proof.
  intros H. induction l as [|x l IH]; simpl; [reflexivity|]. rewrite IH. f_equal.
  destruct (value_eqb a x) eqn:E1, (value_eqb b x) eqn:E2; try reflexivity.
  - rewrite value_eqb_sym in H. rewrite (value_eqb_trans _ _ _ H E1) in E2. discriminate.
  - rewrite (value_eqb_trans _ _ _ H E2) in E1. discriminate.
Qed.

(** A cell is among the distinct cells of a list when it is in the
    list and has not been met before. *)
Lemma existsb_unique_from (v : value) (seen vs : list value) :
  existsb (value_eqb v) (unique_from seen vs)
  = existsb (value_eqb v) vs && negb (existsb (value_eqb v) seen).
Proof.
  revert seen. induction vs as [|x vs IH]; intros seen; simpl; [reflexivity|].
  destruct (existsb (value_eqb x) seen) eqn:Ex.
  - rewrite IH. destruct (value_eqb v x) eqn:Evx; [|reflexivity]. simpl.
    rewrite (existsb_eqb v x seen Evx), Ex. simpl. apply andb_false_r.
  - simpl. rewrite IH. simpl.
    destruct (value_eqb v x) eqn:Evx; simpl.
    + rewrite (existsb_eqb v x seen Evx), Ex. reflexivity.
    + reflexivity.
Qed.

Lemma existsb_unique (v : value) (vs : list value) :
  existsb (value_eqb v) (unique vs) = existsb (value_eqb v) vs.
Proof. unfold unique. rewrite existsb_unique_from. simpl. apply andb_true_r. Qed.

Lemma existsb_self (v : value) (vs : list value) :
  In v vs -> existsb (value_eqb v) vs = true.
Proof.
  intros H. apply existsb_exists. exists v. split; [exact H|apply value_eqb_refl].
Qed.

Lemma filter_all {A : Type} (p : A -> bool) (l : list A) :
  (forall x, In x l -> p x = true) -> List.filter p l = l.
Proof.
  induction l as [|x l IH]; intros H; simpl; [reflexivity|].
  rewrite (H x (or_introl eq_refl)). f_equal. apply IH. intros y Hy. apply H. right. exact Hy.
Qed.

Lemma passes_every_option (df : DataFrame) (c : string) (i : nat) (r : row) :
  col_index c (columns df) = Some i -> In r (rows df) ->
  passes df c (unique (map (cell_at i) (rows df))) r = true.
Proof.
  intros Hi Hr. unfold passes, selected_in. rewrite Hi. rewrite existsb_unique.
  rewrite (existsb_self (cell_at i r)) by (apply in_map; exact Hr).
  apply orb_true_r.
Qed.

(** X11.  Taking every option is taking none.  The three multiselects
    of the ride-hailing page offer the distinct cells of their columns, a
    missing cell among them; with every offered value selected in all
    three, the filters return the loaded table as it is. *)
Theorem every_option_selected_keeps_all_rides (df : DataFrame) :
  has_cols df ["Vehicle_Type"; "Payment_Method"; "Booking_Status"] = true ->
  exists every, Ola.filter_options df = Ok every /\
    Ola.apply_filters every df = Ok df /\
    Ola.apply_filters (Ola.mkFilters [] [] []) df = Ok df.
Proof.
  intros H. simpl in H.
  apply andb_prop in H as [H1 H]. apply andb_prop in H as [H2 H].
  apply andb_prop in H as [H3 _].
  destruct (has_col_index _ _ H1) as [i1 E1].
  destruct (has_col_index _ _ H2) as [i2 E2].
  destruct (has_col_index _ _ H3) as [i3 E3].
  unfold Ola.filter_options, getitem. rewrite E1, E2, E3. cbn [bind].
  set (every := Ola.mkFilters (unique (map (cell_at i1) (rows df)))
                  (unique (map (cell_at i2) (rows df)))
                  (unique (map (cell_at i3) (rows df)))).
  exists every. split; [reflexivity|]. split.
  - pose proof (ola_filters_on every df (rows df)
                  (conj (fun _ => H1) (conj (fun _ => H2) (fun _ => H3)))) as E.
    replace (mkDF (columns df) (rows df)) with df in E by (destruct df; reflexivity).
    rewrite E. replace df with (mkDF (columns df) (rows df)) at 4
      by (destruct df; reflexivity).
    f_equal. f_equal.
    apply filter_all. intros r Hr. unfold ride_passes, every.
    cbn [Ola.vehicle Ola.payment Ola.status].
    rewrite (passes_every_option df _ i1 r E1 Hr).
    rewrite (passes_every_option df _ i2 r E2 Hr).
    rewrite (passes_every_option df _ i3 r E3 Hr). reflexivity.
  - destruct df; reflexivity.
Qed.

Lemma every_option_selected_keeps_all_rides_witness :
  exists every, Ola.filter_options Sample.rides = Ok every /\
    Ola.apply_filters every Sample.rides = Ok Sample.rides.
Proof.
  destruct (every_option_selected_keeps_all_rides Sample.rides eq_refl)
    as (every & H1 & H2 & _).
  exists every. auto.
Defined.

Lemma insert_value_perm (x : value) (l : list value) :
  Permutation (insert_value x l) (x :: l).
Proof.
  induction l as [|y l IH]; simpl; [reflexivity|].
  destruct (value_ltb y x); [|reflexivity].
  rewrite IH. apply perm_swap.
Qed.

Lemma py_sorted_perm (vs l : list value) : py_sorted vs = Ok l -> Permutation l vs.
Proof.
  unfold py_sorted. destruct (all_str vs || all_num vs || all_time vs); [|discriminate].
  intros [= <-]. induction vs as [|v vs IH]; simpl; [reflexivity|].
  rewrite insert_value_perm. constructor. exact IH.
Qed.

Lemma existsb_perm {A : Type} (p : A -> bool) (l l' : list A) :
  Permutation l l' -> existsb p l = existsb p l'.
Proof.
  induction 1 as [|x l l' _ IH|x y l|l l' l'' _ IH1 _ IH2]; simpl.
  - reflexivity.
  - rewrite IH. reflexivity.
  - rewrite !orb_assoc. f_equal. apply orb_comm.
  - congruence.
Qed.

Lemma value_eqb_isna (a b : value) : value_eqb a b = true -> isna a = isna b.
Proof. destruct a, b; simpl; try discriminate; reflexivity. Qed.

Lemma existsb_dropna (v : value) (vs : list value) :
  existsb (value_eqb v) (dropna vs) = negb (isna v) && existsb (value_eqb v) vs.
Proof.
  unfold dropna. induction vs as [|x vs IH]; simpl; [symmetry; apply andb_false_r|].
  destruct (isna x) eqn:Ex; simpl; rewrite IH.
  - destruct (value_eqb v x) eqn:E; simpl; [|reflexivity].
    rewrite (value_eqb_isna _ _ E), Ex. reflexivity.
  - destruct (value_eqb v x) eqn:E; simpl; [|reflexivity].
    rewrite (value_eqb_isna _ _ E), Ex. reflexivity.
Qed.

Lemma unique_from_in (v : value) (seen vs : list value) :
  In v (unique_from seen vs) -> In v vs.
Proof.
  revert seen. induction vs as [|x vs IH]; intros seen; simpl; [tauto|].
  destruct (existsb (value_eqb x) seen).
  - intros H. right. eapply IH. exact H.
  - intros [H|H]; [auto|]. right. eapply IH. exact H.
Qed.

(** The options a multiselect of the sidebar offers: every one is a
    cell of the column that is not missing, and every such cell is among
    them. *)
Lemma options_are_the_labels (vs opts : list value) :
  py_sorted (unique (dropna vs)) = Ok opts ->
  (forall o, In o opts -> In o vs /\ isna o = false) /\
  (forall v, existsb (value_eqb v) opts = negb (isna v) && existsb (value_eqb v) vs).
Proof.
  intros H. apply py_sorted_perm in H. split.
  - intros o Ho. apply (Permutation_in _ H) in Ho. apply unique_from_in in Ho.
    unfold dropna in Ho. apply filter_In in Ho as [Ho Hn].
    split; [exact Ho|]. destruct (isna o); [discriminate|reflexivity].
  - intros v. rewrite (existsb_perm _ _ _ H), existsb_unique. apply existsb_dropna.
Qed.

(** X12.  Taking every platform is not taking none.  The platform
    multiselect offers the platforms that occur, a missing one left out;
    with every offered platform selected, the membership filter keeps
    exactly the rows that have a platform, and so drops the rows that
    have none, which an empty selection keeps. *)
Theorem every_platform_selected_drops_unlabelled_rows
    (df : DataFrame) (pc : string) (opts : list value) (x : option Q) (s : string) :
  Games.platform_col (Games.resolve (columns df)) = Some pc ->
  Games.platform_options (Games.resolve (columns df)) df = Ok opts ->
  exists vs, getitem df pc = Ok vs /\
    (forall o, In o opts -> In o vs /\ isna o = false) /\
    (forall v, In v vs -> isna v = false -> existsb (value_eqb v) opts = true) /\
    (opts <> [] ->
       Games.membership_filters (Games.resolve (columns df))
         (Games.mkSidebar opts [] x s) df
       = Ok (boolean_index df (map (fun v => negb (isna v)) vs))) /\
    Games.membership_filters (Games.resolve (columns df))
      (Games.mkSidebar [] [] x s) df = Ok df.
Proof.
  intros Hpc Hopts.
  pose proof Hpc as Hpc'. cbn [Games.resolve Games.platform_col] in Hpc'.
  destruct (resolved_truthy Games.is_platform _ _ eq_refl Hpc') as [T Hin].
  destruct (col_index_in pc (columns df) Hin) as [i Hi].
  unfold Games.platform_options, Games.platforms, Games.choices in Hopts.
  rewrite Hpc, T in Hopts. unfold getitem in *. rewrite Hi in *. cbn [bind] in Hopts.
  destruct (options_are_the_labels _ _ Hopts) as [O1 O2].
  eexists. split; [reflexivity|]. split; [exact O1|]. split; [|split].
  - intros v Hv Hn. rewrite O2, Hn. simpl. apply existsb_self. exact Hv.
  - intros Hne. unfold Games.membership_filters, Games.resolve.
    cbn [Games.platform_col Games.genre_col Games.selected_platforms
         Games.selected_genres].
    rewrite (member_step_opt_exact Games.is_platform df _ eq_refl). cbn [bind].
    pose proof (member_step_opt_exact Games.is_genre
      (mkDF (columns df)
         (List.filter (passes_opt df (Py.next_match Games.is_platform (columns df))
                         opts) (rows df))) [] eq_refl) as E.
    cbn [columns rows] in E. rewrite E. cbn [bind]. unfold boolean_index.
    f_equal. f_equal. rewrite select_rows_map_cell. rewrite filter_all.
    + apply filter_ext_in. intros r Hr. rewrite Hpc'. unfold passes_opt, passes, selected_in.
      rewrite Hi. destruct opts as [|o opts]; [congruence|].
      cbn [Py.nonempty negb orb]. rewrite O2.
      rewrite (existsb_self (cell_at i r)) by (apply in_map; exact Hr).
      apply andb_true_r.
    + intros r _. destruct (Py.next_match Games.is_genre (columns df)); reflexivity.
  - unfold Games.membership_filters, Games.resolve.
    cbn [Games.platform_col Games.genre_col Games.selected_platforms
         Games.selected_genres].
    rewrite (member_step_opt_exact Games.is_platform df _ eq_refl). cbn [bind].
    pose proof (member_step_opt_exact Games.is_genre
      (mkDF (columns df)
         (List.filter (passes_opt df (Py.next_match Games.is_platform (columns df))
                         []) (rows df))) [] eq_refl) as E.
    cbn [columns rows] in E. rewrite E. cbn [bind].
    rewrite !filter_all; [destruct df; reflexivity| |].
    + intros r _. destruct (Py.next_match Games.is_platform (columns df)); reflexivity.
    + intros r _. destruct (Py.next_match Games.is_genre (columns df)); reflexivity.
Qed.

Lemma every_platform_selected_drops_unlabelled_rows_witness :
  Games.membership_filters (Games.resolve ["Title"; "Platform"])
    (Games.mkSidebar [VStr "PC"; VStr "PS4"] [] None "")
    (mkDF ["Title"; "Platform"]
       [[VStr "Sedan"; VStr "PC"]; [VStr "Pong"; VNaN]; [VStr "Car Racer"; VStr "PS4"]])
  = Ok (mkDF ["Title"; "Platform"]
          [[VStr "Sedan"; VStr "PC"]; [VStr "Car Racer"; VStr "PS4"]]).
Proof.
  destruct (every_platform_selected_drops_unlabelled_rows
              (mkDF ["Title"; "Platform"]
                 [[VStr "Sedan"; VStr "PC"]; [VStr "Pong"; VNaN];
                  [VStr "Car Racer"; VStr "PS4"]])
              "Platform" [VStr "PC"; VStr "PS4"] None "" eq_refl eq_refl)
    as (vs & Hvs & _ & _ & H & _).
  injection Hvs as <-. apply H. discriminate.
Defined.

(** ** The second filter pass *)

Lemma in_years_spec (lo hi : Q) (v : value) :
  in_years lo hi v = true <-> exists q, v = VNum q /\ (lo <= q)%Q /\ (q <= hi)%Q.
Proof.
  destruct v as [| |s|q|t]; simpl; split; try discriminate;
    try (intros (q' & [=] & _); fail).
  - intros H. apply andb_prop in H as [H1 H2]. apply Qle_bool_iff in H1, H2. eauto.
  - intros (q' & [= <-] & H1 & H2). apply andb_true_intro.
    split; apply Qle_bool_iff; assumption.
Qed.

Section SecondPass.

Context {L : PandasLib}.

(** The pass up to the year step. *)
Lemma second_filter_years (qa : Games.QA) (df x : DataFrame) (lo hi : Q) (i : nat) :
  Games.second_filter qa df = Ok x ->
  Games.year_range qa = Some (lo, hi) ->
  col_index "Year" (columns df) = Some i ->
  exists y, narrowed df y /\ is_float_col (map (cell_at i) (rows y)) = true /\
    x = mkDF (columns df) (List.filter (fun r => in_years lo hi (cell_at i r)) (rows y)).
Proof.
  unfold Games.second_filter. intros H Hyr Hi.
  apply bind_Ok_inv in H as (y1 & E1 & H).
  apply bind_Ok_inv in H as (y2 & E2 & H).
  apply bind_Ok_inv in H as (y3 & E3 & H). injection H as <-.
  pose proof (member_step_narrowed _ _ _ _ E1) as N1.
  pose proof (member_step_narrowed _ _ _ _ E2) as N2.
  pose proof (narrowed_trans _ _ _ N1 N2) as N. destruct N as [Nc Nr].
  rewrite Hyr in E3. unfold has_col in E3. rewrite Nc, Hi in E3.
  assert (Hf : is_float_col (map (cell_at i) (rows y2)) = true).
  { unfold Games.year_mask, getitem, between in E3. rewrite Nc, Hi in E3.
    cbn [bind] in E3.
    destruct (is_float_col (map (cell_at i) (rows y2))); [reflexivity|discriminate]. }
  exists y2. split; [split; assumption|]. split; [exact Hf|].
  destruct y2 as [cols rs]. cbn [columns rows] in *. subst cols.
  rewrite (year_mask_float lo hi (columns df) rs i Hi Hf) in E3. congruence.
Qed.

End SecondPass.

(** X13.  The second filter pass (lines 250-256) selects rows: a pass
    that succeeds keeps the headers and some of the rows, in their order,
    and run again on its own result it changes nothing.  When the table
    has a [Year] column, every row left has a year that is a number
    within the range of the slider: a row without a year is never shown
    in the fifth tab, whatever the range. *)
Theorem second_pass_keeps_dated_rows_only (qa : Games.QA)
    (df x : DataFrame) :
  Games.second_filter qa df = Ok x ->
  narrowed df x /\ Games.second_filter qa x = Ok x /\
  forall lo hi, Games.year_range qa = Some (lo, hi) -> has_col df "Year" = true ->
    exists ys, getitem x "Year" = Ok ys /\
      Forall (fun v => exists q, v = VNum q /\ (lo <= q)%Q /\ (q <= hi)%Q) ys.
Proof.
  intros H. destruct (selects_idempotent _ _ _ (selects_second qa) H) as [Hi Hn].
  split; [exact Hn|]. split; [exact Hi|].
  intros lo hi Hyr Hc. destruct (has_col_index _ _ Hc) as [i Ei].
  destruct (second_filter_years qa df x lo hi i H Hyr Ei) as (y & _ & _ & ->).
  unfold getitem. cbn [columns rows]. rewrite Ei. eexists. split; [reflexivity|].
  apply List.Forall_forall. intros v Hv. apply in_map_iff in Hv as (r & <- & Hr).
  apply filter_In in Hr as [_ Hr]. apply in_years_spec. exact Hr.
Qed.

Lemma second_pass_keeps_dated_rows_only_witness :
  exists ys,
    getitem (mkDF Sample.game_columns
               [Sample.game "Sedan" "PC" "Racing" 2016 (7 # 2) 3]) "Year" = Ok ys /\
    Forall (fun v => exists q, v = VNum q /\ (2016 <= q)%Q /\ (q <= 2017)%Q) ys.
Proof.
  destruct (second_pass_keeps_dated_rows_only
              (Games.mkQA [] [] (Some (2016%Q, 2017%Q)) Games.TopRatedGames)
              Sample.games
              (mkDF Sample.game_columns
                 [Sample.game "Sedan" "PC" "Racing" 2016 (7 # 2) 3]) eq_refl)
    as (_ & _ & H).
  apply (H 2016%Q 2017%Q eq_refl eq_refl).
Defined.

(** ** The year slider as the page opens *)

Lemma qmin_spec (q : Q) (qs : list Q) :
  In (qmin q qs) (q :: qs) /\ Forall (fun x => (qmin q qs <= x)%Q) (q :: qs).
Proof.
  induction qs as [|a qs [IH1 IH2]]; simpl.
  - split; [auto|]. constructor; [apply Qle_refl|constructor].
  - fold (qmin q qs). inversion IH2 as [|? ? Hq Hqs]; subst.
    destruct (Qle_bool a (qmin q qs)) eqn:E.
    + apply Qle_bool_iff in E. split; [auto|].
      constructor; [eapply Qle_trans; eassumption|].
      constructor; [apply Qle_refl|].
      eapply List.Forall_impl; [|exact Hqs]. intros x Hx. simpl in Hx.
      eapply Qle_trans; eassumption.
    + assert (Hlt : (qmin q qs <= a)%Q).
      { destruct (Qlt_le_dec (qmin q qs) a) as [H|H]; [apply Qlt_le_weak; exact H|].
        apply Qle_bool_iff in H. congruence. }
      split; [destruct IH1 as [<-|IH1]; auto|].
      constructor; [exact Hq|]. constructor; [exact Hlt|exact Hqs].
Qed.

Lemma qmax_spec (q : Q) (qs : list Q) :
  In (qmax q qs) (q :: qs) /\ Forall (fun x => (x <= qmax q qs)%Q) (q :: qs).
Proof.
  induction qs as [|a qs [IH1 IH2]]; simpl.
  - split; [auto|]. constructor; [apply Qle_refl|constructor].
  - fold (qmax q qs). inversion IH2 as [|? ? Hq Hqs]; subst.
    destruct (Qle_bool (qmax q qs) a) eqn:E.
    + apply Qle_bool_iff in E. split; [auto|].
      constructor; [eapply Qle_trans; eassumption|].
      constructor; [apply Qle_refl|].
      eapply List.Forall_impl; [|exact Hqs]. intros x Hx. simpl in Hx.
      eapply Qle_trans; eassumption.
    + assert (Hlt : (a <= qmax q qs)%Q).
      { destruct (Qlt_le_dec a (qmax q qs)) as [H|H]; [apply Qlt_le_weak; exact H|].
        apply Qle_bool_iff in H. congruence. }
      split; [destruct IH1 as [<-|IH1]; auto|].
      constructor; [exact Hq|]. constructor; [exact Hlt|exact Hqs].
Qed.

Lemma in_nums (q : Q) (vs : list value) : In q (nums vs) <-> In (VNum q) vs.
Proof.
  unfold nums. rewrite in_flat_map. split.
  - intros (v & Hv & Hq). destruct v; simpl in Hq; try contradiction.
    destruct Hq as [<-|[]]. exact Hv.
  - intros H. exists (VNum q). split; [exact H|left; reflexivity].
Qed.

Lemma int_of_whole (q : Q) (z : Z) :
  (q == inject_Z z)%Q ->
  int_of_float (VNum q) = Ok z.
Proof.
  intros H. simpl. f_equal. unfold Qeq in H. simpl in H.
  rewrite Z.mul_1_r in H. rewrite H. apply Z.quot_mul. discriminate.
Qed.

Lemma whole_years_float (ys : list value) :
  Forall whole_year ys -> is_float_col ys = true.
Proof.
  induction 1 as [|v vs Hv _ IH]; [reflexivity|].
  destruct v; simpl in Hv; try contradiction; simpl; exact IH.
Qed.

(** X14.  As the page opens, the slider of the fifth tab spans the years
    from the smallest to the largest; with whole years in the column, the
    table of the tab is then the loaded table without the rows that have
    no year.  A [Year] column that holds no number at all (only missing
    cells, or no cell) makes the tab raise, since its smallest year is
    [NaN]. *)
Theorem default_year_range_keeps_the_dated_rows
    (object_bounds : list value -> result (Z * Z)) (df : DataFrame)
    (ys : list value) :
  getitem df "Year" = Ok ys ->
  Forall whole_year ys ->
  (nums ys = [] -> Games.default_second_filter object_bounds df = Raise ValueError) /\
  (nums ys <> [] ->
     Games.default_second_filter object_bounds df
     = Ok (boolean_index df (map (fun v => negb (isna v)) ys))).
Proof.
  intros Hys Hall.
  assert (Hc : has_col df "Year" = true) by (apply getitem_has_col; eauto).
  pose proof (whole_years_float ys Hall) as Hf.
  unfold Games.default_second_filter, Games.default_year_range, Games.year_bounds.
  rewrite Hc, Hys. cbn [bind]. rewrite Hf. unfold float_min, float_max.
  destruct (nums ys) as [|q qs] eqn:En; split; try congruence.
  - intros _. reflexivity.
  - intros _.
    destruct (qmin_spec q qs) as [Imin Lmin]. destruct (qmax_spec q qs) as [Imax Lmax].
    assert (W : forall a, In a (q :: qs) -> exists z : Z, (a == inject_Z z)%Q).
    { intros a Ha. rewrite <- En in Ha. apply in_nums in Ha.
      rewrite List.Forall_forall in Hall. apply (Hall _ Ha). }
    destruct (W _ Imin) as [zlo Hlo]. destruct (W _ Imax) as [zhi Hhi].
    rewrite (int_of_whole _ _ Hlo). cbn [bind]. rewrite (int_of_whole _ _ Hhi).
    cbn [bind option_map fst snd].
    unfold Games.second_filter.
    cbn [Games.genre_filter Games.platform_filter Games.year_range Py.nonempty bind].
    rewrite Hc. unfold Games.year_mask. rewrite Hys. cbn [bind]. unfold between.
    rewrite Hf. cbn [bind]. do 2 f_equal. apply map_ext_in. intros v Hv.
    pose proof (proj1 (List.Forall_forall _ _) Hall v Hv) as Wv.
    destruct v as [| |s|a|t]; simpl in Wv; try contradiction; try reflexivity.
    assert (Ha : In a (q :: qs)) by (rewrite <- En; apply in_nums; exact Hv).
    rewrite List.Forall_forall in Lmin, Lmax.
    simpl. apply andb_true_intro. split; apply Qle_bool_iff.
    + rewrite <- Hlo. apply Lmin. exact Ha.
    + rewrite <- Hhi. apply Lmax. exact Ha.
Qed.

Lemma default_year_range_keeps_the_dated_rows_witness :
  Games.default_second_filter (fun _ => Raise TypeError)
    (mkDF ["Title"; "Year"]
       [[VStr "Sedan"; VNum 2016]; [VStr "Pong"; VNaN]; [VStr "Car Racer"; VNum 2015]])
  = Ok (mkDF ["Title"; "Year"]
          [[VStr "Sedan"; VNum 2016]; [VStr "Car Racer"; VNum 2015]]).
Proof.
  refine (proj2 (default_year_range_keeps_the_dated_rows
                   (fun _ => Raise TypeError)
                   (mkDF ["Title"; "Year"]
                      [[VStr "Sedan"; VNum 2016]; [VStr "Pong"; VNaN];
                       [VStr "Car Racer"; VNum 2015]])
                   [VNum 2016; VNaN; VNum 2015] eq_refl _) _).
  - repeat constructor; [exists 2016%Z|exists 2015%Z]; reflexivity.
  - discriminate.
Defined.

(** ** Grouped sums *)












(** ** The questions of the fifth tab *)

Section Answers.

Context {L : PandasLib}.

Lemma argsort_nil : argsort [] = Ok [].
Proof.
  destruct (argsort_numbers []) as (idx & H & Hp & _). simpl in *.
  symmetry in Hp. apply Permutation_nil in Hp. subst. exact H.
Qed.

Lemma answered_on_every_column (q : Games.Question) :
  ~ In q unanswered -> Games.answer q every_column <> Ok Games.Unavailable.
Proof.
  intros Hq.
  destruct q; try (exfalso; apply Hq; simpl; tauto); clear Hq;
    try (vm_compute; discriminate).
  - unfold Games.answer, value_counts, sort_values_desc, nargsort_desc.
    cbn. rewrite argsort_nil. cbn. discriminate.
  - unfold Games.answer, sort_values_desc, nargsort_desc.
    cbn. rewrite argsort_nil. cbn. discriminate.
  - unfold Games.answer. cbn. destruct (corr _); cbn; discriminate.
Qed.

End Answers.

(** X16.  Seventeen of the thirty questions the selectbox offers have no
    branch in the chain: whatever the table holds, they show the notice.
    They are the only ones: each of the other thirteen shows something
    else on some table. *)
Theorem questions_without_a_branch {L : PandasLib} (q : Games.Question) :
  (forall filtered, Games.answer q filtered = Ok Games.Unavailable) <->
  In q unanswered.
Proof.
  split.
  - intros H. destruct (in_dec (fun a b : Games.Question =>
                                  ltac:(decide equality) : {a = b} + {a <> b})
                          q unanswered) as [Hin|Hout]; [exact Hin|].
    exfalso. apply (answered_on_every_column q Hout). apply H.
  - intros Hq filtered. simpl in Hq.
    repeat (destruct Hq as [<-|Hq]; [reflexivity|]). contradiction.
Qed.

Lemma questions_without_a_branch_witness :
  Games.answer (L := naive) Games.TopPublishers Sample.games = Ok Games.Unavailable.
Proof.
  apply (proj2 (questions_without_a_branch (L := naive) Games.TopPublishers)).
  simpl. tauto.
Defined.

Lemma plot_not_blank (data : DataFrame) (named : list string) :
  Games.plot data named <> Ok Games.Blank.
Proof. unfold Games.plot. destruct (has_cols data named); discriminate. Qed.

Ltac chain_step H :=
  match type of H with
  | (if ?c then _ else _) = _ => destruct c
  | bind ?m _ = _ =>
      let x := fresh "x" in let E := fresh "E" in
      apply bind_Ok_inv in H as (x & E & H)
  | Games.plot _ _ = _ => exfalso; exact (plot_not_blank _ _ H)
  end.

(** X17.  A question shows nothing at all, neither a chart nor the
    notice, in one case only: the region question on a table without a
    column whose header ends in [_Sales]. *)
Theorem only_the_region_question_shows_nothing {L : PandasLib}
    (q : Games.Question) (filtered : DataFrame) :
  Games.answer q filtered = Ok Games.Blank <->
  q = Games.RegionSales /\ region_cols filtered = [].
Proof.
  split.
  - intros H. destruct q;
      try (split; [reflexivity|]; unfold Games.answer, Games.region_sales in H;
           fold (region_cols filtered) in H;
           destruct (region_cols filtered); [reflexivity|];
           cbn [Py.nonempty] in H; repeat chain_step H);
      exfalso; unfold Games.answer in H; repeat chain_step H; discriminate.
  - intros [-> H]. unfold Games.answer, Games.region_sales. fold (region_cols filtered).
    rewrite H. reflexivity.
Qed.

Lemma only_the_region_question_shows_nothing_witness :
  Games.answer (L := naive) Games.RegionSales Sample.titles = Ok Games.Blank.
Proof.
  apply (only_the_region_question_shows_nothing (L := naive)). split; reflexivity.
Defined.



(** ** The most frequent pickup locations *)

Lemma distinct_in (v : value) (vs : list value) :
  In v (distinct vs) -> In v vs /\ isna v = false.
Proof.
  induction vs as [|x vs IH]; simpl; [tauto|].
  destruct (isna x) eqn:Ex; simpl.
  - intros H. destruct (IH H). auto.
  - destruct (existsb (value_eqb x) vs).
    + intros H. destruct (IH H). auto.
    + intros [<-|H]; [auto|]. destruct (IH H). auto.
Qed.

Lemma count_of_in (v : value) (vs : list value) :
  In v vs -> (1 <= count_of v vs)%nat.
Proof.
  intros H. unfold count_of.
  assert (Hf : In v (List.filter (value_eqb v) vs)).
  { apply filter_In. split; [exact H|apply value_eqb_refl]. }
  destruct (List.filter (value_eqb v) vs); [contradiction|simpl; lia].
Qed.

Lemma counts_float (vs : list value) :
  is_float_col (map (cell_at 1) (counted vs)) = true.
Proof.
  unfold counted. induction (first_seen vs) as [|v l IH]; [reflexivity|exact IH].
Qed.

(** X19.  The list of top pickup locations (lines 88-89) ranks the
    locations that occur, a missing one left out, by the number of their
    rides: it is the first ten rows of the table of counts in an order
    with the larger count first, so it has [min(10, locations)] rows;
    every location listed occurs at least once.  Equal counts stand in
    the order of first appearance whenever the library's sort is
    stable. *)
Theorem top_pickups_ranked_by_count {L : PandasLib} (filtered : DataFrame)
    (locations : list value) :
  getitem filtered "Pickup_Location" = Ok locations ->
  exists idx,
    Ola.top_pickups filtered
    = Ok (mkDF ["Pickup_Location"; "Count"] (take (counted locations) idx)) /\
    List.length idx = Nat.min 10 (List.length (counted locations)) /\
    ranked (before (map (cell_at 1) (counted locations))) 10
      (List.length (counted locations)) idx /\
    (stable_argsort L ->
       ranked (before_stable (map (cell_at 1) (counted locations))) 10
         (List.length (counted locations)) idx) /\
    Forall (fun r => In (cell_at 0 r) locations /\ isna (cell_at 0 r) = false /\
                     exists n, cell_at 1 r = VNum (inject_Z (Z.of_nat n)) /\ (1 <= n)%nat)
      (counted locations).
Proof.
  intros Hg.
  destruct (top10_ranked (mkDF ["Pickup_Location"; "Count"] (counted locations))
              "Count" (map (cell_at 1) (counted locations)) eq_refl
              (counts_float locations))
    as (idx & Ht & Hl & Hr & Hs).
  exists idx. split; [|split; [exact Hl|split; [exact Hr|split; [exact Hs|]]]].
  - unfold Ola.top_pickups. rewrite Hg. cbn [bind]. unfold value_counts.
    fold (counted locations). unfold Games.top10 in Ht.
    destruct (sort_values_desc _ "Count") as [t|e]; cbn [bind] in *; [|discriminate].
    exact Ht.
  - unfold counted. apply List.Forall_forall. intros r Hr'.
    apply in_map_iff in Hr' as (v & <- & Hv). unfold first_seen in Hv.
    apply in_rev in Hv. apply distinct_in in Hv as [Hv Hn]. apply in_rev in Hv.
    cbn [cell_at nth]. split; [exact Hv|]. split; [exact Hn|].
    eexists. split; [reflexivity|]. apply count_of_in. exact Hv.
Qed.

Lemma top_pickups_ranked_by_count_witness :
  exists idx,
    Ola.top_pickups (L := naive) Sample.rides
    = Ok (mkDF ["Pickup_Location"; "Count"]
            (take (counted (map (cell_at 6) (rows Sample.rides))) idx)) /\
    List.length idx = 4%nat.
Proof.
  destruct (top_pickups_ranked_by_count (L := naive) Sample.rides
              (map (cell_at 6) (rows Sample.rides)) eq_refl)
    as (idx & H1 & H2 & _).
  exists idx. split; [exact H1|exact H2].
Defined.

(** ** The title search, plain texts *)

Lemma prefix_nil (s : string) : String.prefix "" s = true.
Proof. destruct s; reflexivity. Qed.

Lemma prefix_trans (p q s : string) :
  String.prefix p q = true -> String.prefix q s = true -> String.prefix p s = true.
Proof.
  revert p q. induction s as [|c s IH]; intros p q Hpq Hqs.
  - destruct q; [|discriminate]. destruct p; [reflexivity|discriminate].
  - destruct p as [|a p]; [reflexivity|]. destruct q as [|b q]; [discriminate|].
    simpl in *. destruct (ascii_dec a b) as [->|]; [|discriminate].
    destruct (ascii_dec b c) as [->|]; [|discriminate].
    apply (IH p q); assumption.
Qed.

Lemma contains_tail (c : ascii) (s p : string) :
  Py.contains s p = true -> Py.contains (String c s) p = true.
Proof. intros H. simpl. rewrite H. apply orb_true_r. Qed.

Lemma contains_prefix (s q p : string) :
  String.prefix q s = true -> Py.contains q p = true -> Py.contains s p = true.
Proof.
  revert s. induction q as [|b q IH]; intros s Hqs Hp.
  - simpl in Hp. rewrite orb_false_r in Hp. destruct p; [|discriminate].
    destruct s; simpl; rewrite ?prefix_nil; reflexivity.
  - destruct s as [|c s]; [discriminate|].
    simpl in Hqs. destruct (ascii_dec b c) as [->|]; [|discriminate].
    cbn [Py.contains] in Hp. apply orb_prop in Hp as [Hp|Hp].
    + cbn [Py.contains]. rewrite (prefix_trans p (String c q) (String c s) Hp).
      * reflexivity.
      * simpl. destruct (ascii_dec c c); [exact Hqs|congruence].
    + apply contains_tail. apply IH; assumption.
Qed.

(** A text found in a text that is found in [s] is found in [s]. *)
Lemma contains_trans (s q p : string) :
  Py.contains s q = true -> Py.contains q p = true -> Py.contains s p = true.
Proof.
  induction s as [|c s IH]; intros Hq Hp.
  - simpl in Hq. rewrite orb_false_r in Hq. apply (contains_prefix _ q); assumption.
  - cbn [Py.contains] in Hq. apply orb_prop in Hq as [Hq|Hq].
    + apply (contains_prefix _ q); assumption.
    + apply contains_tail. apply IH; assumption.
Qed.

Section PlainSearch.

Context {L : PandasLib}.

Lemma search_plain_rows (cols : list string) (rs : list row) (tc pat : string)
    (i : nat) :
  col_index tc cols = Some i -> plain_pattern pat = true ->
  forallb is_ascii (astype_str (map (cell_at i) rs)) = true ->
  Games.search_filter tc pat (mkDF cols rs)
  = Ok (mkDF cols (List.filter (title_matches i pat) rs)).
Proof.
  intros Hi Hp Ha.
  rewrite (search_filter_plain (mkDF cols rs) tc pat (map (cell_at i) rs)); try assumption.
  - unfold boolean_index, astype_str. cbn [columns rows]. rewrite !map_map.
    do 2 f_equal. apply (select_rows_map (title_matches i pat)).
  - unfold getitem. cbn [columns rows]. rewrite Hi. reflexivity.
Qed.

End PlainSearch.

(** X20.  Typing more narrows the search.  For search texts without
    regular-expression syntax over titles in ASCII: two texts that differ
    in letter case only keep the same rows; and when a text contains
    another, its rows are among the rows of the other, and searching it
    in the result of the other gives what searching it in the whole table
    gives. *)
Theorem title_search_narrows {L : PandasLib} (df : DataFrame) (tc p p0 : string)
    (vs : list value) :
  getitem df tc = Ok vs ->
  plain_pattern p = true -> plain_pattern p0 = true ->
  forallb is_ascii (astype_str vs) = true ->
  (Py.lower p = Py.lower p0 ->
     Games.search_filter tc p df = Games.search_filter tc p0 df) /\
  (Py.contains (Py.lower p) (Py.lower p0) = true ->
     exists x y, Games.search_filter tc p df = Ok x /\
       Games.search_filter tc p0 df = Ok y /\
       narrowed y x /\ Games.search_filter tc p y = Ok x).
Proof.
  intros Hg Hp Hp0 Ha. apply getitem_Ok_index in Hg as (i & Hi & ->).
  destruct df as [cols rs]. cbn [columns rows] in *.
  rewrite (search_plain_rows cols rs tc p i Hi Hp Ha).
  rewrite (search_plain_rows cols rs tc p0 i Hi Hp0 Ha).
  split.
  - intros E. do 2 f_equal. apply filter_ext. intros r. unfold title_matches.
    rewrite E. reflexivity.
  - intros Hc.
    assert (Hsub : forall r, title_matches i p r = true -> title_matches i p0 r = true).
    { intros r Hr. unfold title_matches in *. eapply contains_trans; eassumption. }
    assert (E : List.filter (title_matches i p) (List.filter (title_matches i p0) rs)
                = List.filter (title_matches i p) rs).
    { rewrite filter_filter. apply filter_ext. intros r.
      destruct (title_matches i p r) eqn:Er; [rewrite (Hsub r Er); reflexivity|].
      apply andb_false_r. }
    do 2 eexists. split; [reflexivity|]. split; [reflexivity|]. split.
    + split; [reflexivity|]. cbn [rows]. rewrite <- E. apply filter_sublist.
    + rewrite (search_plain_rows cols _ tc p i Hi Hp); [rewrite E; reflexivity|].
      apply forallb_forall. intros s Hs. rewrite forallb_forall in Ha. apply Ha.
      unfold astype_str in *. apply in_map_iff in Hs as (v & <- & Hv).
      apply in_map_iff in Hv as (r & <- & Hr). apply filter_In in Hr as [Hr _].
      apply in_map. apply in_map. exact Hr.
Qed.

Lemma title_search_narrows_witness :
  Games.search_filter (L := naive) "Title" "CAR" Sample.titles
  = Games.search_filter (L := naive) "Title" "car" Sample.titles.
Proof.
  refine (proj1 (title_search_narrows (L := naive) Sample.titles "Title" "CAR" "car"
                   [VStr "Car Racer"; VStr "Sedan"; VNaN]
                   eq_refl eq_refl eq_refl eq_refl) eq_refl).
Defined.

(** ** The Consumer Behavior tab *)

Section Consumer.

Context {L : PandasLib}.

Lemma number_or_zero_num (v : value) : exists q, number_or_zero v = VNum q.
Proof.
  unfold number_or_zero. destruct v as [| |s|q|t]; simpl; eauto.
  destruct (parse_float s); simpl; eauto.
Qed.

Lemma numeric_or_zero_spec (c : string) (d : DataFrame) (i : nat) :
  col_index c (columns d) = Some i ->
  Games.numeric_or_zero c d = Ok (map number_or_zero (map (cell_at i) (rows d))).
Proof.
  intros Hi. unfold Games.numeric_or_zero, getitem. rewrite Hi. cbn [bind].
  unfold fillna0, to_numeric. rewrite map_map. reflexivity.
Qed.

Lemma float_after_set (i : nat) (rs : list row) :
  is_float_col
    (map (cell_at i) (map (fun r => set_nth i (number_or_zero (cell_at i r)) r) rs))
  = true.
Proof.
  unfold is_float_col. rewrite forallb_forall. intros v Hv.
  apply in_map_iff in Hv as (r' & <- & Hr). apply in_map_iff in Hr as (r & <- & _).
  rewrite cell_set_nth_same. destruct (Nat.ltb i (List.length r)); [|reflexivity].
  destruct (number_or_zero_num (cell_at i r)) as [q ->]. reflexivity.
Qed.

Lemma sort_values_desc_float (d : DataFrame) (c : string) (vs : list value) :
  getitem d c = Ok vs -> is_float_col vs = true ->
  exists idx, sort_values_desc d c = Ok (mkDF (columns d) (take (rows d) idx)) /\
    Permutation idx (seq 0 (len d)).
Proof.
  intros Hg Hf. destruct (nargsort_desc_spec vs Hf) as (idx & Hn & Hp & _).
  exists idx. unfold sort_values_desc. rewrite Hg. cbn [bind]. rewrite Hn.
  split; [reflexivity|]. rewrite <- (getitem_length _ _ _ Hg). exact Hp.
Qed.

Lemma col_indices_Ok (cs cols : list string) :
  (forall c, In c cs -> In c cols) -> exists ixs, col_indices cs cols = Ok ixs.
Proof.
  induction cs as [|c cs IH]; intros H; simpl; [eauto|].
  destruct (col_index_in c cols) as [i ->]; [apply H; left; reflexivity|].
  destruct IH as [ixs ->]; [intros x Hx; apply H; right; exact Hx|].
  cbn [bind]. eauto.
Qed.

End Consumer.

(** X21.  The Consumer Behavior tab on a table that has the columns
    [Wishlist] and [Plays] and a title column.  Its last table reads the
    sales and the rating column by the names the resolver gave them,
    without asking whether it gave any: when either role is unresolved
    the table raises [KeyError]; when both are resolved it holds the
    [min(10, rows)] rows at the top of the wishlist order. *)
Theorem consumer_tab_needs_sales_and_rating {L : PandasLib} (filtered : DataFrame)
    (tc : string) :
  has_cols filtered ["Wishlist"; "Plays"] = true ->
  Games.title_col (Games.resolve (columns filtered)) = Some tc ->
  (Games.global_sales_col (Games.resolve (columns filtered)) = None \/
   Games.rating_col (Games.resolve (columns filtered)) = None ->
     Games.consumer_behavior (Games.resolve (columns filtered)) filtered
     = Raise (KeyError "None")) /\
  (Games.global_sales_col (Games.resolve (columns filtered)) <> None ->
   Games.rating_col (Games.resolve (columns filtered)) <> None ->
     exists t, Games.consumer_behavior (Games.resolve (columns filtered)) filtered
               = Ok (Some t) /\
       columns t = ["Title"; "Wishlist"; "Global Sales"; "Rating"] /\
       len t = Nat.min 10 (len filtered)).
Proof.
  intros Hc Htc. simpl in Hc.
  apply andb_prop in Hc as [Hw Hc]. apply andb_prop in Hc as [Hp _].
  destruct (has_col_index _ _ Hw) as [iw Ew]. destruct (has_col_index _ _ Hp) as [ip Ep].
  pose proof Htc as Htc'. cbn [Games.resolve Games.title_col] in Htc'.
  destruct (resolved_truthy Games.is_title _ _ eq_refl Htc') as [T Hin].
  set (r := Games.resolve (columns filtered)) in *.
  unfold Games.consumer_behavior.
  rewrite (numeric_or_zero_spec "Wishlist" filtered iw Ew). cbn [bind].
  rewrite (setitem_map filtered "Wishlist" iw number_or_zero Ew).
  set (d1 := mkDF (columns filtered) _).
  rewrite (numeric_or_zero_spec "Plays" d1 ip Ep). cbn [bind].
  rewrite (setitem_map d1 "Plays" ip number_or_zero Ep).
  set (d2 := mkDF (columns d1) _).
  assert (Hcols : columns d2 = columns filtered) by reflexivity.
  assert (Hlen : len d2 = len filtered).
  { unfold len, d2, d1. cbn [rows]. rewrite !length_map. reflexivity. }
  assert (Hf : exists ws, getitem d2 "Wishlist" = Ok ws /\ is_float_col ws = true).
  { unfold getitem. rewrite Hcols, Ew. eexists. split; [reflexivity|].
    unfold d2. cbn [rows].
    destruct (Nat.eq_dec ip iw) as [->|Hne].
    - apply float_after_set.
    - rewrite map_map.
      rewrite (map_ext _ (cell_at iw)
                 (fun r => cell_set_nth_other ip iw _ r Hne)).
      unfold d1. cbn [rows]. apply float_after_set. }
  destruct Hf as (ws & Hws & Hfl).
  destruct (sort_values_desc_float d2 "Wishlist" ws Hws Hfl) as (idx & Hs & Hperm).
  unfold Games.top_wishlist. rewrite Htc, T, Hs. cbn [bind].
  split.
  - intros Hnone. unfold select_cols_opt.
    destruct Hnone as [-> | ->]; cbn [forallb andb]; [reflexivity|].
    destruct (Games.global_sales_col r); reflexivity.
  - intros Hg Hr.
    destruct (Games.global_sales_col r) as [gs|] eqn:Eg; [|congruence].
    destruct (Games.rating_col r) as [rc|] eqn:Er; [|congruence].
    unfold select_cols_opt. cbn [forallb andb map label].
    unfold select_cols. cbn [head columns rows].
    destruct (col_indices_Ok [tc; "Wishlist"; gs; rc] (columns d2)) as [ixs ->].
    { rewrite Hcols. intros c [<-|[<-|[<-|[<-|[]]]]].
      - exact Hin.
      - apply col_index_Some in Ew. eapply nth_error_In. exact Ew.
      - apply (next_match_in Games.is_global_sales). exact Eg.
      - apply (next_match_in Games.is_rating). exact Er. }
    cbn [bind]. eexists. split; [reflexivity|]. split; [reflexivity|].
    unfold len. cbn [rows]. rewrite length_map, length_firstn, take_length.
    rewrite (Permutation_length Hperm), length_seq, Hlen. reflexivity.
Qed.

Lemma consumer_tab_needs_sales_and_rating_witness :
  Games.consumer_behavior (L := naive)
    (Games.resolve ["Title"; "Wishlist"; "Plays"])
    (mkDF ["Title"; "Wishlist"; "Plays"] [[VStr "Sedan"; VNum 10; VNum 5]])
  = Raise (KeyError "None").
Proof.
  refine (proj1 (consumer_tab_needs_sales_and_rating (L := naive)
                   (mkDF ["Title"; "Wishlist"; "Plays"]
                      [[VStr "Sedan"; VNum 10; VNum 5]])
                   "Title" eq_refl eq_refl) _).
  left. reflexivity.
Defined.

(** ** The yearly series *)

Section Ascending.

Context {L : PandasLib}.





End Ascending.



(** ** The ride-hailing page as a whole *)





Section RidePage.

Context {L : PandasLib}.



End RidePage.


